(** * Pod networking for the kvm flavor (networking/kvm.go)

    A shallow embedding of the provisioning and teardown code of
    [kvm.go]: the lease-file reader, the flannel delegate transformer, the
    tap / bridge / macvtap provisioning helpers, the address allocation
    step and the teardown loop, together with a small model of the host
    they drive (links, addresses, routes, files, plugin processes).

    Conventions.
    - A Go function returning [(T, error)] is a computation [M S T] over
      an explicit state [S]; a Go run-time panic is a third outcome.
    - A pointer argument that the code writes through ([*ActiveNet]) is
      part of the state the computation threads.
    - Errors keep the format string and the arguments of
      [fmt.Errorf] / [errors.New]; [errwrap.Wrap] is [Wrap]. *)

From Stdlib Require Import ZArith Ascii String DecimalString Lia.
From stdpp Require Import base option list gmap strings sorting.

Set Warnings "-register-all,-clear-no-such-hyp".

Open Scope string_scope.
Open Scope Z_scope.
Open Scope list_scope.

(** ** Errors and outcomes *)

Inductive errno := EEXIST | ENOENT | ENODEV | ESRCH | EINVAL | EPERM | EIO.

Inductive Error :=
| Errno (e : errno)                         (* syscall.Errno *)
| PathError (op path : string) (e : errno)  (* *os.PathError *)
| ParseError (ty text : string)             (* *net.ParseError *)
| NumError (fn num : string) (range : bool) (* *strconv.NumError; range: ErrRange, else ErrSyntax *)
| ErrTooLong                                (* bufio.ErrTooLong *)
| JSONError (what : string)                 (* encoding/json decoding errors *)
| ExecError (what : string)                 (* what a failed plugin run reports *)
| Errorf (format : string) (args : list string)
| Wrap (outer inner : Error).

Definition errors_New (s : string) : Error := Errorf s [].

#[global] Instance errno_eq_dec : EqDecision errno.
Proof. solve_decision. Defined.

#[global] Instance Error_eq_dec : EqDecision Error.
Proof.
  refine (fix go (x y : Error) : Decision (x = y) :=
    match x, y with
    | Errno a, Errno b => cast_if (decide (a = b))
    | PathError a b c, PathError a' b' c' =>
        cast_if_and3 (decide (a = a')) (decide (b = b')) (decide (c = c'))
    | ParseError a b, ParseError a' b' => cast_if_and (decide (a = a')) (decide (b = b'))
    | NumError a b c, NumError a' b' c' =>
        cast_if_and3 (decide (a = a')) (decide (b = b')) (decide (c = c'))
    | ErrTooLong, ErrTooLong => left _
    | JSONError a, JSONError b => cast_if (decide (a = b))
    | ExecError a, ExecError b => cast_if (decide (a = b))
    | Errorf a b, Errorf a' b' => cast_if_and (decide (a = a')) (decide (b = b'))
    | Wrap a b, Wrap a' b' => cast_if_and (go a a') (go b b')
    | _, _ => right _
    end); try abstract congruence; reflexivity.
Defined.

(** The outcome of a call: a value, a returned error, or a run-time panic. *)
Inductive outcome (A : Type) :=
| Ok (a : A)
| Err (e : Error)
| Panic (why : string).
Arguments Ok {A} a.
Arguments Err {A} e.
Arguments Panic {A} why.

(** Pure code that can fail or panic. *)
Definition obind {A B} (r : outcome A) (k : A -> outcome B) : outcome B :=
  match r with
  | Ok a => k a
  | Err e => Err e
  | Panic s => Panic s
  end.

(** Stateful code: Go statements run against a state [S]. *)
Definition M (S A : Type) : Type := S -> outcome A * S.

Definition ret {S A} (a : A) : M S A := fun s => (Ok a, s).
Definition fail {S A} (e : Error) : M S A := fun s => (Err e, s).
Definition panic {S A} (why : string) : M S A := fun s => (Panic why, s).
Definition bind {S A B} (m : M S A) (k : A -> M S B) : M S B :=
  fun s => match m s with
           | (Ok a, s') => k a s'
           | (Err e, s') => (Err e, s')
           | (Panic p, s') => (Panic p, s')
           end.
(** [v, err := f(...)] followed by the code's own look at [err]. *)
Definition try {S A B} (m : M S A) (k : Error + A -> M S B) : M S B :=
  fun s => match m s with
           | (Ok a, s') => k (inr a) s'
           | (Err e, s') => k (inl e) s'
           | (Panic p, s') => (Panic p, s')
           end.
Definition gets {S A} (f : S -> A) : M S A := fun s => (Ok (f s), s).
Definition modify {S} (f : S -> S) : M S unit := fun s => (Ok tt, f s).
Definition lift {S A} (r : outcome A) : M S A := fun s => (r, s).

Declare Scope go_scope.
Delimit Scope go_scope with go.
Notation "x <- m ;; k" := (bind m (fun x => k))
  (at level 100, m at next level, right associativity) : go_scope.
Notation "m ;;; k" := (bind m (fun _ => k))
  (at level 100, right associativity) : go_scope.

(** ** The Go library functions the code calls on text *)

Definition chars (s : string) : list ascii := list_ascii_of_string s.
Definition text (l : list ascii) : string := string_of_list_ascii l.

(** [uitoa] / [%d] on a non-negative number. *)
Definition itoa (z : Z) : string := NilZero.string_of_uint (N.to_uint (Z.to_N z)).

(** [s[lo:hi]] on a string; slicing past the end panics. *)
Definition slice (s : string) (lo hi : nat) : outcome string :=
  if (bool_decide (lo ≤ hi)%nat && bool_decide (hi ≤ String.length s)%nat)%bool
  then Ok (substring lo (hi - lo) s)
  else Panic "slice bounds out of range".

(** [l[i]] on a slice; indexing past the end panics. *)
Definition index {A} (l : list A) (i : nat) : outcome A :=
  match l !! i with
  | Some x => Ok x
  | None => Panic "index out of range"
  end.

(** First occurrence of the separator: the text before it and after it. *)
Fixpoint cut (sep : ascii) (s : string) : option (string * string) :=
  match s with
  | EmptyString => None
  | String c s' =>
      if bool_decide (c = sep) then Some (EmptyString, s')
      else match cut sep s' with
           | Some (a, b) => Some (String c a, b)
           | None => None
           end
  end.

(** [strings.SplitN(s, sep, n)] for a one-character separator and [n >= 0]:
    at most [n] pieces, the last one being the unsplit remainder. *)
Fixpoint strings_SplitN (s : string) (sep : ascii) (n : nat) : list string :=
  match n with
  | O => []
  | S O => [s]
  | S n' => match cut sep s with
            | None => [s]
            | Some (a, b) => a :: strings_SplitN b sep n'
            end
  end.

(** [bufio.ScanLines]: the lines of the input as the scanner meets them, each
    without its newline; a last line without newline counts when it is not
    empty. *)
Fixpoint rawLines (cur : list ascii) (s : string) : list string :=
  match s with
  | EmptyString => match cur with [] => [] | _ => [text (rev cur)] end
  | String c s' =>
      if bool_decide (c = "010"%char) then text (rev cur) :: rawLines [] s'
      else rawLines (c :: cur) s'
  end.

Definition dropCR (l : string) : string :=
  match rev (chars l) with
  | c :: r => if bool_decide (c = "013"%char) then text (rev r) else l
  | [] => l
  end.

(** [bufio.MaxScanTokenSize]: a line that fills the buffer ends the scan
    with [ErrTooLong]. *)
Definition MaxScanTokenSize : Z := 65536.

Definition is_digit (c : ascii) : bool :=
  (48 <=? Z.of_nat (nat_of_ascii c)) && (Z.of_nat (nat_of_ascii c) <=? 57).
Definition digit_val (c : ascii) : Z := Z.of_nat (nat_of_ascii c) - 48.

(** [strconv.ParseUint(s, 10, 32)]. *)
Fixpoint parseUint_loop (orig : string) (n : Z) (s : list ascii) : outcome Z :=
  match s with
  | [] => Ok n
  | c :: s' =>
      if negb (is_digit c) then Err (NumError "ParseUint" orig false)
      else let n1 := n * 10 + digit_val c in
           if 4294967295 <? n1 then Err (NumError "ParseUint" orig true)
           else parseUint_loop orig n1 s'
  end.

Definition strconv_ParseUint32 (s : string) : outcome Z :=
  match chars s with
  | [] => Err (NumError "ParseUint" s false)
  | cs => parseUint_loop s 0 cs
  end.

(** *** package net (IPv4) *)

(** [net.IP] and [net.IPMask] are byte slices; [[]] is the nil slice. *)
Definition IP := list Z.
Definition IPMask := list Z.

Record IPNet := { ipnet_IP : IP; ipnet_Mask : IPMask }.

#[global] Instance IPNet_eq_dec : EqDecision IPNet.
Proof. solve_decision. Defined.

Definition IPv4len : nat := 4.
Definition IPv6len : nat := 16.
Definition v4InV6Prefix : list Z := [0; 0; 0; 0; 0; 0; 0; 0; 0; 0; 255; 255].

Definition IPv4 (a b c d : Z) : IP := v4InV6Prefix ++ [a; b; c; d].

(** [dtoi]: decimal to integer at the head of [s]; the number, the rest of
    the text and whether a number was read. *)
Definition big : Z := 16777215.

Fixpoint dtoi_loop (n : Z) (any : bool) (s : list ascii) : Z * list ascii * bool :=
  match s with
  | c :: s' =>
      if is_digit c then
        let n' := n * 10 + digit_val c in
        if big <=? n' then (0, s, false) else dtoi_loop n' true s'
      else (if any then n else 0, s, any)
  | [] => (if any then n else 0, s, any)
  end.

Definition dtoi (s : list ascii) : Z * list ascii * bool := dtoi_loop 0 false s.

(** [parseIPv4]: four decimal octets separated by dots; [None] is Go's nil. *)
Fixpoint parseIPv4_loop (j : nat) (first : bool) (s : list ascii) (acc : list Z)
  : option (list Z) :=
  match j with
  | O => match s with [] => Some acc | _ => None end
  | S j' =>
      match s with
      | [] => None
      | c :: s' =>
          let after_dot :=
            if first then Some s
            else if bool_decide (c = "."%char) then Some s' else None in
          match after_dot with
          | None => None
          | Some t =>
              match dtoi t with
              | (n, rest, ok) =>
                  if negb ok || (255 <? n) then None
                  else parseIPv4_loop j' false rest (acc ++ [n])
              end
          end
      end
  end.

Definition parseIPv4 (s : string) : option IP :=
  match parseIPv4_loop 4 true (chars s) [] with
  | Some [a; b; c; d] => Some (IPv4 a b c d)
  | _ => None
  end.

(** [net.CIDRMask(ones, bits)] for [bits = 32]. *)
Fixpoint CIDRMask_bytes (ones : Z) (n : nat) : list Z :=
  match n with
  | O => []
  | S n' =>
      (if 8 <=? ones then 255
       else if ones <=? 0 then 0
       else Z.land 255 (Z.shiftl 255 (8 - ones)))
      :: CIDRMask_bytes (ones - 8) n'
  end.

Definition CIDRMask32 (ones : Z) : IPMask := CIDRMask_bytes ones 4.

Definition allFF (l : list Z) : bool := forallb (Z.eqb 255) l.
Definition isZeros (l : list Z) : bool := forallb (Z.eqb 0) l.

(** [IP.To4]: the 4-byte form of an IPv4 address, [[]] when it is none. *)
Definition To4 (ip : IP) : IP :=
  if bool_decide (length ip = IPv4len) then ip
  else if bool_decide (length ip = IPv6len)
          && isZeros (take 10 ip)
          && bool_decide (ip !! 10%nat = Some 255)
          && bool_decide (ip !! 11%nat = Some 255)
       then drop 12 ip
       else [].

(** [IP.Mask]. *)
Definition IP_Mask (ip : IP) (mask : IPMask) : IP :=
  let mask := if bool_decide (length mask = IPv6len) && bool_decide (length ip = IPv4len)
                 && allFF (take 12 mask)
              then drop 12 mask else mask in
  let ip := if bool_decide (length mask = IPv4len) && bool_decide (length ip = IPv6len)
               && bool_decide (take 12 ip = v4InV6Prefix)
            then drop 12 ip else ip in
  if bool_decide (length ip = length mask)
  then zip_with Z.land ip mask
  else [].

(** [net.ParseCIDR], second result. The IPv6 branch of the library is not
    part of this model: an address that is not dotted IPv4 is a parse
    error here. *)
Definition net_ParseCIDR (s : string) : outcome IPNet :=
  match cut "/"%char s with
  | None => Err (ParseError "CIDR address" s)
  | Some (addr, mask) =>
      match parseIPv4 addr, dtoi (chars mask) with
      | Some ip, (n, rest, ok) =>
          if negb ok || negb (bool_decide (rest = [])) || (n <? 0) || (32 <? n)
          then Err (ParseError "CIDR address" s)
          else let m := CIDRMask32 n in
               Ok {| ipnet_IP := IP_Mask ip m; ipnet_Mask := m |}
      | None, _ => Err (ParseError "CIDR address" s)
      end
  end.

(** [simpleMaskLength]: the number of leading ones of a mask made of ones
    followed by zeros, [-1] for any other mask. *)
Fixpoint simpleMaskLength (m : IPMask) : Z :=
  match m with
  | [] => 0
  | b :: m' =>
      if b =? 255 then
        match simpleMaskLength m' with
        | -1 => -1
        | n => 8 + n
        end
      else
        let ones :=
          if b =? 0 then 0 else if b =? 128 then 1 else if b =? 192 then 2
          else if b =? 224 then 3 else if b =? 240 then 4 else if b =? 248 then 5
          else if b =? 252 then 6 else if b =? 254 then 7 else -1 in
        if (ones =? -1) || negb (isZeros m') then -1 else ones
  end.

Definition hexdigit (z : Z) : ascii :=
  ascii_of_nat (Z.to_nat (if z <? 10 then 48 + z else 87 + z)).

(** [IPMask.String]: lower-case hexadecimal, two digits a byte. *)
Definition IPMask_String (m : IPMask) : string :=
  match m with
  | [] => "<nil>"
  | _ => text (flat_map (fun b => [hexdigit (b / 16); hexdigit (b mod 16)]) m)
  end.

(** [IP.String]; the IPv6 text form is outside this model. *)
Definition IP_String (ip : IP) : string :=
  match ip with
  | [] => "<nil>"
  | _ => match To4 ip with
         | [a; b; c; d] => itoa a +:+ "." +:+ itoa b +:+ "." +:+ itoa c +:+ "." +:+ itoa d
         | _ => "?"
         end
  end.

(** [networkNumberAndMask]. *)
Definition networkNumberAndMask (n : IPNet) : option (IP * IPMask) :=
  let ip4 := To4 (ipnet_IP n) in
  let ip := match ip4 with [] => ipnet_IP n | _ => ip4 end in
  if (match ip4 with [] => negb (bool_decide (length ip = IPv6len)) | _ => false end)
  then None
  else
    let m := ipnet_Mask n in
    if bool_decide (length m = IPv4len) then
      if bool_decide (length ip = IPv4len) then Some (ip, m) else None
    else if bool_decide (length m = IPv6len) then
      Some (ip, if bool_decide (length ip = IPv4len) then drop 12 m else m)
    else None.

(** [IPNet.String]. *)
Definition IPNet_String (n : IPNet) : string :=
  match networkNumberAndMask n with
  | None => "<nil>"
  | Some (nn, m) =>
      let l := simpleMaskLength m in
      if l =? -1 then IP_String nn +:+ "/" +:+ IPMask_String m
      else IP_String nn +:+ "/" +:+ itoa l
  end.

(** [net.IPv4Mask(a, b, c, d)]. *)
Definition IPv4Mask (a b c d : Z) : IPMask := [a; b; c; d].

(** ** JSON documents and Go dynamic values *)

(** A JSON document as [encoding/json] reads it: object members in
    document order (a key may occur twice; the last one wins). Numbers are
    integer literals, the only numbers the configuration fields take. *)
Inductive JSON :=
| JNull
| JBool (b : bool)
| JNum (z : Z)
| JStr (s : string)
| JArr (l : list JSON)
| JObj (members : list (string * JSON)).

(** [cnitypes.Route]. *)
Record CniRoute := { route_Dst : IPNet; route_GW : IP }.

(** A value held in an [interface{}]: what [json.Unmarshal] stores
    ([nil], [bool], [float64], [string], [[]interface{}],
    [map[string]interface{}]) and what the transformer stores itself
    ([int], [[]cnitypes.Route]). *)
Inductive Any :=
| ANil
| ABool (b : bool)
| AFloat64 (z : Z)
| AInt (z : Z)
| AString (s : string)
| ASlice (l : list Any)
| AMap (m : gmap string Any)
| ARoutes (l : list CniRoute).

Abbreviation GoMap := (gmap string Any).

(** [json.Unmarshal] into an [interface{}]. *)
Fixpoint decodeAny (j : JSON) : Any :=
  match j with
  | JNull => ANil
  | JBool b => ABool b
  | JNum z => AFloat64 z
  | JStr s => AString s
  | JArr l => ASlice (map decodeAny l)
  | JObj o =>
      AMap ((fix members (o : list (string * JSON)) (acc : GoMap) : GoMap :=
               match o with
               | [] => acc
               | (k, v) :: o' => members o' (<[k := decodeAny v]> acc)
               end) o ∅)
  end.

(** [json.Unmarshal] of an object into a [map[string]interface{}] that may
    already hold entries. *)
Definition decodeMapInto (o : list (string * JSON)) (m : GoMap) : GoMap :=
  fold_left (fun acc kv => <[kv.1 := decodeAny kv.2]> acc) o m.

Definition members_le (x y : string * JSON) : Prop := String.leb x.1 y.1 = true.
#[global] Instance members_le_dec x y : Decision (members_le x y).
Proof. unfold members_le. apply _. Defined.

(** [Route.MarshalJSON]: [dst] as CIDR text, [gw] left out when empty. *)
Definition marshalRoute (r : CniRoute) : JSON :=
  JObj (("dst", JStr (IPNet_String (route_Dst r)))
        :: match route_GW r with
           | [] => []
           | gw => [("gw", JStr (IP_String gw))]
           end).

(** [json.Marshal]: a map is written with its keys sorted. *)
Fixpoint json_Marshal (a : Any) : JSON :=
  match a with
  | ANil => JNull
  | ABool b => JBool b
  | AFloat64 z => JNum z
  | AInt z => JNum z
  | AString s => JStr s
  | ASlice l => JArr (map json_Marshal l)
  | AMap m => JObj (merge_sort members_le (map_to_list (json_Marshal <$> m)))
  | ARoutes l => JArr (map marshalRoute l)
  end.

(** Configuration bytes: [None] when they are not a JSON document. *)
Definition Bytes := option JSON.

(** *** Decoding into the configuration structs *)

Definition lower (c : ascii) : ascii :=
  let n := nat_of_ascii c in
  if ((65 <=? n) && (n <=? 90))%nat then ascii_of_nat (n + 32) else c.
Definition fold_eq (a b : string) : bool :=
  bool_decide (map lower (chars a) = map lower (chars b)).

(** The struct field a member key goes to: an exact match on the JSON name,
    else a match that ignores case. *)
Definition field_of (fields : list string) (key : string) : option string :=
  match List.find (fun f => bool_decide (f = key)) fields with
  | Some f => Some f
  | None => List.find (fun f => fold_eq f key) fields
  end.

Definition dec_string (field : string) (v : JSON) (cur : string) : outcome string :=
  match v with
  | JStr s => Ok s
  | JNull => Ok cur
  | _ => Err (JSONError ("cannot unmarshal into Go value of type string: " +:+ field))
  end.
Definition dec_bool (field : string) (v : JSON) (cur : bool) : outcome bool :=
  match v with
  | JBool b => Ok b
  | JNull => Ok cur
  | _ => Err (JSONError ("cannot unmarshal into Go value of type bool: " +:+ field))
  end.
Definition dec_int (field : string) (v : JSON) (cur : Z) : outcome Z :=
  match v with
  | JNum z =>
      if (-9223372036854775808 <=? z) && (z <=? 9223372036854775807) then Ok z
      else Err (JSONError ("cannot unmarshal number into Go value of type int: " +:+ field))
  | JNull => Ok cur
  | _ => Err (JSONError ("cannot unmarshal into Go value of type int: " +:+ field))
  end.

(** Decoding the members of an object one after the other into a struct;
    a member no field takes is skipped. The first decoding error is what
    [Unmarshal] reports. *)
Fixpoint dec_members {T} (set : string -> JSON -> T -> outcome T)
    (o : list (string * JSON)) (t : T) : outcome T :=
  match o with
  | [] => Ok t
  | (k, v) :: o' => obind (set k v t) (dec_members set o')
  end.

Definition dec_struct {T} (what : string) (set : string -> JSON -> T -> outcome T)
    (b : Bytes) (t : T) : outcome T :=
  match b with
  | None => Err (JSONError "invalid character")
  | Some JNull => Ok t
  | Some (JObj o) => dec_members set o t
  | Some _ => Err (JSONError ("cannot unmarshal into Go value of type " +:+ what))
  end.

(** ** Data model *)

(** Modelled from the spec: [nettypes.NetConf], declared in a file that is
    not among the sources at hand. It holds the "common fields
    [{name, type, mtu, ipMasq, ipam:{type, ...}}]" of a network
    configuration; the code reads and writes [Name], [Type], [IPAM.Type],
    [IPMasq] and [MTU]. *)
Record NetConf := {
  conf_Name : string;
  conf_Type : string;
  conf_IPAM_Type : string;
  conf_IPMasq : bool;
  conf_MTU : Z;
}.

Definition NetConf_zero : NetConf :=
  {| conf_Name := ""; conf_Type := ""; conf_IPAM_Type := "";
     conf_IPMasq := false; conf_MTU := 0 |}.

Definition set_conf_Name (v : string) (c : NetConf) : NetConf :=
  {| conf_Name := v; conf_Type := conf_Type c; conf_IPAM_Type := conf_IPAM_Type c;
     conf_IPMasq := conf_IPMasq c; conf_MTU := conf_MTU c |}.
Definition set_conf_Type (v : string) (c : NetConf) : NetConf :=
  {| conf_Name := conf_Name c; conf_Type := v; conf_IPAM_Type := conf_IPAM_Type c;
     conf_IPMasq := conf_IPMasq c; conf_MTU := conf_MTU c |}.
Definition set_conf_IPAM_Type (v : string) (c : NetConf) : NetConf :=
  {| conf_Name := conf_Name c; conf_Type := conf_Type c; conf_IPAM_Type := v;
     conf_IPMasq := conf_IPMasq c; conf_MTU := conf_MTU c |}.
Definition set_conf_IPMasq (v : bool) (c : NetConf) : NetConf :=
  {| conf_Name := conf_Name c; conf_Type := conf_Type c; conf_IPAM_Type := conf_IPAM_Type c;
     conf_IPMasq := v; conf_MTU := conf_MTU c |}.
Definition set_conf_MTU (v : Z) (c : NetConf) : NetConf :=
  {| conf_Name := conf_Name c; conf_Type := conf_Type c; conf_IPAM_Type := conf_IPAM_Type c;
     conf_IPMasq := conf_IPMasq c; conf_MTU := v |}.

Definition NetConf_fields : list string := ["name"; "type"; "ipam"; "ipMasq"; "mtu"].

Definition set_ipam (k : string) (v : JSON) (c : NetConf) : outcome NetConf :=
  match field_of ["type"] k with
  | Some _ => obind (dec_string "ipam.type" v (conf_IPAM_Type c))
                    (fun s => Ok (set_conf_IPAM_Type s c))
  | None => Ok c
  end.

(** One member of a configuration object, for the fields of [NetConf]. *)
Definition set_NetConf (field : string) (v : JSON) (c : NetConf) : outcome NetConf :=
  if bool_decide (field = "name") then
    obind (dec_string field v (conf_Name c)) (fun s => Ok (set_conf_Name s c))
  else if bool_decide (field = "type") then
    obind (dec_string field v (conf_Type c)) (fun s => Ok (set_conf_Type s c))
  else if bool_decide (field = "ipam") then
    match v with
    | JObj o => dec_members set_ipam o c
    | JNull => Ok c
    | _ => Err (JSONError "cannot unmarshal into Go value of type struct: ipam")
    end
  else if bool_decide (field = "ipMasq") then
    obind (dec_bool field v (conf_IPMasq c)) (fun b => Ok (set_conf_IPMasq b c))
  else if bool_decide (field = "mtu") then
    obind (dec_int field v (conf_MTU c)) (fun z => Ok (set_conf_MTU z c))
  else Ok c.

(** [cnitypes.IPConfig] and [cnitypes.Result]. *)
Record IPConfig := {
  ipc_IP : IPNet;
  ipc_Gateway : IP;
  ipc_Routes : list CniRoute;
}.

Record Result := { res_IP4 : option IPConfig }.

Definition IPConfig_zero : IPConfig :=
  {| ipc_IP := {| ipnet_IP := []; ipnet_Mask := [] |}; ipc_Gateway := []; ipc_Routes := [] |}.

(** Modelled from the spec: [netinfo.NetInfo], declared in a file that is
    not among the sources at hand: the "runtime state (assigned IP, mask,
    gateway, host IP, assigned host interface name)" of a descriptor,
    with the full IPv4 block the code keeps in [IP4]. *)
Record NetInfo := {
  rt_IfName : string;
  rt_IP : IP;
  rt_Mask : IP;
  rt_HostIP : IP;
  rt_IP4 : option IPConfig;
}.

Definition NetInfo_zero : NetInfo :=
  {| rt_IfName := ""; rt_IP := []; rt_Mask := []; rt_HostIP := []; rt_IP4 := None |}.

Definition set_rt_IfName (v : string) (r : NetInfo) : NetInfo :=
  {| rt_IfName := v; rt_IP := rt_IP r; rt_Mask := rt_Mask r; rt_HostIP := rt_HostIP r;
     rt_IP4 := rt_IP4 r |}.

(** Modelled from the spec: [nettypes.ActiveNet], declared in a file that
    is not among the sources at hand: a network descriptor with its "raw
    configuration bytes, parsed configuration ..., runtime state". [Conf]
    and [Runtime] are pointers in the code; every descriptor owns its
    own. *)
Record ActiveNet := {
  ConfBytes : Bytes;
  Conf : NetConf;
  Runtime : NetInfo;
}.

Definition set_Conf (c : NetConf) (n : ActiveNet) : ActiveNet :=
  {| ConfBytes := ConfBytes n; Conf := c; Runtime := Runtime n |}.
Definition set_Runtime (r : NetInfo) (n : ActiveNet) : ActiveNet :=
  {| ConfBytes := ConfBytes n; Conf := Conf n; Runtime := r |}.

Record BridgeNetConf := {
  br_NetConf : NetConf;
  BrName : string;   (* json:"bridge" *)
  IsGw : bool;       (* json:"isGateway" *)
}.

Record MacVTapNetConf := {
  mv_NetConf : NetConf;
  Master : string;   (* json:"master" *)
  Mode : string;     (* json:"mode" *)
}.

Record FlannelNetConf := {
  fl_NetConf : NetConf;
  SubnetFile : string;        (* json:"subnetFile" *)
  Delegate : option GoMap;    (* json:"delegate"; [None] is the nil map *)
}.

Definition set_Bridge (k : string) (v : JSON) (c : BridgeNetConf) : outcome BridgeNetConf :=
  match field_of (NetConf_fields ++ ["bridge"; "isGateway"]) k with
  | None => Ok c
  | Some f =>
      if bool_decide (f = "bridge") then
        obind (dec_string f v (BrName c))
              (fun s => Ok {| br_NetConf := br_NetConf c; BrName := s; IsGw := IsGw c |})
      else if bool_decide (f = "isGateway") then
        obind (dec_bool f v (IsGw c))
              (fun b => Ok {| br_NetConf := br_NetConf c; BrName := BrName c; IsGw := b |})
      else
        obind (set_NetConf f v (br_NetConf c))
              (fun nc => Ok {| br_NetConf := nc; BrName := BrName c; IsGw := IsGw c |})
  end.

Definition set_MacVTap (k : string) (v : JSON) (c : MacVTapNetConf) : outcome MacVTapNetConf :=
  match field_of (NetConf_fields ++ ["master"; "mode"]) k with
  | None => Ok c
  | Some f =>
      if bool_decide (f = "master") then
        obind (dec_string f v (Master c))
              (fun s => Ok {| mv_NetConf := mv_NetConf c; Master := s; Mode := Mode c |})
      else if bool_decide (f = "mode") then
        obind (dec_string f v (Mode c))
              (fun s => Ok {| mv_NetConf := mv_NetConf c; Master := Master c; Mode := s |})
      else
        obind (set_NetConf f v (mv_NetConf c))
              (fun nc => Ok {| mv_NetConf := nc; Master := Master c; Mode := Mode c |})
  end.

Definition set_Flannel (k : string) (v : JSON) (c : FlannelNetConf) : outcome FlannelNetConf :=
  match field_of (NetConf_fields ++ ["subnetFile"; "delegate"]) k with
  | None => Ok c
  | Some f =>
      if bool_decide (f = "subnetFile") then
        obind (dec_string f v (SubnetFile c))
              (fun s => Ok {| fl_NetConf := fl_NetConf c; SubnetFile := s;
                              Delegate := Delegate c |})
      else if bool_decide (f = "delegate") then
        match v with
        | JObj o =>
            Ok {| fl_NetConf := fl_NetConf c; SubnetFile := SubnetFile c;
                  Delegate := Some (decodeMapInto o (default ∅ (Delegate c))) |}
        | JNull =>
            Ok {| fl_NetConf := fl_NetConf c; SubnetFile := SubnetFile c; Delegate := None |}
        | _ => Err (JSONError "cannot unmarshal into Go value of type map[string]interface {}")
        end
      else
        obind (set_NetConf f v (fl_NetConf c))
              (fun nc => Ok {| fl_NetConf := nc; SubnetFile := SubnetFile c;
                               Delegate := Delegate c |})
  end.

(** [json.Unmarshal(bytes, &config)] for the three configuration structs. *)
Definition json_Unmarshal_Bridge : Bytes -> BridgeNetConf -> outcome BridgeNetConf :=
  dec_struct "BridgeNetConf" set_Bridge.
Definition json_Unmarshal_MacVTap : Bytes -> MacVTapNetConf -> outcome MacVTapNetConf :=
  dec_struct "MacVTapNetConf" set_MacVTap.
Definition json_Unmarshal_Flannel : Bytes -> FlannelNetConf -> outcome FlannelNetConf :=
  dec_struct "FlannelNetConf" set_Flannel.

(** Modelled from the spec: [ForwardedPort], "protocol, host port, pod
    port". *)
Record ForwardedPort := { Protocol : string; HostPort : Z; PodPort : Z }.

(** Modelled from the spec: [Networking] with its embedded [podEnv], "pod
    root path, pod identifier, ordered sequence of NetworkDescriptors, ...,
    local configuration override path", with the fields [kvmSetup] fills.
    [podID] is the UUID in its text form. *)
Record Networking := {
  podRoot : string;
  podID : string;
  netsLoadList : list string;
  localConfig : string;
  nets : list ActiveNet;
}.

(** ** The host: kernel objects, files, plugin processes *)

Inductive MacvlanMode :=
| MACVLAN_MODE_PRIVATE | MACVLAN_MODE_VEPA | MACVLAN_MODE_BRIDGE | MACVLAN_MODE_PASSTHRU.

(** The dynamic type of a [netlink.Link]. *)
Inductive LinkType :=
| Device
| Tuntap
| Bridge
| Macvtap (mode : MacvlanMode).

(** A [netlink.Link]: its type and the [LinkAttrs] the code uses. The same
    record is a link of the kernel and the snapshot of one in the program. *)
Record Link := {
  l_type : LinkType;
  l_Name : string;
  l_Index : Z;
  l_MTU : Z;
  l_ParentIndex : Z;
  l_MasterIndex : Z;
  l_up : bool;
}.

Definition set_l_Index (i : Z) (l : Link) : Link :=
  {| l_type := l_type l; l_Name := l_Name l; l_Index := i; l_MTU := l_MTU l;
     l_ParentIndex := l_ParentIndex l; l_MasterIndex := l_MasterIndex l; l_up := l_up l |}.
Definition set_l_up (b : bool) (l : Link) : Link :=
  {| l_type := l_type l; l_Name := l_Name l; l_Index := l_Index l; l_MTU := l_MTU l;
     l_ParentIndex := l_ParentIndex l; l_MasterIndex := l_MasterIndex l; l_up := b |}.
Definition set_l_MasterIndex (i : Z) (l : Link) : Link :=
  {| l_type := l_type l; l_Name := l_Name l; l_Index := l_Index l; l_MTU := l_MTU l;
     l_ParentIndex := l_ParentIndex l; l_MasterIndex := i; l_up := l_up l |}.

Inductive Scope := SCOPE_UNIVERSE | SCOPE_SITE | SCOPE_LINK | SCOPE_HOST | SCOPE_NOWHERE.

(** [netlink.Route]. *)
Record Route := {
  r_LinkIndex : Z;
  r_Scope : Scope;
  r_Dst : option IPNet;
  r_Src : IP;
  r_Gw : IP;
}.

(** [netlink.Addr] on a link. *)
Record Addr := {
  a_LinkIndex : Z;
  a_IPNet : IPNet;
  a_Label : string;
}.

(** The chain of [getChainName]: ["CNI-" + confName + "-" + hex] where [hex]
    is the first 8 bytes of the SHA-512 of the pod UUID text. The digest is
    kept symbolic: a chain name is its two arguments. *)
Record ChainName := { chain_conf : string; chain_pod : string }.

Record MasqRule := { masq_net : IPNet; masq_chain : ChainName; masq_comment : string }.

#[global] Instance MacvlanMode_eq_dec : EqDecision MacvlanMode.
Proof. solve_decision. Defined.
#[global] Instance LinkType_eq_dec : EqDecision LinkType.
Proof. solve_decision. Defined.
#[global] Instance Link_eq_dec : EqDecision Link.
Proof. solve_decision. Defined.
#[global] Instance Scope_eq_dec : EqDecision Scope.
Proof. solve_decision. Defined.
#[global] Instance Route_eq_dec : EqDecision Route.
Proof. solve_decision. Defined.
#[global] Instance Addr_eq_dec : EqDecision Addr.
Proof. solve_decision. Defined.
#[global] Instance ChainName_eq_dec : EqDecision ChainName.
Proof. solve_decision. Defined.
#[global] Instance MasqRule_eq_dec : EqDecision MasqRule.
Proof. solve_decision. Defined.

Record Kernel := {
  k_links : list Link;
  k_addrs : list Addr;
  k_routes : list Route;          (* the IPv4 main table *)
  k_ip4_forward : bool;
  k_masq : list MasqRule;
  k_portfw : list (ForwardedPort * IP);
}.

(** Every call that leaves the program. *)
Inductive Call :=
| CLinkByName (name : string)
| CLinkAdd (l : Link)
| CLinkDel (l : Link)
| CLinkSetUp (l : Link)
| CLinkSetMaster (l master : Link)
| CAddrList (l : Link)
| CAddrAdd (l : Link) (a : IPNet)
| CRouteList (l : Link)
| CRouteDel (r : Route)
| CRouteAdd (r : Route)
| CCreatePersistentIface (nameTemplate : string)
| CRemovePersistentIface (name : string)
| CEnableIP4Forward
| CSetupIPMasq (ipn : IPNet) (chain : ChainName) (comment : string)
| CTeardownIPMasq (ipn : IPNet) (chain : ChainName) (comment : string)
| CExecNetPlugin (cmd plugin ifName : string) (stdin : Bytes)
| CLoadNets
| CForwardPorts (fps : list ForwardedPort) (ip : IP)
| CUnforwardPorts.

(** What the logger [stderr] of the package receives. *)
Inductive LogLine :=
| PrintE (msg : string) (args : list string) (e : Error)
| Printf (format : string) (args : list string).

(** The output of a plugin run, as [json.Unmarshal] reads it into a
    [cnitypes.Result]: [None] when the bytes do not decode. *)
Definition PluginOutput := option Result.

(** The world the code runs in. [w_fault] and [w_stdout] are the
    environment's choices: whether the call made at a given moment fails
    for a reason of its own, and what a plugin process prints. Every call
    is recorded in [w_trace], oldest first. *)
Record World := {
  w_kernel : Kernel;
  w_files : gmap string string;
  w_netdefs : list ActiveNet;
  w_clock : nat;
  w_trace : list Call;
  w_log : list LogLine;
  w_fault : nat -> Call -> option Error;
  w_stdout : nat -> Call -> PluginOutput;
}.

Definition set_kernel (k : Kernel) (w : World) : World :=
  {| w_kernel := k; w_files := w_files w; w_netdefs := w_netdefs w; w_clock := w_clock w;
     w_trace := w_trace w; w_log := w_log w; w_fault := w_fault w; w_stdout := w_stdout w |}.

(** The call [c] is made: the clock moves and the call is recorded. *)
Definition called (c : Call) (w : World) : World :=
  {| w_kernel := w_kernel w; w_files := w_files w; w_netdefs := w_netdefs w;
     w_clock := S (w_clock w); w_trace := w_trace w ++ [c]; w_log := w_log w;
     w_fault := w_fault w; w_stdout := w_stdout w |}.

Definition logged (l : LogLine) (w : World) : World :=
  {| w_kernel := w_kernel w; w_files := w_files w; w_netdefs := w_netdefs w;
     w_clock := w_clock w; w_trace := w_trace w; w_log := w_log w ++ [l];
     w_fault := w_fault w; w_stdout := w_stdout w |}.

(** An external call [c] whose effect on the kernel is [sem] unless the
    environment makes it fail. *)
Definition extern {A} (c : Call) (sem : Kernel -> outcome A * Kernel) : M World A :=
  fun w =>
    match w_fault w (w_clock w) c with
    | Some e => (Err e, called c w)
    | None =>
        match sem (w_kernel w) with
        | (r, k') => (r, set_kernel k' (called c w))
        end
    end.

Definition stderr_PrintE (msg : string) (args : list string) (e : Error) : M World unit :=
  modify (logged (PrintE msg args e)).
Definition stderr_Printf (format : string) (args : list string) : M World unit :=
  modify (logged (Printf format args)).

(** *** Kernel operations (netlink, tuntap, sysctl, iptables) *)

Definition set_links (ls : list Link) (k : Kernel) : Kernel :=
  {| k_links := ls; k_addrs := k_addrs k; k_routes := k_routes k;
     k_ip4_forward := k_ip4_forward k; k_masq := k_masq k; k_portfw := k_portfw k |}.
Definition set_addrs (l : list Addr) (k : Kernel) : Kernel :=
  {| k_links := k_links k; k_addrs := l; k_routes := k_routes k;
     k_ip4_forward := k_ip4_forward k; k_masq := k_masq k; k_portfw := k_portfw k |}.
Definition set_routes (l : list Route) (k : Kernel) : Kernel :=
  {| k_links := k_links k; k_addrs := k_addrs k; k_routes := l;
     k_ip4_forward := k_ip4_forward k; k_masq := k_masq k; k_portfw := k_portfw k |}.
Definition set_ip4_forward (b : bool) (k : Kernel) : Kernel :=
  {| k_links := k_links k; k_addrs := k_addrs k; k_routes := k_routes k;
     k_ip4_forward := b; k_masq := k_masq k; k_portfw := k_portfw k |}.
Definition set_masq (l : list MasqRule) (k : Kernel) : Kernel :=
  {| k_links := k_links k; k_addrs := k_addrs k; k_routes := k_routes k;
     k_ip4_forward := k_ip4_forward k; k_masq := l; k_portfw := k_portfw k |}.
Definition set_portfw (l : list (ForwardedPort * IP)) (k : Kernel) : Kernel :=
  {| k_links := k_links k; k_addrs := k_addrs k; k_routes := k_routes k;
     k_ip4_forward := k_ip4_forward k; k_masq := k_masq k; k_portfw := l |}.

Definition link_named (k : Kernel) (name : string) : option Link :=
  List.find (fun l => bool_decide (l_Name l = name)) (k_links k).
Definition link_indexed (k : Kernel) (i : Z) : option Link :=
  List.find (fun l => bool_decide (l_Index l = i)) (k_links k).

(** netlink's [ensureIndex]: a link value without index takes the index of
    the kernel link of its name. *)
Definition ensureIndex (k : Kernel) (l : Link) : Link :=
  if l_Index l =? 0 then
    match link_named k (l_Name l) with
    | Some kl => set_l_Index (l_Index kl) l
    | None => l
    end
  else l.

Definition fresh_index (k : Kernel) : Z :=
  1 + fold_right Z.max 0 (map l_Index (k_links k)).

(** Removes the first element equal to [x]. *)
Fixpoint remove_first {A} `{EqDecision A} (x : A) (l : list A) : list A :=
  match l with
  | [] => []
  | y :: l' => if bool_decide (y = x) then l' else y :: remove_first x l'
  end.

Definition on_link (i : Z) (r : Route) : bool := bool_decide (r_LinkIndex r = i).

Definition netlink_LinkByName (name : string) : M World Link :=
  extern (CLinkByName name) (fun k =>
    match link_named k name with
    | Some l => (Ok l, k)
    | None => (Err (Errorf "Link not found" []), k)
    end).

(** [netlink.LinkAdd]: the kernel refuses a name in use with EEXIST. The
    result is the caller's link value after the call (its index filled). *)
Definition netlink_LinkAdd (l : Link) : M World Link :=
  extern (CLinkAdd l) (fun k =>
    match link_named k (l_Name l) with
    | Some _ => (Err (Errno EEXIST), k)
    | None =>
        let kl := {| l_type := l_type l; l_Name := l_Name l; l_Index := fresh_index k;
                     l_MTU := if l_MTU l =? 0 then 1500 else l_MTU l;
                     l_ParentIndex := l_ParentIndex l; l_MasterIndex := l_MasterIndex l;
                     l_up := false |} in
        let k' := set_links (k_links k ++ [kl]) k in
        (Ok (ensureIndex k' l), k')
    end).

(** The link of index [i] goes up. *)
Definition bring_up (i : Z) (x : Link) : Link :=
  if bool_decide (l_Index x = i) then set_l_up true x else x.

(** [netlink.LinkSetUp]; the result is the caller's link value afterwards. *)
Definition netlink_LinkSetUp (l : Link) : M World Link :=
  extern (CLinkSetUp l) (fun k =>
    let h := ensureIndex k l in
    match link_indexed k (l_Index h) with
    | None => (Err (Errno ENODEV), k)
    | Some _ => (Ok h, set_links (map (bring_up (l_Index h)) (k_links k)) k)
    end).

(** [netlink.LinkDel]: the link goes, and with it its addresses and routes. *)
Definition netlink_LinkDel (l : Link) : M World unit :=
  extern (CLinkDel l) (fun k =>
    let i := l_Index (ensureIndex k l) in
    match link_indexed k i with
    | None => (Err (Errno ENODEV), k)
    | Some _ =>
        (Ok tt,
         set_links (filter (fun x => l_Index x ≠ i) (k_links k))
           (set_addrs (filter (fun a => a_LinkIndex a ≠ i) (k_addrs k))
              (set_routes (filter (fun r => r_LinkIndex r ≠ i) (k_routes k)) k)))
    end).

Definition netlink_LinkSetMaster (l master : Link) : M World unit :=
  extern (CLinkSetMaster l master) (fun k =>
    let i := l_Index (ensureIndex k l) in
    let m := l_Index (ensureIndex k master) in
    match link_indexed k i, link_indexed k m with
    | Some _, Some _ =>
        (Ok tt, set_links (map (fun x => if bool_decide (l_Index x = i)
                                         then set_l_MasterIndex m x else x) (k_links k)) k)
    | _, _ => (Err (Errno ENODEV), k)
    end).

(** [netlink.AddrList(link, AF_INET)]. *)
Definition netlink_AddrList (l : Link) : M World (list Addr) :=
  extern (CAddrList l) (fun k =>
    let i := l_Index (ensureIndex k l) in
    (Ok (filter (fun a => a_LinkIndex a = i) (k_addrs k)), k)).

(** [netlink.AddrAdd]: on a link that is up the kernel also installs the
    connected route of the address. *)
Definition netlink_AddrAdd (l : Link) (ipn : IPNet) (label : string) : M World unit :=
  extern (CAddrAdd l ipn) (fun k =>
    let i := l_Index (ensureIndex k l) in
    match link_indexed k i with
    | None => (Err (Errno ENODEV), k)
    | Some kl =>
        let a := {| a_LinkIndex := i; a_IPNet := ipn; a_Label := label |} in
        if bool_decide (a ∈ k_addrs k) then (Err (Errno EEXIST), k)
        else
          let connected :=
            {| r_LinkIndex := i; r_Scope := SCOPE_LINK;
               r_Dst := Some {| ipnet_IP := IP_Mask (ipnet_IP ipn) (ipnet_Mask ipn);
                                ipnet_Mask := ipnet_Mask ipn |};
               r_Src := To4 (ipnet_IP ipn); r_Gw := [] |} in
          (Ok tt,
           set_addrs (k_addrs k ++ [a])
             (if l_up kl then set_routes (k_routes k ++ [connected]) k else k))
    end).

(** [netlink.RouteList(link, FAMILY_V4)]. *)
Definition netlink_RouteList (l : Link) : M World (list Route) :=
  extern (CRouteList l) (fun k =>
    (Ok (List.filter (on_link (l_Index (ensureIndex k l))) (k_routes k)), k)).

Definition netlink_RouteDel (r : Route) : M World unit :=
  extern (CRouteDel r) (fun k =>
    if bool_decide (r ∈ k_routes k)
    then (Ok tt, set_routes (remove_first r (k_routes k)) k)
    else (Err (Errno ESRCH), k)).

Definition netlink_RouteAdd (r : Route) : M World unit :=
  extern (CRouteAdd r) (fun k =>
    if bool_decide (r ∈ k_routes k)
    then (Err (Errno EEXIST), k)
    else (Ok tt, set_routes (k_routes k ++ [r]) k)).

(** The name the kernel gives a device created from a template ending in
    ["%d"]: the template with the lowest free number. *)
Definition template_prefix (nameTemplate : string) : option string :=
  match rev (chars nameTemplate) with
  | "d"%char :: "%"%char :: r => Some (text (rev r))
  | _ => None
  end.

Definition kernel_name (k : Kernel) (nameTemplate : string) : option string :=
  match template_prefix nameTemplate with
  | None => Some nameTemplate
  | Some p =>
      List.find (fun name => negb (bool_decide (is_Some (link_named k name))))
        (map (fun i => p +:+ itoa (Z.of_nat i)) (seq 0 (S (length (k_links k)))))
  end.

(** Modelled from the spec: [tuntap.CreatePersistentIface(nameTemplate,
    tuntap.Tap)], from a package of the repository that is not among the
    sources at hand: "create a persistent tap-kind interface named from a
    template embedding a pod-identifier fragment plus a kernel-assigned
    numeric suffix". It returns the name the kernel chose. *)
Definition tuntap_CreatePersistentIface (nameTemplate : string) : M World string :=
  extern (CCreatePersistentIface nameTemplate) (fun k =>
    match kernel_name k nameTemplate with
    | None => (Err (Errno EINVAL), k)
    | Some name =>
        match link_named k name with
        | Some l => (match l_type l with Tuntap => Ok name | _ => Err (Errno EINVAL) end, k)
        | None =>
            (Ok name,
             set_links (k_links k ++
               [{| l_type := Tuntap; l_Name := name; l_Index := fresh_index k; l_MTU := 1500;
                   l_ParentIndex := 0; l_MasterIndex := 0; l_up := false |}]) k)
        end
    end).

(** Modelled from the spec: [tuntap.RemovePersistentIface(name, tuntap.Tap)],
    from the same package: "remove the persistent tap interface". A tap
    device of that name stops being persistent and goes, with its addresses
    and routes. *)
Definition tuntap_RemovePersistentIface (name : string) : M World unit :=
  extern (CRemovePersistentIface name) (fun k =>
    match link_named k name with
    | None => (Ok tt, k)
    | Some l =>
        match l_type l with
        | Tuntap =>
            let i := l_Index l in
            (Ok tt,
             set_links (filter (fun x => l_Index x ≠ i) (k_links k))
               (set_addrs (filter (fun a => a_LinkIndex a ≠ i) (k_addrs k))
                  (set_routes (filter (fun r => r_LinkIndex r ≠ i) (k_routes k)) k)))
        | _ => (Err (Errno EINVAL), k)
        end
    end).

(** [ip.EnableIP4Forward]. *)
Definition ip_EnableIP4Forward : M World unit :=
  extern CEnableIP4Forward (fun k => (Ok tt, set_ip4_forward true k)).

(** [ip.SetupIPMasq] and [ip.TeardownIPMasq]. *)
Definition ip_SetupIPMasq (ipn : IPNet) (chain : ChainName) (comment : string) : M World unit :=
  extern (CSetupIPMasq ipn chain comment) (fun k =>
    let r := {| masq_net := ipn; masq_chain := chain; masq_comment := comment |} in
    (Ok tt, if bool_decide (r ∈ k_masq k) then k else set_masq (k_masq k ++ [r]) k)).

Definition ip_TeardownIPMasq (ipn : IPNet) (chain : ChainName) (comment : string) : M World unit :=
  extern (CTeardownIPMasq ipn chain comment) (fun k =>
    let r := {| masq_net := ipn; masq_chain := chain; masq_comment := comment |} in
    if bool_decide (r ∈ k_masq k)
    then (Ok tt, set_masq (remove_first r (k_masq k)) k)
    else (Err (ExecError "iptables: no such rule"), k)).

(** *** Methods of [Networking] / [podEnv] that live in other files *)

(** Modelled from the spec: [execNetPlugin], absent from the sources at
    hand. "An external executable named by a network's declared type is
    invoked with a command value of "ADD" or "DEL" and the target host
    interface name ...; the network's raw configuration bytes are supplied
    on the process's input stream". The call records the type the
    descriptor holds at that moment; the environment decides whether the
    run fails and what it prints. *)
Definition execNetPlugin (network : Networking) (cmd : string) (n : ActiveNet)
    (ifName : string) : M World PluginOutput :=
  fun w =>
    let c := CExecNetPlugin cmd (conf_Type (Conf n)) ifName (ConfBytes n) in
    match w_fault w (w_clock w) c with
    | Some e => (Err e, called c w)
    | None => (Ok (w_stdout w (w_clock w) c), called c w)
    end.

(** Modelled from the spec: [loadNets], absent from the sources at hand.
    The descriptors are "created (zero runtime state) when the network
    list is loaded"; [w_netdefs] holds what the pod's network list and
    configuration directories define. *)
Definition loadNets (network : Networking) : M World (list ActiveNet) :=
  fun w =>
    match w_fault w (w_clock w) CLoadNets with
    | Some e => (Err e, called CLoadNets w)
    | None => (Ok (w_netdefs w), called CLoadNets w)
    end.

(** Modelled from the spec: [GetDefaultIP], absent from the sources at
    hand: "the pod's default address (the address of its first/primary
    network)". *)
Definition GetDefaultIP (network : Networking) : IP :=
  match nets network with
  | n :: _ => rt_IP (Runtime n)
  | [] => []
  end.

(** Modelled from the spec: [forwardPorts] and [unforwardPorts], absent
    from the sources at hand: "install one forwarding rule per declared
    ForwardedPort, targeting the pod's default address", and their
    removal at teardown. *)
Definition forwardPorts (network : Networking) (fps : list ForwardedPort) (defaultIP : IP)
  : M World unit :=
  extern (CForwardPorts fps defaultIP) (fun k =>
    (Ok tt, set_portfw (k_portfw k ++ map (fun fp => (fp, defaultIP)) fps) k)).

Definition unforwardPorts (network : Networking) : M World unit :=
  extern CUnforwardPorts (fun k => (Ok tt, set_portfw [] k)).

(** *** Code that works on a descriptor through a pointer *)

(** The state of code holding [n *ActiveNet]: the world and the
    descriptor behind the pointer. *)
Definition NetState : Type := World * ActiveNet.

Definition inW {A} (m : M World A) : M NetState A :=
  fun s => match m s.1 with (r, w') => (r, (w', s.2)) end.
Definition getN : M NetState ActiveNet := gets snd.
Definition modN (f : ActiveNet -> ActiveNet) : M NetState unit :=
  modify (fun s => (s.1, f s.2)).

(** [if err != nil { return errwrap.Wrap(outer, err) }]. *)
Definition wrapping {S A} (outer : Error) (m : M S A) : M S A :=
  try m (fun r => match r with
                  | inl err => fail (Wrap outer err)
                  | inr a => ret a
                  end).

(** [err == syscall.E...]: the error is that very errno. *)
Definition is_errno (err : Error) (e : errno) : bool :=
  match err with
  | Errno e' => bool_decide (e' = e)
  | _ => false
  end.

(** ** kvm.go *)

Definition defaultBrName : string := "kvm-cni0".
Definition defaultSubnetFile : string := "/run/flannel/subnet.env".
Definition defaultMTU : Z := 1500.
Definition masqComment : string := "rkt-lkvm masquerading".

Local Open Scope go_scope.

(** [setupTapDevice] creates a persistent tap device and returns its link. *)
Definition setupTapDevice (podID : string) : M World Link :=
  prefix <- lift (slice podID 0 4);;
  let nameTemplate := "rkt-" +:+ prefix +:+ "-tap%d" in
  ifName <- wrapping (errors_New "tuntap persist")
              (tuntap_CreatePersistentIface nameTemplate);;
  link <- wrapping (Errorf "cannot find link %q" [ifName]) (netlink_LinkByName ifName);;
  link <- wrapping (Errorf "cannot set link up %q" [ifName]) (netlink_LinkSetUp link);;
  ret link.

(** The [switch config.Mode] of [setupMacVTapDevice]. *)
Definition macvtap_mode (mode : string) : Error + MacvlanMode :=
  if bool_decide (mode = "") || bool_decide (mode = "bridge") then inr MACVLAN_MODE_BRIDGE
  else if bool_decide (mode = "private") then inr MACVLAN_MODE_PRIVATE
  else if bool_decide (mode = "vepa") then inr MACVLAN_MODE_VEPA
  else if bool_decide (mode = "passthru") then inr MACVLAN_MODE_PASSTHRU
  else inl (Errorf "unsupported macvtap mode: %v" [mode]).

(** [setupMacVTapDevice] creates a macvtap device on the master of the
    configuration and returns its link. *)
Definition setupMacVTapDevice (podID : string) (config : MacVTapNetConf)
    (interfaceNumber : nat) : M World Link :=
  master <- wrapping (Errorf "cannot find master device '%v'" [Master config])
              (netlink_LinkByName (Master config));;
  match macvtap_mode (Mode config) with
  | inl err => fail err
  | inr mode =>
      let mtu := if conf_MTU (mv_NetConf config) =? 0 then l_MTU master
                 else conf_MTU (mv_NetConf config) in
      prefix <- lift (slice podID 0 4);;
      let interfaceName := "rkt-" +:+ prefix +:+ "-vtap" +:+ itoa (Z.of_nat interfaceNumber) in
      let link := {| l_type := Macvtap mode; l_Name := interfaceName; l_Index := 0;
                     l_MTU := mtu; l_ParentIndex := l_Index master; l_MasterIndex := 0;
                     l_up := false |} in
      link <- wrapping (errors_New "cannot create macvtap interface") (netlink_LinkAdd link);;
      try (netlink_LinkSetUp link) (fun r =>
        match r with
        | inl err =>
            (* remove the newly added link and ignore errors *)
            try (netlink_LinkDel link) (fun _ =>
              fail (Wrap (errors_New "cannot set up macvtap interface") err))
        | inr link => ret link
        end)
  end.

Definition set_runtime_addressing (ip4 : IPConfig) (n : ActiveNet) : ActiveNet :=
  set_Runtime {| rt_IfName := rt_IfName (Runtime n);
                 rt_IP := ipnet_IP (ipc_IP ip4);
                 rt_Mask := ipnet_Mask (ipc_IP ip4);
                 rt_HostIP := ipc_Gateway ip4;
                 rt_IP4 := Some ip4 |} n.

Definition set_Type (t : string) (n : ActiveNet) : ActiveNet :=
  set_Conf (set_conf_Type t (Conf n)) n.

(** [kvmSetupNetAddressing] calls the IPAM plugin to reserve an IP for the
    new interface and writes it to the runtime configuration of [n]. *)
Definition kvmSetupNetAddressing (network : Networking) (ifName : string) : M NetState unit :=
  wrapping (errors_New "failed to enable forwarding") (inW ip_EnableIP4Forward);;;
  (* patch plugin type only for single IPAM run time, then revert this change *)
  n <- getN;;
  let original_type := conf_Type (Conf n) in
  modN (set_Type (conf_IPAM_Type (Conf n)));;;
  n <- getN;;
  try (inW (execNetPlugin network "ADD" n ifName)) (fun r =>
    modN (set_Type original_type);;;
    n <- getN;;
    match r with
    | inl err =>
        fail (Wrap (Errorf "problem executing network plugin %q (%q)"
                      [conf_Type (Conf n); ifName]) err)
    | inr None =>
        fail (Wrap (Errorf "error parsing %q result" [conf_Name (Conf n)])
                (JSONError "result"))
    | inr (Some result) =>
        match res_IP4 result with
        | None => fail (Errorf "net-plugin returned no IPv4 configuration" [])
        | Some ip4 => modN (set_runtime_addressing ip4)
        end
    end).

Definition ensureHasAddr (link : Link) (ipn : IPNet) : M World unit :=
  addrs <- try (netlink_AddrList link) (fun r =>
             match r with
             | inl err =>
                 if negb (is_errno err ENOENT)
                 then fail (Wrap (errors_New "could not get list of IP addresses") err)
                 else ret []
             | inr addrs => ret addrs
             end);;
  (* if there're no addresses on the interface, it's ok -- we'll add one *)
  if bool_decide (0 < length addrs)%nat then
    let ipnStr := IPNet_String ipn in
    if existsb (fun a => bool_decide (IPNet_String (a_IPNet a) = ipnStr)) addrs
    then ret tt
    else fail (Errorf "%q already has an IP address different from %v"
                 [l_Name link; IPNet_String ipn])
  else
    wrapping (Errorf "could not add IP address to %q" [l_Name link])
      (netlink_AddrAdd link ipn (l_Name link)).

Definition bridgeByName (name : string) : M World Link :=
  l <- wrapping (Errorf "could not lookup %q" [name]) (netlink_LinkByName name);;
  match l_type l with
  | Bridge => ret l
  | _ => fail (Errorf "%q already exists but is not a bridge" [name])
  end.

Definition ensureBridgeIsUp (brName : string) (mtu : Z) : M World Link :=
  let br := {| l_type := Bridge; l_Name := brName; l_Index := 0; l_MTU := mtu;
               l_ParentIndex := 0; l_MasterIndex := 0; l_up := false |} in
  br <- try (netlink_LinkAdd br) (fun r =>
          match r with
          | inl err =>
              if negb (is_errno err EEXIST)
              then fail (Wrap (Errorf "could not add %q" [brName]) err)
              else
                (* it's ok if the device already exists as long as config is similar *)
                bridgeByName brName
          | inr br => ret br
          end);;
  br <- netlink_LinkSetUp br;;
  ret br.

Definition addRoute (link : Link) (podIP : IP) : M World unit :=
  let route := {| r_LinkIndex := l_Index link;
                  r_Scope := SCOPE_LINK;
                  r_Dst := Some {| ipnet_IP := podIP; ipnet_Mask := IPv4Mask 255 255 255 255 |};
                  r_Src := []; r_Gw := [] |} in
  netlink_RouteAdd route.

(** The text of a route in an error message. *)
Definition Route_text (r : Route) : string :=
  match r_Dst r with
  | Some d => IPNet_String d
  | None => "<nil>"
  end.

Fixpoint removeRoutes (routes : list Route) : M World unit :=
  match routes with
  | [] => ret tt
  | route :: rest =>
      wrapping (Errorf "error in time of route removal for route %q" [Route_text route])
        (netlink_RouteDel route);;;
      removeRoutes rest
  end.

Definition removeAllRoutesOnLink (link : Link) : M World unit :=
  routes <- wrapping (Errorf "cannot list routes on link %q" [l_Name link])
              (netlink_RouteList link);;
  removeRoutes routes.

Definition getChainName (podUUIDString confName : string) : ChainName :=
  {| chain_conf := confName; chain_pod := podUUIDString |}.

Definition loadFlannelNetConf (bytes : Bytes) : outcome FlannelNetConf :=
  let n := {| fl_NetConf := NetConf_zero; SubnetFile := defaultSubnetFile; Delegate := None |} in
  match json_Unmarshal_Flannel bytes n with
  | Err err => Err (Wrap (errors_New "failed to load netconf") err)
  | r => r
  end.

(** [subnetEnv]; [nw] and [sn] are pointers, [None] when nil. *)
Record subnetEnv := {
  nw : option IPNet;
  sn : option IPNet;
  mtu : Z;
  ipmasq : bool;
}.

(** The scanning loop of [loadFlannelSubnetEnv] over the lines left to
    read. *)
Fixpoint scanSubnetEnv (lines : list string) (se : subnetEnv) : outcome subnetEnv :=
  match lines with
  | [] => Ok se
  | line :: rest =>
      if MaxScanTokenSize <=? Z.of_nat (String.length line) then Err ErrTooLong
      else
        let parts := strings_SplitN (dropCR line) "="%char 2 in
        obind (index parts 0) (fun key =>
          if bool_decide (key = "FLANNEL_NETWORK") then
            obind (index parts 1) (fun v =>
            obind (net_ParseCIDR v) (fun n =>
              scanSubnetEnv rest
                {| nw := Some n; sn := sn se; mtu := mtu se; ipmasq := ipmasq se |}))
          else if bool_decide (key = "FLANNEL_SUBNET") then
            obind (index parts 1) (fun v =>
            obind (net_ParseCIDR v) (fun n =>
              scanSubnetEnv rest
                {| nw := nw se; sn := Some n; mtu := mtu se; ipmasq := ipmasq se |}))
          else if bool_decide (key = "FLANNEL_MTU") then
            obind (index parts 1) (fun v =>
            obind (strconv_ParseUint32 v) (fun m =>
              scanSubnetEnv rest
                {| nw := nw se; sn := sn se; mtu := m; ipmasq := ipmasq se |}))
          else if bool_decide (key = "FLANNEL_IPMASQ") then
            obind (index parts 1) (fun v =>
              scanSubnetEnv rest
                {| nw := nw se; sn := sn se; mtu := mtu se;
                   ipmasq := bool_decide (v = "true") |})
          else scanSubnetEnv rest se)
  end.

Definition loadFlannelSubnetEnv (fn : string) : M World subnetEnv :=
  fun w =>
    match w_files w !! fn with
    | None => (Err (PathError "open" fn ENOENT), w)
    | Some content =>
        (scanSubnetEnv (rawLines [] content)
           {| nw := None; sn := None; mtu := 0; ipmasq := false |}, w)
    end.

Definition hasKey (m : GoMap) (k : string) : bool := bool_decide (is_Some (m !! k)).

Definition isString (i : Any) : bool :=
  match i with
  | AString _ => true
  | _ => false
  end.

(** [m[k]] on a map: the nil interface when the key is absent. *)
Definition at_key (m : GoMap) (k : string) : Any := default ANil (m !! k).

(** The type assertions [i.(string)], [i.(bool)], [i.(int)]. *)
Definition assert_string (i : Any) : outcome string :=
  match i with
  | AString s => Ok s
  | _ => Panic "interface conversion: interface is not string"
  end.
Definition assert_bool (i : Any) : outcome bool :=
  match i with
  | ABool b => Ok b
  | _ => Panic "interface conversion: interface is not bool"
  end.
Definition assert_int (i : Any) : outcome Z :=
  match i with
  | AInt z => Ok z
  | _ => Panic "interface conversion: interface is not int"
  end.
Definition deref {A} (p : option A) : outcome A :=
  match p with
  | Some a => Ok a
  | None => Panic "invalid memory address or nil pointer dereference"
  end.

(** The checks on a delegate dictionary the user supplied. *)
Definition checkDelegate (d : GoMap) : option Error :=
  if hasKey d "type" && negb (isString (at_key d "type")) then
    Some (Errorf "'delegate' dictionary, if present, must have (string) 'type' field" [])
  else if hasKey d "name" then
    Some (Errorf "'delegate' dictionary must not have 'name' field, it'll be set by flannel" [])
  else if hasKey d "ipam" then
    Some (Errorf "'delegate' dictionary must not have 'ipam' field, it'll be set by flannel" [])
  else None.

(** The delegate dictionary once the transformer has filled it in. *)
Definition fillDelegate (name : string) (fenv : subnetEnv) (d : GoMap) : outcome GoMap :=
  let d := <["name" := AString name]> d in
  let d := if negb (hasKey d "type") then <["type" := AString "bridge"]> d else d in
  let d := if negb (hasKey d "ipMasq")
           then <["ipMasq" := ABool (negb (ipmasq fenv))]> d else d in
  let d := if negb (hasKey d "mtu") then <["mtu" := AInt (mtu fenv)]> d else d in
  obind (assert_string (at_key d "type")) (fun ty =>
  let d := if bool_decide (ty = "bridge")
           then if negb (hasKey d "isGateway") then <["isGateway" := ABool true]> d else d
           else d in
  obind (deref (sn fenv)) (fun subnet =>
  obind (deref (nw fenv)) (fun network =>
  Ok (<["ipam" := AMap (<["type" := AString "host-local"]>
                        (<["subnet" := AString (IPNet_String subnet)]>
                         (<["routes" := ARoutes [{| route_Dst := network; route_GW := [] |}]]>
                          ∅)))]> d)))).

Definition kvmTransformFlannelNetwork : M NetState unit :=
  net <- getN;;
  n <- lift (loadFlannelNetConf (ConfBytes net));;
  fenv <- inW (loadFlannelSubnetEnv (SubnetFile n));;
  d <- match Delegate n with
       | None => ret ∅
       | Some d => match checkDelegate d with
                   | Some err => fail err
                   | None => ret d
                   end
       end;;
  d <- lift (fillDelegate (conf_Name (fl_NetConf n)) fenv d);;
  let bytes := json_Marshal (AMap d) in
  modN (fun _ => {| ConfBytes := Some bytes;
                    Conf := NetConf_zero;
                    Runtime := {| rt_IfName := ""; rt_IP := []; rt_Mask := []; rt_HostIP := [];
                                  rt_IP4 := Some IPConfig_zero |} |});;;
  modN (fun net => set_Conf (set_conf_Name (conf_Name (fl_NetConf n)) (Conf net)) net);;;
  ty <- lift (assert_string (at_key d "type"));;
  modN (set_Type ty);;;
  masq <- lift (assert_bool (at_key d "ipMasq"));;
  modN (fun net => set_Conf (set_conf_IPMasq masq (Conf net)) net);;;
  m <- lift (assert_int (at_key d "mtu"));;
  modN (fun net => set_Conf (set_conf_MTU m (Conf net)) net);;;
  modN (fun net => set_Conf (set_conf_IPAM_Type "host-local" (Conf net)) net).

Definition set_IfName (ifName : string) (n : ActiveNet) : ActiveNet :=
  set_Runtime (set_rt_IfName ifName (Runtime n)) n.

(** [&net.IPNet{IP: n.Runtime.IP4.Gateway, Mask: net.IPMask(n.Runtime.Mask)}];
    the nil [IP4] pointer panics. *)
Definition gatewayNet (n : ActiveNet) : outcome IPNet :=
  obind (deref (rt_IP4 (Runtime n))) (fun ip4 =>
    Ok {| ipnet_IP := ipc_Gateway ip4; ipnet_Mask := rt_Mask (Runtime n) |}).

Definition podNet (n : ActiveNet) : IPNet :=
  {| ipnet_IP := rt_IP (Runtime n); ipnet_Mask := rt_Mask (Runtime n) |}.

(** [if err := json.Unmarshal(n.ConfBytes, &config); err != nil { ... }]. *)
Definition parsing {T} (name : string) (r : outcome T) : outcome T :=
  match r with
  | Err err => Err (Wrap (Errorf "error parsing %q result" [name]) err)
  | r => r
  end.

(** The body of the loop of [kvmSetup], for the descriptor [n] at position
    [i] of [network.nets]. *)
Definition kvmSetup_net (network : Networking) (podID : string) (i : nat) : M NetState unit :=
  n <- getN;;
  (if bool_decide (conf_Type (Conf n) = "flannel") then
     wrapping (errors_New "cannot transform flannel network into basic network")
       kvmTransformFlannelNetwork
   else ret tt);;;
  n <- getN;;
  (if bool_decide (conf_Type (Conf n) = "ptp") then
     link <- inW (setupTapDevice podID);;
     let ifName := l_Name link in
     modN (set_IfName ifName);;;
     kvmSetupNetAddressing network ifName;;;
     (* add address to host tap device *)
     n <- getN;;
     gw <- lift (gatewayNet n);;
     wrapping (Errorf "cannot add address to host tap device %q" [ifName])
       (inW (ensureHasAddr link gw));;;
     wrapping (Errorf "cannot remove route on host tap device %q" [ifName])
       (inW (removeAllRoutesOnLink link));;;
     wrapping (errors_New "cannot add on host direct route to pod")
       (inW (addRoute link (rt_IP (Runtime n))))
   else if bool_decide (conf_Type (Conf n) = "bridge") then
     let config := {| br_NetConf := set_conf_MTU defaultMTU NetConf_zero;
                      BrName := defaultBrName; IsGw := false |} in
     config <- lift (parsing (conf_Name (Conf n)) (json_Unmarshal_Bridge (ConfBytes n) config));;
     br <- wrapping (errors_New "error in time of bridge setup")
             (inW (ensureBridgeIsUp (BrName config) (conf_MTU (br_NetConf config))));;
     link <- wrapping (errors_New "can not setup tap device") (inW (setupTapDevice podID));;
     try (inW (netlink_LinkSetMaster link br)) (fun r =>
       match r with
       | inl err =>
           try (inW (tuntap_RemovePersistentIface (rt_IfName (Runtime n)))) (fun r' =>
             match r' with
             | inl rErr =>
                 inW (stderr_PrintE "warning: could not cleanup tap interface" [] rErr)
             | inr _ => ret tt
             end);;;
           fail (Wrap (errors_New "can not add tap interface to bridge") err)
       | inr _ => ret tt
       end);;;
     let ifName := l_Name link in
     modN (set_IfName ifName);;;
     kvmSetupNetAddressing network ifName;;;
     if IsGw config then
       n <- getN;;
       gw <- lift (gatewayNet n);;
       wrapping (Errorf "cannot add address to host bridge device %q" [l_Name br])
         (inW (ensureHasAddr br gw))
     else ret tt
   else if bool_decide (conf_Type (Conf n) = "macvlan") then
     let config := {| mv_NetConf := NetConf_zero; Master := ""; Mode := "" |} in
     config <- lift (parsing (conf_Name (Conf n)) (json_Unmarshal_MacVTap (ConfBytes n) config));;
     link <- inW (setupMacVTapDevice podID config i);;
     let ifName := l_Name link in
     modN (set_IfName ifName);;;
     kvmSetupNetAddressing network ifName
   else
     fail (Errorf "network %q have unsupported type: %q"
             [conf_Name (Conf n); conf_Type (Conf n)]));;;
  n <- getN;;
  if conf_IPMasq (Conf n) then
    let chain := getChainName podID (conf_Name (Conf n)) in
    inW (ip_SetupIPMasq (podNet n) chain masqComment)
  else ret tt.

(** Running code that holds a pointer to [n]; the result is the descriptor
    behind the pointer afterwards. *)
Definition withNet (n : ActiveNet) (m : M NetState unit) : M World ActiveNet :=
  fun w => match m (w, n) with
           | (Ok _, (w', n')) => (Ok n', w')
           | (Err e, (w', _)) => (Err e, w')
           | (Panic p, (w', _)) => (Panic p, w')
           end.

(** [for i, n := range network.nets { ... }], from position [i] on. *)
Fixpoint kvmSetup_loop (network : Networking) (podID : string) (i : nat)
    (todo : list ActiveNet) : M World (list ActiveNet) :=
  match todo with
  | [] => ret []
  | n :: rest =>
      n' <- withNet n (kvmSetup_net network podID i);;
      rest' <- kvmSetup_loop network podID (S i) rest;;
      ret (n' :: rest')
  end.

Definition set_nets (l : list ActiveNet) (n : Networking) : Networking :=
  {| podRoot := podRoot n; podID := podID n; netsLoadList := netsLoadList n;
     localConfig := localConfig n; nets := l |}.

(** [kvmSetup] prepares the networking of a pod of the kvm flavor. *)
Definition kvmSetup (podRoot podID : string) (fps : list ForwardedPort)
    (netList : list string) (localConfig : string) : M World Networking :=
  let network := {| podRoot := podRoot; podID := podID; netsLoadList := netList;
                    localConfig := localConfig; nets := [] |} in
  loaded <- wrapping (errors_New "error loading network definitions") (loadNets network);;
  let network := set_nets loaded network in
  done <- kvmSetup_loop network podID 0 loaded;;
  let network := set_nets done network in
  forwardPorts network fps (GetDefaultIP network);;;
  ret network.

(** The [switch an.Conf.Type] of the loop of [teardownKvmNets]: the device
    of the descriptor is removed; [false] stands for [continue]. *)
Definition teardownDevice : M NetState bool :=
  an <- getN;;
  let ty := conf_Type (Conf an) in
  let ifName := rt_IfName (Runtime an) in
  if bool_decide (ty = "ptp") || bool_decide (ty = "bridge") then
    (* remove tuntap interface *)
    try (inW (tuntap_RemovePersistentIface ifName)) (fun _ => ret true)
  else if bool_decide (ty = "macvlan") then
    try (inW (netlink_LinkByName ifName)) (fun r =>
      match r with
      | inl err =>
          inW (stderr_PrintE "cannot find link `%v`" [ifName] err);;;
          ret false (* continue *)
      | inr link =>
          try (inW (netlink_LinkDel link)) (fun r =>
            match r with
            | inl err =>
                inW (stderr_PrintE "cannot remove link `%v`" [ifName] err);;;
                ret false (* continue *)
            | inr _ => ret true
            end)
      end)
  else
    inW (stderr_Printf "unsupported network type: %q" [ty]);;;
    ret false (* continue *).

(** The statements after the switch: the address is released through the
    IPAM plugin and the masquerade rule removed. *)
Definition teardownAddressing (n : Networking) : M NetState unit :=
  (* ugly hack again to directly call IPAM plugin to release IP *)
  an <- getN;;
  modN (set_Type (conf_IPAM_Type (Conf an)));;;
  an <- getN;;
  try (inW (execNetPlugin n "DEL" an (rt_IfName (Runtime an)))) (fun r =>
    match r with
    | inl err => inW (stderr_PrintE "error executing network plugin" [] err)
    | inr _ => ret tt
    end);;;
  (* remove masquerading if it was prepared *)
  if conf_IPMasq (Conf an) then
    let chain := getChainName (podID n) (conf_Name (Conf an)) in
    try (inW (ip_TeardownIPMasq (podNet an) chain masqComment)) (fun r =>
      match r with
      | inl err => inW (stderr_PrintE "error on removing masquerading" [] err)
      | inr _ => ret tt
      end)
  else ret tt.

(** The body of the loop of [teardownKvmNets] for the descriptor [an]. *)
Definition teardownKvmNet (n : Networking) : M NetState unit :=
  proceed <- teardownDevice;;
  if proceed then teardownAddressing n else ret tt.

Fixpoint teardown_loop (n : Networking) (todo : list ActiveNet) : M World (list ActiveNet) :=
  match todo with
  | [] => ret []
  | an :: rest =>
      an' <- withNet an (teardownKvmNet n);;
      rest' <- teardown_loop n rest;;
      ret (an' :: rest')
  end.

(** [teardownKvmNets] tears down every network of the receiver; the result
    is the receiver after the call. *)
Definition teardownKvmNets (n : Networking) : M World Networking :=
  done <- teardown_loop n (nets n);;
  ret (set_nets done n).

(** [kvmTeardown]: network teardown for pods of the kvm flavor. *)
Definition kvmTeardown (n : Networking) : M World Networking :=
  try (unforwardPorts n) (fun r =>
    match r with
    | inl err => stderr_PrintE "error removing forwarded ports (kvm)" [] err
    | inr _ => ret tt
    end);;;
  teardownKvmNets n.

(** [GetActiveNetworks]. *)
Definition GetActiveNetworks (e : Networking) : list ActiveNet := nets e.

Local Close Scope go_scope.

(** ** Sample hosts and networks *)

Module Sample.

(** The lease file flannel writes on a host of the overlay. *)
Definition lease : string :=
  "FLANNEL_NETWORK=10.1.0.0/16" +:+ "
" +:+ "FLANNEL_SUBNET=10.1.17.0/24" +:+ "
" +:+ "FLANNEL_MTU=1472" +:+ "
" +:+ "FLANNEL_IPMASQ=true" +:+ "
".

Definition fenv : subnetEnv :=
  {| nw := Some {| ipnet_IP := [10; 1; 0; 0]; ipnet_Mask := [255; 255; 0; 0] |};
     sn := Some {| ipnet_IP := [10; 1; 17; 0]; ipnet_Mask := [255; 255; 255; 0] |};
     mtu := 1472;
     ipmasq := true |}.

Definition eth0 : Link :=
  {| l_type := Device; l_Name := "eth0"; l_Index := 1; l_MTU := 1500;
     l_ParentIndex := 0; l_MasterIndex := 0; l_up := true |}.

(** A host with one physical device and nothing else. *)
Definition host : Kernel :=
  {| k_links := [eth0]; k_addrs := []; k_routes := []; k_ip4_forward := false;
     k_masq := []; k_portfw := [] |}.

(** What the allocator answers: 10.1.17.2/24 behind gateway 10.1.17.1. *)
Definition ip4 : IPConfig :=
  {| ipc_IP := {| ipnet_IP := IPv4 10 1 17 2; ipnet_Mask := [255; 255; 255; 0] |};
     ipc_Gateway := IPv4 10 1 17 1;
     ipc_Routes := [] |}.

Definition allocated : PluginOutput := Some {| res_IP4 := Some ip4 |}.

Definition no_fault : nat -> Call -> option Error := fun _ _ => None.

(** A world where no call fails for a reason of its own. *)
Definition world (k : Kernel) (files : gmap string string) (defs : list ActiveNet) : World :=
  {| w_kernel := k; w_files := files; w_netdefs := defs; w_clock := 0;
     w_trace := []; w_log := []; w_fault := no_fault;
     w_stdout := fun _ _ => allocated |}.

(** The same world with the calls named by [bad] failing with EIO. *)
Definition faulty (bad : Call -> bool) (w : World) : World :=
  {| w_kernel := w_kernel w; w_files := w_files w; w_netdefs := w_netdefs w;
     w_clock := w_clock w; w_trace := w_trace w; w_log := w_log w;
     w_fault := fun _ c => if bad c then Some (Errno EIO) else None;
     w_stdout := w_stdout w |}.

Definition descriptor (doc : JSON) (name type : string) (masq : bool) : ActiveNet :=
  {| ConfBytes := Some doc;
     Conf := {| conf_Name := name; conf_Type := type; conf_IPAM_Type := "host-local";
                conf_IPMasq := masq; conf_MTU := 0 |};
     Runtime := NetInfo_zero |}.

Definition ipam : string * JSON := ("ipam", JObj [("type", JStr "host-local")]).

Definition ptp_net : ActiveNet :=
  descriptor (JObj [("name", JStr "p"); ("type", JStr "ptp"); ("ipMasq", JBool true); ipam])
    "p" "ptp" true.

Definition bridge_net : ActiveNet :=
  descriptor (JObj [("name", JStr "b"); ("type", JStr "bridge"); ("isGateway", JBool true);
                    ipam])
    "b" "bridge" false.

Definition macvlan_net (master mode : string) : ActiveNet :=
  descriptor (JObj [("name", JStr "m"); ("type", JStr "macvlan"); ("master", JStr master);
                    ("mode", JStr mode); ("ipMasq", JBool true); ipam])
    "m" "macvlan" true.

(** [{"name":"rktnet","type":"flannel"}]. *)
Definition flannel_doc : JSON := JObj [("name", JStr "rktnet"); ("type", JStr "flannel")].

Definition flannel_net : ActiveNet :=
  {| ConfBytes := Some flannel_doc;
     Conf := {| conf_Name := "rktnet"; conf_Type := "flannel"; conf_IPAM_Type := "";
                conf_IPMasq := false; conf_MTU := 0 |};
     Runtime := NetInfo_zero |}.

(** An overlay network that names its delegate itself. *)
Definition flannel_named_delegate : ActiveNet :=
  {| ConfBytes := Some (JObj [("name", JStr "rktnet"); ("type", JStr "flannel");
                              ("delegate", JObj [("name", JStr "mine")])]);
     Conf := {| conf_Name := "rktnet"; conf_Type := "flannel"; conf_IPAM_Type := "";
                conf_IPMasq := false; conf_MTU := 0 |};
     Runtime := NetInfo_zero |}.

Definition pod : string := "abcdef01-2345-6789-abcd-ef0123456789".

Definition networking (l : list ActiveNet) : Networking :=
  {| podRoot := "/var/lib/rkt/pods/run/" +:+ pod; podID := pod; netsLoadList := [];
     localConfig := "/etc/rkt"; nets := l |}.

Definition with_lease : gmap string string := {[ defaultSubnetFile := lease ]}.

(** A descriptor as setup leaves it: interface name and address set. *)
Definition active (ifName : string) (n : ActiveNet) : ActiveNet :=
  set_runtime_addressing ip4 (set_IfName ifName n).

Definition ptp_active : ActiveNet := active "rkt-abcd-tap0" ptp_net.
Definition macvlan_active : ActiveNet := active "rkt-abcd-vtap0" (macvlan_net "eth0" "bridge").

Definition macvtap_conf (master mode : string) : MacVTapNetConf :=
  {| mv_NetConf := NetConf_zero; Master := master; Mode := mode |}.

Definition is_LinkSetUp (c : Call) : bool :=
  match c with CLinkSetUp _ => true | _ => false end.

(** The bridge [ensureBridgeIsUp] creates on [host], as the caller sees
    it, and the world after that call. *)
Definition created_bridge : Link :=
  {| l_type := Bridge; l_Name := defaultBrName; l_Index := 2; l_MTU := defaultMTU;
     l_ParentIndex := 0; l_MasterIndex := 0; l_up := false |}.

Definition after_bridge : World :=
  (ensureBridgeIsUp defaultBrName defaultMTU (world host ∅ [])).2.

(** A host where the name of the bridge is taken by a tap device. *)
Definition host_with_tap : Kernel :=
  set_links [eth0; {| l_type := Tuntap; l_Name := defaultBrName; l_Index := 2;
                      l_MTU := 1500; l_ParentIndex := 0; l_MasterIndex := 0;
                      l_up := false |}] host.

(** The setup step of a pod's only network, ptp or bridge, on [host]. *)
Definition ptp_setup : outcome unit * NetState :=
  kvmSetup_net (networking [ptp_net]) pod 0 (world host ∅ [], ptp_net).

Definition bridge_setup : outcome unit * NetState :=
  kvmSetup_net (networking [bridge_net]) pod 0 (world host ∅ [], bridge_net).

End Sample.

(** What the transformer makes of [{"name":"rktnet","type":"flannel"}] on
    the lease of [Sample.fenv]:
    [{"ipMasq":false,"ipam":{"routes":[{"dst":"10.1.0.0/16"}],
      "subnet":"10.1.17.0/24","type":"host-local"},"isGateway":true,
      "mtu":1472,"name":"rktnet","type":"bridge"}]. *)
Definition rktnet_delegate : JSON :=
  JObj [("ipMasq", JBool false);
        ("ipam", JObj [("routes", JArr [JObj [("dst", JStr "10.1.0.0/16")]]);
                       ("subnet", JStr "10.1.17.0/24");
                       ("type", JStr "host-local")]);
        ("isGateway", JBool true);
        ("mtu", JNum 1472);
        ("name", JStr "rktnet");
        ("type", JStr "bridge")].

(** ** Vocabulary of the statements *)

(** The plugin call that allocates ("ADD") or releases ("DEL") the address
    of [n] on [ifName]: the plugin named is the IPAM type of [n]. *)
Definition allocatorCall (cmd : string) (n : ActiveNet) (ifName : string) : Call :=
  CExecNetPlugin cmd (conf_IPAM_Type (Conf n)) ifName (ConfBytes n).

(** The masquerade removal of a descriptor, when it asked for masquerade. *)
Definition masqTeardownCalls (n : Networking) (an : ActiveNet) : list Call :=
  if conf_IPMasq (Conf an)
  then [CTeardownIPMasq (podNet an) (getChainName (podID n) (conf_Name (Conf an)))
          masqComment]
  else [].

(** What the teardown of the descriptor [an], run from the world [wi] to the
    world [wi'], has attempted, by the type of [an]:
    - ptp and bridge: the removal of the tap device, the release of the
      address and the removal of the masquerade rule (when [an] asked for
      masquerade), whatever each of them answers;
    - macvlan: the lookup of the link; its deletion when the lookup
      succeeds; the release and the masquerade removal when the deletion
      succeeds too;
    - any other type: no call at all. *)
Definition cleanupAttempted (n : Networking) (an : ActiveNet) (wi wi' : World) : Prop :=
  let ifName := rt_IfName (Runtime an) in
  let release := allocatorCall "DEL" an ifName :: masqTeardownCalls n an in
  if decide (conf_Type (Conf an) ∈ ["ptp"; "bridge"]) then
    w_trace wi' = w_trace wi ++ CRemovePersistentIface ifName :: release
  else if decide (conf_Type (Conf an) = "macvlan") then
    match netlink_LinkByName ifName wi with
    | (Ok link, w1) =>
        match netlink_LinkDel link w1 with
        | (Ok _, _) =>
            w_trace wi' = w_trace wi ++ CLinkByName ifName :: CLinkDel link :: release
        | _ => w_trace wi' = w_trace wi ++ [CLinkByName ifName; CLinkDel link]
        end
    | _ => w_trace wi' = w_trace wi ++ [CLinkByName ifName]
    end
  else w_trace wi' = w_trace wi.

(** No call of the next [calls] ones is failed by the environment. *)
Definition quiet (w : World) (calls : nat) : Prop :=
  forall t c, (w_clock w <= t < w_clock w + calls)%nat -> w_fault w t c = None.

(** ** Vocabulary of the further properties *)

(** The keys [loadFlannelSubnetEnv] recognises. *)
Definition leaseKeys : list string :=
  ["FLANNEL_NETWORK"; "FLANNEL_SUBNET"; "FLANNEL_MTU"; "FLANNEL_IPMASQ"].

(** [parts[0]] for a scanned line: the text before the first ["="], the
    whole line when it has none. *)
Definition lineKey (line : string) : string :=
  match cut "="%char (dropCR line) with
  | Some (key, _) => key
  | None => dropCR line
  end.

(** The [ipam] entry the transformer writes into a delegate. *)
Definition ipamOf (subnet network : IPNet) : Any :=
  AMap (<["type" := AString "host-local"]>
        (<["subnet" := AString (IPNet_String subnet)]>
         (<["routes" := ARoutes [{| route_Dst := network; route_GW := [] |}]]> ∅))).

(** The values of a delegate dictionary read from JSON are what
    [json.Unmarshal] stores in an [interface{}]. *)
Definition fromJSON (d : GoMap) : Prop :=
  forall k v, d !! k = Some v -> exists j, v = decodeAny j.

(** The IPv4 addresses the kernel lists for the link value [link]. *)
Definition addrsOf (k : Kernel) (link : Link) : list Addr :=
  filter (fun a => a_LinkIndex a = l_Index (ensureIndex k link)) (k_addrs k).

(** The address [netlink.AddrAdd] installs and its connected route. *)
Definition addrOn (i : Z) (ipn : IPNet) (label : string) : Addr :=
  {| a_LinkIndex := i; a_IPNet := ipn; a_Label := label |}.

Definition connectedRoute (i : Z) (ipn : IPNet) : Route :=
  {| r_LinkIndex := i; r_Scope := SCOPE_LINK;
     r_Dst := Some {| ipnet_IP := IP_Mask (ipnet_IP ipn) (ipnet_Mask ipn);
                      ipnet_Mask := ipnet_Mask ipn |};
     r_Src := To4 (ipnet_IP ipn); r_Gw := [] |}.

(** The kernel besides its routes. *)
Definition same_but_routes (k k' : Kernel) : Prop :=
  k_links k' = k_links k /\ k_addrs k' = k_addrs k /\
  k_ip4_forward k' = k_ip4_forward k /\ k_masq k' = k_masq k /\ k_portfw k' = k_portfw k.

(** Every address and every route of the kernel is on one of its links. *)
Definition attached (k : Kernel) : Prop :=
  Forall (fun a => is_Some (link_indexed k (a_LinkIndex a))) (k_addrs k) /\
  Forall (fun r => is_Some (link_indexed k (r_LinkIndex r))) (k_routes k).

(** The tap device [setupTapDevice] leaves on a host whose next free index
    is [i]. *)
Definition tapDevice (name : string) (i : Z) (up : bool) : Link :=
  {| l_type := Tuntap; l_Name := name; l_Index := i; l_MTU := 1500;
     l_ParentIndex := 0; l_MasterIndex := 0; l_up := up |}.

(** What removing the device named [ifName] may do to the links of [k]:
    nothing, or the removal of the links that share the index of the link
    of that name. *)
Definition linksAfterRemoval (ifName : string) (k k' : Kernel) : Prop :=
  k_links k' = k_links k \/
  exists kl, link_named k ifName = Some kl /\
             k_links k' = filter (fun x => l_Index x <> l_Index kl) (k_links k).

(** A descriptor as a successful setup leaves it: of a type the loop knows
    how to provision and with the allocator's IPv4 block in the four
    addressing fields. *)
Definition provisioned (n : ActiveNet) : Prop :=
  conf_Type (Conf n) ∈ ["ptp"; "bridge"; "macvlan"] /\
  exists ip4,
    Runtime n = {| rt_IfName := rt_IfName (Runtime n);
                   rt_IP := ipnet_IP (ipc_IP ip4);
                   rt_Mask := ipnet_Mask (ipc_IP ip4);
                   rt_HostIP := ipc_Gateway ip4;
                   rt_IP4 := Some ip4 |}.

(** * Properties *)

(** ** The model at work on the sample host *)

Example ParseCIDR_subnet :
  net_ParseCIDR "10.1.17.0/24"
  = Ok {| ipnet_IP := [10; 1; 17; 0]; ipnet_Mask := [255; 255; 255; 0] |}.
Proof. reflexivity. Qed.

Example ParseCIDR_masks_host_bits :
  IPNet_String <$> (match net_ParseCIDR "10.1.17.5/20" with Ok n => Some n | _ => None end)
  = Some "10.1.16.0/20".
Proof. reflexivity. Qed.

Example ParseCIDR_rejects :
  net_ParseCIDR "10.1.17.0" = Err (ParseError "CIDR address" "10.1.17.0") /\
  net_ParseCIDR "10.1.17.0/33" = Err (ParseError "CIDR address" "10.1.17.0/33") /\
  net_ParseCIDR "10.1.256.0/8" = Err (ParseError "CIDR address" "10.1.256.0/8").
Proof. by repeat split. Qed.

Example ParseUint_samples :
  strconv_ParseUint32 "1472" = Ok 1472 /\
  strconv_ParseUint32 "" = Err (NumError "ParseUint" "" false) /\
  strconv_ParseUint32 "-1" = Err (NumError "ParseUint" "-1" false) /\
  strconv_ParseUint32 "4294967296" = Err (NumError "ParseUint" "4294967296" true).
Proof. by repeat split. Qed.

Example SplitN_samples :
  strings_SplitN "FLANNEL_MTU=1472" "="%char 2 = ["FLANNEL_MTU"; "1472"] /\
  strings_SplitN "A=b=c" "="%char 2 = ["A"; "b=c"] /\
  strings_SplitN "FLANNEL_MTU" "="%char 2 = ["FLANNEL_MTU"] /\
  strings_SplitN "" "="%char 2 = [""].
Proof. by repeat split. Qed.

Example lease_read :
  (loadFlannelSubnetEnv defaultSubnetFile
     (Sample.world Sample.host Sample.with_lease [])).1
  = Ok Sample.fenv.
Proof. reflexivity. Qed.

(** A pod with a ptp, a bridge and a macvlan network is set up on the
    sample host: three interfaces and the bridge appear, every descriptor
    keeps its type and has its address. *)
Example kvmSetup_three_networks :
  match kvmSetup "/var/lib/rkt/pods/run/abcdef01" Sample.pod [] [] "/etc/rkt"
          (Sample.world Sample.host ∅
             [Sample.ptp_net; Sample.bridge_net; Sample.macvlan_net "eth0" ""])
  with
  | (Ok network, w) =>
      map (fun n => (conf_Type (Conf n), rt_IfName (Runtime n), IP_String (rt_IP (Runtime n))))
        (nets network)
      = [("ptp", "rkt-abcd-tap0", "10.1.17.2");
         ("bridge", "rkt-abcd-tap1", "10.1.17.2");
         ("macvlan", "rkt-abcd-vtap2", "10.1.17.2")] /\
      map l_Name (k_links (w_kernel w))
      = ["eth0"; "rkt-abcd-tap0"; "kvm-cni0"; "rkt-abcd-tap1"; "rkt-abcd-vtap2"]
  | _ => False
  end.
Proof. vm_compute. by split. Qed.

(** ** Reading computations backwards *)

Lemma bind_Ok {S A B} (m : M S A) (k : A -> M S B) s b s' :
  bind m k s = (Ok b, s') ->
  exists a s1, m s = (Ok a, s1) /\ k a s1 = (Ok b, s').
Proof.
  unfold bind. destruct (m s) as [[a | e | p] s1]; intros H; try discriminate.
  by exists a, s1.
Qed.

Lemma wrapping_Ok {S A} (e : Error) (m : M S A) s a s' :
  wrapping e m s = (Ok a, s') -> m s = (Ok a, s').
Proof.
  unfold wrapping, try, fail, ret.
  destruct (m s) as [[a' | e' | p] s1]; intros H; congruence.
Qed.

Lemma inW_eq {A} (m : M World A) w n r w' n' :
  inW m (w, n) = (r, (w', n')) -> m w = (r, w') /\ n' = n.
Proof.
  unfold inW. simpl. destruct (m w) as [r1 w1]. intros H. by simplify_eq.
Qed.

Lemma lift_Ok {S A} (r : outcome A) (s s' : S) a :
  lift r s = (Ok a, s') -> r = Ok a /\ s' = s.
Proof. unfold lift. intros H. by simplify_eq. Qed.

Lemma ret_Ok {S A} (a b : A) (s s' : S) : ret a s = (Ok b, s') -> b = a /\ s' = s.
Proof. unfold ret. by intros [= <- <-]. Qed.

Lemma getN_Ok (s s' : NetState) (a : ActiveNet) :
  getN s = (Ok a, s') -> a = s.2 /\ s' = s.
Proof. unfold getN, gets. by intros [= <- <-]. Qed.

Lemma modN_Ok (f : ActiveNet -> ActiveNet) (s s' : NetState) (u : unit) :
  modN f s = (Ok u, s') -> s' = (s.1, f s.2).
Proof. unfold modN, modify. by intros [= <-]. Qed.

(** What any external call does to the world besides its effect on the
    kernel. *)
Lemma extern_run {A} (c : Call) (sem : Kernel -> outcome A * Kernel) (w : World) r w' :
  extern c sem w = (r, w') ->
  w_trace w' = w_trace w ++ [c] /\
  w_clock w' = S (w_clock w) /\
  w_fault w' = w_fault w /\
  ((exists e, w_fault w (w_clock w) c = Some e /\ r = Err e /\ w_kernel w' = w_kernel w)
   \/ (w_fault w (w_clock w) c = None /\ sem (w_kernel w) = (r, w_kernel w'))).
Proof.
  unfold extern. destruct (w_fault w (w_clock w) c) as [e |].
  - intros [= <- <-]. repeat split. left. by exists e.
  - destruct (sem (w_kernel w)) as [r0 k'] eqn:E. intros [= <- <-]. repeat split.
    by right.
Qed.

(** An external call that is known to have returned a value: the
    environment did not fail it, and [H] becomes the equation of its effect
    on the kernel. *)
Ltac ran H :=
  apply extern_run in H as (_ & _ & _ & [(? & _ & ? & _) | (_ & H)]); [done |].

(** ** The host model *)

Lemma fresh_index_gt (k : Kernel) (l : Link) :
  l ∈ k_links k -> l_Index l < fresh_index k.
Proof.
  unfold fresh_index. induction (k_links k) as [| x ls IH]; intros H.
  - by apply elem_of_nil in H.
  - apply elem_of_cons in H as [-> | H]; cbn; [lia |]. specialize (IH H). lia.
Qed.

Lemma fresh_index_pos (k : Kernel) : 0 < fresh_index k.
Proof.
  unfold fresh_index. induction (k_links k) as [| x ls IH]; cbn; lia.
Qed.

Lemma find_app_new {A} (f : A -> bool) (l : list A) (x : A) :
  List.find f l = None -> f x = true -> List.find f (l ++ [x]) = Some x.
Proof.
  induction l as [| y l IH]; cbn; intros Hn Hx; [by rewrite Hx |].
  destruct (f y); [discriminate | by apply IH].
Qed.

Lemma find_fresh_index (k : Kernel) (x : Link) :
  l_Index x = fresh_index k ->
  List.find (fun l => bool_decide (l_Index l = fresh_index k)) (k_links k ++ [x]) = Some x.
Proof.
  intros Hx. apply find_app_new; [| by apply bool_decide_eq_true_2].
  destruct (List.find _ _) as [l |] eqn:E; [| done].
  apply find_some in E as [Hin Hl]. apply bool_decide_eq_true_1 in Hl.
  apply list_elem_of_In, fresh_index_gt in Hin. lia.
Qed.

Lemma filter_fresh_index (k : Kernel) (x : Link) :
  l_Index x = fresh_index k ->
  filter (fun l => l_Index l ≠ fresh_index k) (k_links k ++ [x]) = k_links k.
Proof.
  intros Hx. rewrite filter_app, filter_cons_False, filter_nil, app_nil_r by (by intros []).
  assert (Forall (fun l => l_Index l ≠ fresh_index k) (k_links k)) as HF.
  { apply Forall_forall. intros l Hin%fresh_index_gt. lia. }
  induction HF as [| y l Hy HF IH]; [done |].
  by rewrite filter_cons_True, IH.
Qed.

Lemma find_map_stable {A} (f : A -> A) (p : A -> bool) (l : list A) :
  (forall x, p (f x) = p x) ->
  List.find p (map f l) = f <$> List.find p l.
Proof.
  intros Hp. induction l as [| x l IH]; [done |]. cbn. rewrite Hp.
  by destruct (p x).
Qed.

Lemma bring_up_Name i x : l_Name (bring_up i x) = l_Name x.
Proof. unfold bring_up. by case_match. Qed.

Lemma bring_up_Index i x : l_Index (bring_up i x) = l_Index x.
Proof. unfold bring_up. by case_match. Qed.

Lemma bring_up_type i x : l_type (bring_up i x) = l_type x.
Proof. unfold bring_up. by case_match. Qed.

Lemma bring_up_twice i x : bring_up i (bring_up i x) = bring_up i x.
Proof. unfold bring_up. destruct (bool_decide (l_Index x = i)) eqn:E; cbn; by rewrite E. Qed.

Lemma map_bring_up_twice (i : Z) (ls : list Link) :
  map (bring_up i) (map (bring_up i) ls) = map (bring_up i) ls.
Proof. rewrite map_map. apply map_ext. intros x. apply bring_up_twice. Qed.

Lemma set_links_same (k : Kernel) : set_links (k_links k) k = k.
Proof. by destruct k. Qed.

Lemma link_named_bring_up (k : Kernel) (i : Z) (name : string) :
  link_named (set_links (map (bring_up i) (k_links k)) k) name
  = bring_up i <$> link_named k name.
Proof.
  unfold link_named. cbn [k_links set_links]. apply find_map_stable.
  intros x. by rewrite bring_up_Name.
Qed.

Lemma link_indexed_bring_up (k : Kernel) (i j : Z) :
  link_indexed (set_links (map (bring_up i) (k_links k)) k) j
  = bring_up i <$> link_indexed k j.
Proof.
  unfold link_indexed. cbn [k_links set_links]. apply find_map_stable.
  intros x. by rewrite bring_up_Index.
Qed.

Lemma link_named_Name (k : Kernel) (name : string) (l : Link) :
  link_named k name = Some l -> l_Name l = name /\ l ∈ k_links k.
Proof.
  unfold link_named. intros [Hin H]%find_some. split.
  - by apply bool_decide_eq_true_1 in H.
  - by apply list_elem_of_In.
Qed.

Lemma link_named_links (k k' : Kernel) (name : string) :
  k_links k' = k_links k -> link_named k' name = link_named k name.
Proof. unfold link_named. by intros ->. Qed.

Lemma link_indexed_elem (k : Kernel) (l : Link) :
  l ∈ k_links k -> is_Some (link_indexed k (l_Index l)).
Proof.
  unfold link_indexed. intros Hin.
  destruct (List.find _ _) eqn:E; [done |].
  apply list_elem_of_In in Hin. eapply find_none in E; [| exact Hin].
  by apply bool_decide_eq_false_1 in E.
Qed.

Lemma ensureIndex_Name (k : Kernel) (l : Link) : l_Name (ensureIndex k l) = l_Name l.
Proof. unfold ensureIndex. by repeat case_match. Qed.

Lemma ensureIndex_type (k : Kernel) (l : Link) : l_type (ensureIndex k l) = l_type l.
Proof. unfold ensureIndex. by repeat case_match. Qed.

Lemma ensureIndex_nonzero (k : Kernel) (l : Link) : l_Index l <> 0 -> ensureIndex k l = l.
Proof. unfold ensureIndex. intros H. by rewrite (proj2 (Z.eqb_neq _ _) H). Qed.

(** A link value read from the kernel is already the one [ensureIndex]
    looks for. *)
Lemma ensureIndex_found (k : Kernel) (l kl : Link) :
  link_named k (l_Name l) = Some kl -> l_Index kl = l_Index l -> ensureIndex k l = l.
Proof.
  unfold ensureIndex. intros Hn Hi. rewrite Hn, Hi. case_match; [| done]. by destruct l.
Qed.

(** A successful [LinkAdd] of a link value without index: the kernel has one
    more link, of the name asked for and with a fresh index, and the
    caller's value has taken that index. *)
Lemma netlink_LinkAdd_Ok (l link : Link) (w w' : World) :
  netlink_LinkAdd l w = (Ok link, w') ->
  l_Index l = 0 ->
  exists kl,
    k_links (w_kernel w') = k_links (w_kernel w) ++ [kl] /\
    l_Index kl = fresh_index (w_kernel w) /\
    l_Index link = fresh_index (w_kernel w) /\
    l_Name link = l_Name l.
Proof.
  intros H Hz. apply extern_run in H as (_ & _ & _ & [(e & _ & ? & _) | (_ & H)]); [done |].
  destruct (link_named (w_kernel w) (l_Name l)) eqn:Hfree; [done |].
  injection H as <- <-. eexists. split; [reflexivity |]. split; [reflexivity |].
  split; [| apply ensureIndex_Name].
  unfold ensureIndex. rewrite Hz. cbn [Z.eqb].
  unfold link_named in *. cbn [k_links set_links].
  by rewrite find_app_new; [| | apply bool_decide_eq_true_2].
Qed.

Lemma netlink_LinkByName_trace (name : string) (w : World) :
  exists r w1, netlink_LinkByName name w = (r, w1) /\
    (forall p, r <> Panic p) /\ w_trace w1 = w_trace w ++ [CLinkByName name].
Proof.
  unfold netlink_LinkByName, extern.
  destruct (w_fault w (w_clock w) _); [by eexists _, _ |].
  destruct (link_named _ _); by eexists _, _.
Qed.

Lemma netlink_LinkDel_trace (l : Link) (w : World) :
  exists r w1, netlink_LinkDel l w = (r, w1) /\
    (forall p, r <> Panic p) /\ w_trace w1 = w_trace w ++ [CLinkDel l].
Proof.
  unfold netlink_LinkDel, extern.
  destruct (w_fault w (w_clock w) _); [by eexists _, _ |].
  destruct (link_indexed _ _); by eexists _, _.
Qed.

Lemma filter_remove_first (p : Route -> bool) (r : Route) (l : list Route) :
  p r = true ->
  List.filter p (remove_first r l) = remove_first r (List.filter p l).
Proof.
  intros Hr. induction l as [| y l IH]; [done |]. cbn.
  destruct (bool_decide (y = r)) eqn:E.
  - apply bool_decide_eq_true_1 in E as ->. rewrite Hr. cbn.
    by rewrite bool_decide_eq_true_2.
  - cbn. destruct (p y); cbn; by rewrite ?E, IH.
Qed.

Lemma slice_no_error (s : string) (lo hi : nat) (e : Error) : slice s lo hi <> Err e.
Proof. unfold slice. by case_match. Qed.

(** ** The lease-file reader *)

Lemma loadFlannelSubnetEnv_world (fn : string) (w : World) :
  (loadFlannelSubnetEnv fn w).2 = w.
Proof. unfold loadFlannelSubnetEnv. by case_match. Qed.

(** C10 (the code at a failing input): a lease file that consists of one
    recognised key without ["="] makes [loadFlannelSubnetEnv] panic on
    [parts[1]] instead of returning an environment or an error. *)
Theorem loadFlannelSubnetEnv_bare_key_panics (w : World) (fn key : string) :
  key ∈ ["FLANNEL_NETWORK"; "FLANNEL_SUBNET"; "FLANNEL_MTU"; "FLANNEL_IPMASQ"] ->
  w_files w !! fn = Some key ->
  (loadFlannelSubnetEnv fn w).1 = Panic "index out of range".
Proof.
  intros Hkey Hfile. unfold loadFlannelSubnetEnv. rewrite Hfile. simpl fst.
  repeat (apply elem_of_cons in Hkey as [-> | Hkey]; [reflexivity |]).
  by apply elem_of_nil in Hkey.
Qed.

Lemma loadFlannelSubnetEnv_bare_key_panics_witness :
  (loadFlannelSubnetEnv defaultSubnetFile
     (Sample.world Sample.host {[ defaultSubnetFile := "FLANNEL_MTU" ]} [])).1
  = Panic "index out of range".
Proof.
  apply (loadFlannelSubnetEnv_bare_key_panics _ _ "FLANNEL_MTU").
  - do 2 right. left.
  - reflexivity.
Defined.

(** ** The flannel delegate transformer *)

(** C4: on the lease values FLANNEL_NETWORK=10.1.0.0/16,
    FLANNEL_SUBNET=10.1.17.0/24, FLANNEL_MTU=1472, FLANNEL_IPMASQ=true and
    the configuration [{"name":"rktnet","type":"flannel"}] (no delegate of
    the user's), the transformer succeeds and leaves in the descriptor the
    delegate configuration [rktnet_delegate]: name "rktnet", type "bridge",
    ipMasq false, mtu 1472, isGateway true, and an ipam block of type
    host-local on subnet 10.1.17.0/24 with the single route to
    10.1.0.0/16; the parsed configuration agrees with it. *)
Theorem kvmTransformFlannelNetwork_rktnet (w : World) (net : ActiveNet) :
  ConfBytes net = Some Sample.flannel_doc ->
  loadFlannelSubnetEnv defaultSubnetFile w = (Ok Sample.fenv, w) ->
  kvmTransformFlannelNetwork (w, net) =
    (Ok tt,
     (w, {| ConfBytes := Some rktnet_delegate;
            Conf := {| conf_Name := "rktnet"; conf_Type := "bridge";
                       conf_IPAM_Type := "host-local"; conf_IPMasq := false;
                       conf_MTU := 1472 |};
            Runtime := {| rt_IfName := ""; rt_IP := []; rt_Mask := []; rt_HostIP := [];
                          rt_IP4 := Some IPConfig_zero |} |})).
Proof.
  intros Hdoc Hlease.
  unfold kvmTransformFlannelNetwork.
  unfold bind at 1. unfold getN, gets at 1. simpl snd.
  unfold bind at 1. rewrite Hdoc.
  change (lift (loadFlannelNetConf (Some Sample.flannel_doc)) (w, net))
    with (Ok {| fl_NetConf := set_conf_Type "flannel" (set_conf_Name "rktnet" NetConf_zero);
                SubnetFile := defaultSubnetFile; Delegate := None |}, (w, net)).
  cbv beta iota.
  unfold bind at 1. unfold inW at 1. simpl fst. simpl SubnetFile. rewrite Hlease.
  vm_compute. reflexivity.
Qed.

Lemma kvmTransformFlannelNetwork_rktnet_witness :
  let w := Sample.world Sample.host Sample.with_lease [] in
  ConfBytes (kvmTransformFlannelNetwork (w, Sample.flannel_net)).2.2
    = Some rktnet_delegate.
Proof.
  intros w.
  rewrite (kvmTransformFlannelNetwork_rktnet w Sample.flannel_net);
    [reflexivity | reflexivity | vm_compute; reflexivity].
Defined.

(** C6 (as amended): an overlay network whose configuration carries a
    delegate object with a [name] key, an [ipam] key, or a [type] key that
    is not a string is rejected before anything is done for it: the
    transformer and the setup step of that network end with the world and
    the descriptor exactly as they were (no call is made, no kernel object
    created). Once the lease file has been read, the error is the
    configuration error of the delegate check, which setup wraps as "cannot
    transform flannel network into basic network"; when reading the lease
    file fails first, the outcome of the reader is what comes back. *)
Theorem kvmTransformFlannelNetwork_rejects_delegate (network : Networking) (podID : string)
    (i : nat) (w : World) (net : ActiveNet) (n : FlannelNetConf) (d : GoMap) :
  conf_Type (Conf net) = "flannel" ->
  loadFlannelNetConf (ConfBytes net) = Ok n ->
  Delegate n = Some d ->
  hasKey d "name" = true \/ hasKey d "ipam" = true
    \/ (hasKey d "type" = true /\ isString (at_key d "type") = false) ->
  exists r,
    kvmTransformFlannelNetwork (w, net) = (r, (w, net)) /\
    kvmSetup_net network podID i (w, net) =
      (match r with
       | Err err =>
           Err (Wrap (errors_New "cannot transform flannel network into basic network") err)
       | r => r
       end, (w, net)) /\
    match (loadFlannelSubnetEnv (SubnetFile n) w).1 with
    | Ok _ =>
        exists err, r = Err err /\
          err ∈ [Errorf "'delegate' dictionary, if present, must have (string) 'type' field" [];
                 Errorf "'delegate' dictionary must not have 'name' field, it'll be set by flannel" [];
                 Errorf "'delegate' dictionary must not have 'ipam' field, it'll be set by flannel" []]
    | Err err => r = Err err
    | Panic p => r = Panic p
    end.
Proof.
  intros Hty Hconf Hd Hbad.
  assert (exists err, checkDelegate d = Some err /\
            err ∈ [Errorf "'delegate' dictionary, if present, must have (string) 'type' field" [];
                   Errorf "'delegate' dictionary must not have 'name' field, it'll be set by flannel" [];
                   Errorf "'delegate' dictionary must not have 'ipam' field, it'll be set by flannel" []])
    as (err & Hcheck & Herr).
  { unfold checkDelegate.
    destruct (hasKey d "type" && negb (isString (at_key d "type"))) eqn:E1;
      [eexists; split; [reflexivity | repeat constructor] |].
    destruct (hasKey d "name") eqn:E2;
      [eexists; split; [reflexivity | repeat constructor] |].
    destruct (hasKey d "ipam") eqn:E3;
      [eexists; split; [reflexivity | repeat constructor] |].
    destruct Hbad as [? | [? | [H1 H2]]]; try done.
    by rewrite H1, H2 in E1. }
  assert (exists r, kvmTransformFlannelNetwork (w, net) = (r, (w, net)) /\
            match (loadFlannelSubnetEnv (SubnetFile n) w).1 with
            | Ok _ => r = Err err
            | Err e => r = Err e
            | Panic p => r = Panic p
            end) as (r & Hr & Hcases).
  { unfold kvmTransformFlannelNetwork.
    unfold bind at 1. unfold getN, gets at 1. cbn [snd].
    unfold bind at 1. unfold lift at 1. rewrite Hconf.
    unfold bind at 1. unfold inW at 1. cbn [fst snd].
    pose proof (loadFlannelSubnetEnv_world (SubnetFile n) w) as Hw.
    destruct (loadFlannelSubnetEnv (SubnetFile n) w) as [[fenv | e | p] w0];
      cbn [fst snd] in *; subst w0; [| by eexists | by eexists].
    unfold bind at 1. rewrite Hd, Hcheck. by eexists. }
  exists r. split; [done |]. split.
  - unfold kvmSetup_net. unfold bind at 1. unfold getN, gets at 1. cbn [snd].
    rewrite Hty. rewrite bool_decide_eq_true_2 by done.
    unfold bind at 1. unfold wrapping, try. rewrite Hr.
    assert (forall v, r <> Ok v) as Hno.
    { intros v ->. by destruct ((loadFlannelSubnetEnv (SubnetFile n) w).1). }
    destruct r as [v | e | p]; [by destruct (Hno v) | done | done].
  - destruct ((loadFlannelSubnetEnv (SubnetFile n) w).1); [by exists err | done | done].
Qed.

Lemma kvmTransformFlannelNetwork_rejects_delegate_witness :
  exists err,
    (kvmTransformFlannelNetwork
       (Sample.world Sample.host Sample.with_lease [], Sample.flannel_named_delegate)).1
    = Err err /\
    err ∈ [Errorf "'delegate' dictionary, if present, must have (string) 'type' field" [];
           Errorf "'delegate' dictionary must not have 'name' field, it'll be set by flannel" [];
           Errorf "'delegate' dictionary must not have 'ipam' field, it'll be set by flannel" []].
Proof.
  destruct (kvmTransformFlannelNetwork_rejects_delegate
              (Sample.networking []) Sample.pod 0
              (Sample.world Sample.host Sample.with_lease []) Sample.flannel_named_delegate
              {| fl_NetConf := set_conf_Type "flannel" (set_conf_Name "rktnet" NetConf_zero);
                 SubnetFile := defaultSubnetFile;
                 Delegate := Some {[ "name" := AString "mine" ]} |}
              {[ "name" := AString "mine" ]}
              eq_refl eq_refl eq_refl ltac:(left; reflexivity))
    as (r & Hr & _ & H).
  change (loadFlannelSubnetEnv _ _).1 with (Ok (A := subnetEnv) Sample.fenv) in H.
  destruct H as (err & -> & Hin). exists err. by rewrite Hr.
Defined.

(** C6 (counterexample to the claim as stated): an overlay network whose
    delegate has a [name] key, on a host without lease file. The
    transformer returns the error of opening the file, not a configuration
    error about the delegate. *)
Lemma kvmTransformFlannelNetwork_lease_first_counterexample :
  (kvmTransformFlannelNetwork
     (Sample.world Sample.host ∅ [], Sample.flannel_named_delegate)).1
  = Err (PathError "open" "/run/flannel/subnet.env" ENOENT).
Proof. reflexivity. Qed.

(** ** The address allocation step *)

Lemma set_Type_restore (t : string) (n : ActiveNet) :
  set_Type (conf_Type (Conf n)) (set_Type t n) = n.
Proof. by destruct n as [b [] r]. Qed.

(** Every path through [kvmSetupNetAddressing], by what the environment
    does to its two calls. *)
Lemma kvmSetupNetAddressing_paths (network : Networking) (ifName : string)
    (w : World) (n : ActiveNet) :
  let c := allocatorCall "ADD" n ifName in
  let w1 := set_kernel (set_ip4_forward true (w_kernel w)) (called CEnableIP4Forward w) in
  kvmSetupNetAddressing network ifName (w, n) =
    match w_fault w (w_clock w) CEnableIP4Forward with
    | Some e =>
        (Err (Wrap (errors_New "failed to enable forwarding") e),
         (called CEnableIP4Forward w, n))
    | None =>
        match w_fault w (S (w_clock w)) c with
        | Some e =>
            (Err (Wrap (Errorf "problem executing network plugin %q (%q)"
                          [conf_Type (Conf n); ifName]) e),
             (called c w1, n))
        | None =>
            match w_stdout w (S (w_clock w)) c with
            | None =>
                (Err (Wrap (Errorf "error parsing %q result" [conf_Name (Conf n)])
                        (JSONError "result")),
                 (called c w1, n))
            | Some {| res_IP4 := None |} =>
                (Err (Errorf "net-plugin returned no IPv4 configuration" []),
                 (called c w1, n))
            | Some {| res_IP4 := Some ip4 |} =>
                (Ok tt, (called c w1, set_runtime_addressing ip4 n))
            end
        end
    end.
Proof.
  destruct n as [bytes [name type ipam masq m] rt].
  unfold kvmSetupNetAddressing, bind, wrapping, try, inW, ip_EnableIP4Forward, extern,
    getN, gets, modN, modify, execNetPlugin, ret, fail, allocatorCall.
  cbn.
  destruct (w_fault w (w_clock w) CEnableIP4Forward) as [e |]; [reflexivity |].
  cbn.
  destruct (w_fault w (S (w_clock w)) _) as [e |]; [reflexivity |].
  destruct (w_stdout w (S (w_clock w)) _) as [[[ip4 |]] |]; reflexivity.
Qed.

Lemma kvmSetupNetAddressing_Ok (network : Networking) (ifName : string)
    (w w' : World) (n n' : ActiveNet) :
  kvmSetupNetAddressing network ifName (w, n) = (Ok tt, (w', n')) ->
  k_links (w_kernel w') = k_links (w_kernel w) /\
  k_routes (w_kernel w') = k_routes (w_kernel w) /\
  exists ip4, n' = set_runtime_addressing ip4 n.
Proof.
  rewrite kvmSetupNetAddressing_paths.
  destruct (w_fault w (w_clock w) CEnableIP4Forward); [done |].
  destruct (w_fault w (S (w_clock w)) _); [done |].
  destruct (w_stdout w (S (w_clock w)) _) as [[[ip4 |]] |]; try done.
  intros [= <- <-]. repeat split. by exists ip4.
Qed.

(** C5: the allocation step is all-or-nothing on the runtime state. When it
    succeeds the allocator's run was not failed, its output decoded and
    carried an IPv4 block [ip4], and the four fields hold the address, the
    mask, the gateway and the block of [ip4] (the interface name being the
    one field left as it was); when it returns an error (forwarding could
    not be enabled, the plugin failed, its output did not parse or had no
    IPv4 block) the runtime state is the one before the call. It never
    panics. *)
Theorem kvmSetupNetAddressing_all_or_nothing (network : Networking) (ifName : string)
    (w : World) (n : ActiveNet) :
  match kvmSetupNetAddressing network ifName (w, n) with
  | (Ok _, (_, n')) =>
      exists ip4,
        w_fault w (S (w_clock w)) (allocatorCall "ADD" n ifName) = None /\
        w_stdout w (S (w_clock w)) (allocatorCall "ADD" n ifName)
          = Some {| res_IP4 := Some ip4 |} /\
        Runtime n' = {| rt_IfName := rt_IfName (Runtime n);
                        rt_IP := ipnet_IP (ipc_IP ip4);
                        rt_Mask := ipnet_Mask (ipc_IP ip4);
                        rt_HostIP := ipc_Gateway ip4;
                        rt_IP4 := Some ip4 |}
  | (Err _, (_, n')) => Runtime n' = Runtime n
  | (Panic _, _) => False
  end.
Proof.
  rewrite kvmSetupNetAddressing_paths.
  destruct (w_fault w (w_clock w) CEnableIP4Forward) as [e |]; [reflexivity |].
  destruct (w_fault w (S (w_clock w)) _) as [e |] eqn:Hf; [reflexivity |].
  destruct (w_stdout w (S (w_clock w)) _) as [[[ip4 |]] |] eqn:Hout; try reflexivity.
  by exists ip4.
Qed.

(** ** The macvtap device *)

Lemma macvtap_mode_inl (m : string) (e : Error) :
  macvtap_mode m = inl e -> e = Errorf "unsupported macvtap mode: %v" [m].
Proof.
  unfold macvtap_mode. repeat case_match; congruence.
Qed.

(** C9: when [setupMacVTapDevice] returns the error of a failed bring-up, the
    macvtap link it had just created ([CLinkAdd link0], then
    [CLinkSetUp link] on the same device) is deleted before the error is
    returned: [CLinkDel link] is the last call made. Unless the environment
    makes that deletion fail as well (its error is ignored), the links of
    the host are the ones from before the call: no orphaned link. *)
Theorem setupMacVTapDevice_bringup_failure (podID : string) (config : MacVTapNetConf)
    (i : nat) (w w' : World) (err : Error) :
  setupMacVTapDevice podID config i w
    = (Err (Wrap (errors_New "cannot set up macvtap interface") err), w') ->
  exists link0 link,
    w_trace w' = w_trace w ++ [CLinkByName (Master config); CLinkAdd link0;
                               CLinkSetUp link; CLinkDel link] /\
    l_Name link = l_Name link0 /\
    (w_fault w (3 + w_clock w)%nat (CLinkDel link) = None ->
     k_links (w_kernel w') = k_links (w_kernel w)).
Proof.
  intros H. unfold setupMacVTapDevice, errors_New in H. unfold bind at 1 in H.
  unfold wrapping at 1, try at 1 in H.
  destruct (netlink_LinkByName (Master config) w) as [[master | e | p] w1] eqn:E1;
    cbv beta iota in H; [| unfold fail in H; discriminate H | discriminate H].
  unfold ret at 1 in H.
  destruct (macvtap_mode (Mode config)) as [e | mode] eqn:Em;
    [apply macvtap_mode_inl in Em as ->; unfold fail in H; discriminate H |].
  unfold bind at 1 in H. unfold lift at 1 in H.
  destruct (slice podID 0 4) as [prefix | e | p] eqn:Es;
    cbv beta iota in H; [| by apply slice_no_error in Es | discriminate H].
  unfold bind at 1 in H. unfold wrapping at 1, try at 1 in H.
  match type of H with context [netlink_LinkAdd ?l w1] => set (link0 := l) in * end.
  destruct (netlink_LinkAdd link0 w1) as [[link | e | p] w2] eqn:E2;
    cbv beta iota in H; [| unfold fail in H; discriminate H | discriminate H].
  unfold ret at 1, try at 1 in H.
  destruct (netlink_LinkSetUp link w2) as [[l2 | e | p] w3] eqn:E3;
    cbv beta iota in H; [discriminate H | | discriminate H].
  unfold try, fail in H.
  destruct (netlink_LinkDel link w3) as [r4 w4] eqn:E4.
  assert (w4 = w' /\ e = err) as [-> ->] by (destruct r4; by simplify_eq). clear H.
  exists link0, link.
  apply extern_run in E1 as (Ht1 & Hc1 & Hf1 & [(? & _ & ? & _) | (_ & E1)]); [done |].
  assert (w_kernel w1 = w_kernel w) as Hk1.
  { destruct (link_named (w_kernel w) (Master config)); by simplify_eq. }
  destruct (netlink_LinkAdd_Ok _ _ _ _ E2 eq_refl) as (kl & Hk2 & Hkl & Hlink & Hname).
  apply extern_run in E2 as (Ht2 & Hc2 & Hf2 & _).
  apply extern_run in E3 as (Ht3 & Hc3 & Hf3 & E3).
  assert (w_kernel w3 = w_kernel w2) as Hk3.
  { destruct E3 as [(? & _ & _ & ?) | (_ & E3)]; [done |].
    cbv zeta in E3. destruct (link_indexed (w_kernel w2) _); by simplify_eq. }
  apply extern_run in E4 as (Ht4 & _ & _ & E4).
  split; [by rewrite Ht4, Ht3, Ht2, Ht1, <- !app_assoc |]. split; [done |].
  rewrite <- Hf1, <- Hf2, <- Hf3.
  replace (3 + w_clock w)%nat with (w_clock w3) by lia.
  intros Hnf. destruct E4 as [(? & ? & _) | (_ & E4)]; [congruence |].
  rewrite Hk1 in *.
  pose proof (fresh_index_pos (w_kernel w)) as Hpos.
  rewrite ensureIndex_nonzero in E4 by lia.
  rewrite Hk3, Hlink in E4. unfold link_indexed in E4. rewrite Hk2 in E4.
  rewrite find_fresh_index in E4 by done.
  injection E4 as _ <-. cbn [k_links set_links].
  by apply filter_fresh_index.
Qed.

Lemma setupMacVTapDevice_bringup_failure_witness :
  k_links (w_kernel (setupMacVTapDevice Sample.pod (Sample.macvtap_conf "eth0" "vepa") 0
                       (Sample.faulty Sample.is_LinkSetUp
                          (Sample.world Sample.host ∅ []))).2)
  = k_links Sample.host.
Proof.
  destruct (setupMacVTapDevice_bringup_failure
              Sample.pod (Sample.macvtap_conf "eth0" "vepa") 0
              (Sample.faulty Sample.is_LinkSetUp (Sample.world Sample.host ∅ []))
              _ (Errno EIO) eq_refl) as (link0 & link & _ & _ & H).
  apply H. reflexivity.
Defined.

(** C7 (as amended): for every macvlan configuration whose mode is none of
    "", "bridge", "private", "vepa", "passthru", [setupMacVTapDevice] returns
    an error after its single call, the lookup of the master device, and the
    kernel is as before: no link is created. The error is the
    unsupported-mode error when the master device was found, and the error
    of the lookup otherwise. *)
Theorem setupMacVTapDevice_unsupported_mode (podID : string) (config : MacVTapNetConf)
    (i : nat) (w : World) :
  Mode config ∉ [""; "bridge"; "private"; "vepa"; "passthru"] ->
  match setupMacVTapDevice podID config i w with
  | (r, w') =>
      w_kernel w' = w_kernel w /\
      w_trace w' = w_trace w ++ [CLinkByName (Master config)] /\
      match netlink_LinkByName (Master config) w with
      | (Ok _, _) => r = Err (Errorf "unsupported macvtap mode: %v" [Mode config])
      | (Err err, _) =>
          r = Err (Wrap (Errorf "cannot find master device '%v'" [Master config]) err)
      | (Panic _, _) => False
      end
  end.
Proof.
  intros Hmode.
  assert (macvtap_mode (Mode config)
          = inl (Errorf "unsupported macvtap mode: %v" [Mode config])) as Hm.
  { unfold macvtap_mode.
    rewrite !bool_decide_eq_false_2; [reflexivity | | | | |];
      intros E; apply Hmode; rewrite E; repeat constructor. }
  unfold setupMacVTapDevice, bind, wrapping, try. rewrite Hm.
  destruct (netlink_LinkByName (Master config) w) as [r1 w1] eqn:E1.
  apply extern_run in E1 as (Ht1 & _ & _ & E1).
  assert (w_kernel w1 = w_kernel w /\ forall p, r1 <> Panic p) as [Hk1 Hnp].
  { destruct E1 as [(? & _ & -> & ?) | (_ & E1)]; [done |].
    destruct (link_named (w_kernel w) (Master config)); by simplify_eq. }
  destruct r1 as [master | err | p]; [done | done | by destruct (Hnp p)].
Qed.

Lemma setupMacVTapDevice_unsupported_mode_witness :
  (setupMacVTapDevice Sample.pod (Sample.macvtap_conf "eth0" "unknown") 0
     (Sample.world Sample.host ∅ [])).1
  = Err (Errorf "unsupported macvtap mode: %v" ["unknown"]).
Proof.
  pose proof (setupMacVTapDevice_unsupported_mode
                Sample.pod (Sample.macvtap_conf "eth0" "unknown") 0
                (Sample.world Sample.host ∅ [])) as H.
  destruct (setupMacVTapDevice _ _ _ _) as [r w'].
  apply H. vm_compute. intros Hin.
  repeat (apply elem_of_cons in Hin as [Hin | Hin]; [discriminate Hin |]).
  by apply elem_of_nil in Hin.
Defined.

(** C7 (counterexample to the claim as stated): a macvlan configuration of
    mode "unknown" whose master device "eth9" is not on the host. The error
    returned is the one of the master lookup, not the unsupported-mode
    error. *)
Lemma setupMacVTapDevice_master_first_counterexample :
  (setupMacVTapDevice Sample.pod (Sample.macvtap_conf "eth9" "unknown") 0
     (Sample.world Sample.host ∅ [])).1
  = Err (Wrap (Errorf "cannot find master device '%v'" ["eth9"])
           (Errorf "Link not found" [])) /\
  (setupMacVTapDevice Sample.pod (Sample.macvtap_conf "eth9" "unknown") 0
     (Sample.world Sample.host ∅ [])).1
  <> Err (Errorf "unsupported macvtap mode: %v" ["unknown"]).
Proof. split; [reflexivity | discriminate]. Qed.

(** ** The bridge device *)

(** On a host where a link of the name exists, [ensureBridgeIsUp] creates
    nothing: a bridge is brought up and returned, anything else is a
    naming conflict. *)
Lemma ensureBridgeIsUp_existing (brName : string) (mtu : Z) (w : World) (b : Link) :
  quiet w 3 ->
  link_named (w_kernel w) brName = Some b ->
  exists w',
    ensureBridgeIsUp brName mtu w =
      (match l_type b with
       | Bridge => Ok b
       | _ => Err (Errorf "%q already exists but is not a bridge" [brName])
       end, w') /\
    w_kernel w' =
      match l_type b with
      | Bridge => set_links (map (bring_up (l_Index b)) (k_links (w_kernel w))) (w_kernel w)
      | _ => w_kernel w
      end.
Proof.
  intros Hq Hb.
  pose proof (Hq (w_clock w)) as Hq0.
  pose proof (Hq (S (w_clock w))) as Hq1.
  pose proof (Hq (S (S (w_clock w)))) as Hq2.
  unfold ensureBridgeIsUp, bind, try, netlink_LinkAdd, extern. cbn [l_Name].
  rewrite Hq0 by lia. rewrite Hb. cbn [is_errno bool_decide negb].
  change (negb (bool_decide (EEXIST = EEXIST))) with false. cbv iota.
  unfold bridgeByName, bind, wrapping, try, netlink_LinkByName, extern.
  cbn [w_fault w_clock w_kernel called set_kernel].
  rewrite Hq1 by lia. rewrite Hb. unfold ret at 1. cbv beta iota.
  destruct (link_named_Name _ _ _ Hb) as [Hname Hin].
  destruct (l_type b) eqn:Hty; try (eexists; split; reflexivity).
  unfold ret at 1. unfold netlink_LinkSetUp, extern.
  cbn [w_fault w_clock w_kernel called set_kernel].
  rewrite Hq2 by lia.
  rewrite (ensureIndex_found _ b b) by (by rewrite ?Hname).
  destruct (link_indexed_elem _ _ Hin) as [x ->].
  eexists. split; reflexivity.
Qed.

(** The host after a successful [ensureBridgeIsUp]: the name is that of a
    bridge, the one returned, and it is up. *)
Lemma ensureBridgeIsUp_Ok_state (brName : string) (mtu : Z) (w w1 : World) (br : Link) :
  ensureBridgeIsUp brName mtu w = (Ok br, w1) ->
  exists b1,
    link_named (w_kernel w1) brName = Some b1 /\
    l_type b1 = Bridge /\ l_Index b1 = l_Index br /\ l_Name br = brName /\
    l_type br = Bridge /\
    map (bring_up (l_Index br)) (k_links (w_kernel w1)) = k_links (w_kernel w1).
Proof.
  unfold ensureBridgeIsUp. intros H.
  apply bind_Ok in H as (br1 & wa & Hadd & H).
  apply bind_Ok in H as (br2 & wb & Hup & H). injection H as <- <-.
  (* the bridge value and the host before the bring-up *)
  assert (exists kb, link_named (w_kernel wa) brName = Some kb /\ l_type kb = Bridge /\
                     l_Index kb = l_Index (ensureIndex (w_kernel wa) br1) /\
                     l_Name br1 = brName /\ l_type br1 = Bridge)
    as (kb & Hkb & Hkbty & Hkbi & Hn1 & Hty1).
  { unfold try in Hadd.
    destruct (netlink_LinkAdd _ w) as [[a | e | p] w0] eqn:Eadd; [| | done].
    - injection Hadd as -> ->.
      pose proof Eadd as Eadd'.
      apply netlink_LinkAdd_Ok in Eadd' as (kl & Hk & Hkl & Hi & Hn); [| done].
      ran Eadd.
      cbn [l_Name] in *.
      destruct (link_named (w_kernel w) brName) eqn:Hfree; [done |].
      injection Eadd as Hbr1 Hwa.
      exists kl. rewrite <- Hwa in Hk |- *. cbn [k_links set_links] in Hk.
      apply app_inv_head in Hk. injection Hk as <-.
      split.
      { unfold link_named in *. cbn [k_links set_links].
        apply find_app_new; [done | by apply bool_decide_eq_true_2]. }
      split; [done |]. rewrite Hwa.
      pose proof (fresh_index_pos (w_kernel w)).
      rewrite ensureIndex_nonzero by lia.
      split; [by rewrite Hi |]. split; [done |].
      by rewrite <- Hbr1, ensureIndex_type.
    - destruct (negb (is_errno e EEXIST)); [done |].
      unfold bridgeByName in Hadd.
      apply bind_Ok in Hadd as (l & wl & Hl & Hadd).
      apply wrapping_Ok in Hl.
      ran Hl.
      apply extern_run in Eadd as (_ & _ & _ & Eadd).
      assert (w_kernel w0 = w_kernel w) as Hk0.
      { destruct Eadd as [(? & _ & _ & ?) | (_ & Eadd)]; [done |]. cbn [l_Name] in Eadd.
        destruct (link_named (w_kernel w) brName); by simplify_eq. }
      destruct (link_named (w_kernel w0) brName) as [kb |] eqn:Hkb; [| done].
      injection Hl as Hl Hk. subst l.
      destruct (l_type kb) eqn:Hty; try done. injection Hadd as -> ->.
      exists br1. rewrite <- Hk. destruct (link_named_Name _ _ _ Hkb) as [Hn _].
      rewrite (ensureIndex_found _ br1 br1) by (by rewrite ?Hn). done. }
  ran Hup.
  cbv zeta in Hup.
  destruct (link_indexed (w_kernel wa) _); [| done].
  injection Hup as <- <-.
  rewrite link_named_bring_up, Hkb. eexists. split; [reflexivity |].
  rewrite bring_up_type, bring_up_Index, ensureIndex_Name.
  repeat split; try done.
  - by rewrite ensureIndex_type.
  - cbn [k_links set_links]. apply map_bring_up_twice.
Qed.

(** C8: ensuring the bridge is idempotent. On a host where a link of the
    configured name exists and the environment fails none of the calls,
    [ensureBridgeIsUp] creates nothing: when the link is a bridge it
    succeeds and yields that very device, the only change being that the
    device is up; when the link is not a bridge it fails with the naming
    conflict and changes nothing. And after any successful
    [ensureBridgeIsUp], ensuring the same name again succeeds, yields the
    same device (name, index, type) and leaves the kernel as it is. *)
Theorem ensureBridgeIsUp_idempotent (brName : string) (mtu : Z) (w : World) :
  (forall b,
     quiet w 3 ->
     link_named (w_kernel w) brName = Some b ->
     exists w',
       ensureBridgeIsUp brName mtu w =
         (match l_type b with
          | Bridge => Ok b
          | _ => Err (Errorf "%q already exists but is not a bridge" [brName])
          end, w') /\
       w_kernel w' =
         match l_type b with
         | Bridge =>
             set_links (map (bring_up (l_Index b)) (k_links (w_kernel w))) (w_kernel w)
         | _ => w_kernel w
         end) /\
  (forall br w1 mtu',
     ensureBridgeIsUp brName mtu w = (Ok br, w1) ->
     quiet w1 3 ->
     exists br' w2,
       ensureBridgeIsUp brName mtu' w1 = (Ok br', w2) /\
       l_Name br' = l_Name br /\ l_Index br' = l_Index br /\ l_type br' = l_type br /\
       w_kernel w2 = w_kernel w1).
Proof.
  split.
  - intros b Hq Hb. by apply ensureBridgeIsUp_existing.
  - intros br w1 mtu' H1 Hq.
    destruct (ensureBridgeIsUp_Ok_state _ _ _ _ _ H1)
      as (b1 & Hb1 & Hty1 & Hi1 & Hn & Hty & Hup).
    destruct (ensureBridgeIsUp_existing brName mtu' w1 b1 Hq Hb1) as (w2 & H2 & Hk2).
    rewrite Hty1 in H2, Hk2. exists b1, w2.
    destruct (link_named_Name _ _ _ Hb1) as [Hn1 _].
    repeat split; try congruence.
    by rewrite Hk2, Hi1, Hup, set_links_same.
Qed.

Lemma ensureBridgeIsUp_idempotent_witness :
  (exists w',
     ensureBridgeIsUp defaultBrName defaultMTU (Sample.world Sample.host_with_tap ∅ [])
     = (Err (Errorf "%q already exists but is not a bridge" [defaultBrName]), w')) /\
  (exists br' w2,
     ensureBridgeIsUp defaultBrName defaultMTU Sample.after_bridge = (Ok br', w2) /\
     l_Index br' = 2 /\ w_kernel w2 = w_kernel Sample.after_bridge).
Proof.
  split.
  - destruct (ensureBridgeIsUp_idempotent defaultBrName defaultMTU
                (Sample.world Sample.host_with_tap ∅ [])) as [H _].
    destruct (H _ (fun t c _ => eq_refl) eq_refl) as (w' & E & _).
    by exists w'.
  - destruct (ensureBridgeIsUp_idempotent defaultBrName defaultMTU
                (Sample.world Sample.host ∅ [])) as [_ H].
    destruct (H Sample.created_bridge Sample.after_bridge defaultMTU eq_refl
                (fun t c _ => eq_refl)) as (br' & w2 & E & _ & Hi & _ & Hk).
    by exists br', w2.
Defined.

(** ** Routes of a point-to-point network *)

(** When [removeRoutes] gets through a list that is all the routes of a
    link, no route of that link is left. *)
Lemma removeRoutes_Ok (p : Route -> bool) (routes : list Route) (w w' : World) :
  removeRoutes routes w = (Ok tt, w') ->
  List.filter p (k_routes (w_kernel w)) = routes ->
  List.filter p (k_routes (w_kernel w')) = [] /\
  k_links (w_kernel w') = k_links (w_kernel w).
Proof.
  revert w. induction routes as [| r rest IH]; intros w H Hall.
  - apply ret_Ok in H as [_ ->]. by rewrite Hall.
  - cbn [removeRoutes] in H. apply bind_Ok in H as ([] & w1 & Hdel & H).
    apply wrapping_Ok in Hdel.
    ran Hdel.
    destruct (bool_decide (r ∈ k_routes (w_kernel w))); [| done].
    injection Hdel as Hk.
    assert (p r = true) as Hr.
    { assert (In r (List.filter p (k_routes (w_kernel w)))) as Hin
        by (rewrite Hall; by left).
      by apply filter_In in Hin as [_ ?]. }
    destruct (IH w1 H) as [Hnone Hlinks].
    { rewrite <- Hk. cbn [k_routes set_routes].
      rewrite filter_remove_first, Hall by done. cbn.
      by rewrite bool_decide_eq_true_2. }
    split; [done |]. by rewrite Hlinks, <- Hk.
Qed.

Lemma removeAllRoutesOnLink_Ok (link : Link) (w w' : World) :
  removeAllRoutesOnLink link w = (Ok tt, w') ->
  List.filter (on_link (l_Index (ensureIndex (w_kernel w) link))) (k_routes (w_kernel w')) = []
  /\ k_links (w_kernel w') = k_links (w_kernel w).
Proof.
  unfold removeAllRoutesOnLink. intros H.
  apply bind_Ok in H as (routes & w1 & Hlist & H).
  apply wrapping_Ok in Hlist.
  ran Hlist.
  injection Hlist as <- Hk.
  eapply removeRoutes_Ok in H; [| by rewrite <- Hk].
  by rewrite <- Hk in H.
Qed.

Lemma addRoute_Ok (link : Link) (podIP : IP) (w w' : World) :
  addRoute link podIP w = (Ok tt, w') ->
  k_routes (w_kernel w') =
    k_routes (w_kernel w) ++
      [{| r_LinkIndex := l_Index link; r_Scope := SCOPE_LINK;
          r_Dst := Some {| ipnet_IP := podIP; ipnet_Mask := IPv4Mask 255 255 255 255 |};
          r_Src := []; r_Gw := [] |}]
  /\ k_links (w_kernel w') = k_links (w_kernel w).
Proof.
  unfold addRoute, netlink_RouteAdd. intros H.
  ran H.
  destruct (bool_decide _); [done |]. by injection H as <-.
Qed.

Lemma ensureHasAddr_Ok (link : Link) (ipn : IPNet) (w w' : World) :
  ensureHasAddr link ipn w = (Ok tt, w') ->
  k_links (w_kernel w') = k_links (w_kernel w).
Proof.
  unfold ensureHasAddr. intros H.
  apply bind_Ok in H as (addrs & w1 & Hlist & H).
  assert (w_kernel w1 = w_kernel w) as Hk1.
  { unfold try in Hlist.
    destruct (netlink_AddrList link w) as [[a | e | p] w0] eqn:E; [| | done].
    - apply ret_Ok in Hlist as [_ ->].
      ran E.
      by injection E.
    - destruct (negb (is_errno e ENOENT)); [done |].
      apply ret_Ok in Hlist as [_ ->].
      apply extern_run in E as (_ & _ & _ & [(? & _ & _ & ?) | (_ & E)]); [done |].
      by injection E. }
  rewrite <- Hk1.
  destruct (bool_decide (0 < length addrs)%nat).
  - destruct (existsb _ addrs); [| done]. by apply ret_Ok in H as [_ ->].
  - apply wrapping_Ok in H.
    ran H.
    cbv zeta in H.
    destruct (link_indexed (w_kernel w1) _) as [kl |]; [| done].
    destruct (bool_decide _); [done |].
    injection H as <-. by destruct (l_up kl).
Qed.

Lemma chars_app (a b : string) : chars (a +:+ b) = chars a ++ chars b.
Proof. unfold chars. induction a as [| c a IH]; [done |]. simpl. by f_equal. Qed.

(** The name template of [setupTapDevice] ends in ["%d"]. *)
Lemma tap_template_prefix (prefix : string) :
  is_Some (template_prefix ("rkt-" +:+ prefix +:+ "-tap%d")).
Proof.
  unfold template_prefix. rewrite !chars_app, !rev_app_distr. by cbn.
Qed.

(** A device created from a template has a name no link of the host had. *)
Lemma tuntap_CreatePersistentIface_Ok (nameTemplate name : string) (w w' : World) :
  is_Some (template_prefix nameTemplate) ->
  tuntap_CreatePersistentIface nameTemplate w = (Ok name, w') ->
  link_named (w_kernel w) name = None.
Proof.
  intros [p Hp] H. ran H. unfold kernel_name in H. rewrite Hp in H.
  destruct (List.find _ _) as [found |] eqn:Hfind; [| done].
  apply find_some in Hfind as [_ Hfree].
  apply negb_true_iff, bool_decide_eq_false_1 in Hfree.
  destruct (link_named (w_kernel w) found) eqn:E; [by destruct Hfree |].
  by injection H as <-.
Qed.

(** The link [setupTapDevice] returns is a link of the host, under its name
    and its index, and it is new: no link of that name was there before. *)
Lemma setupTapDevice_Ok (podID : string) (w w1 : World) (link : Link) :
  setupTapDevice podID w = (Ok link, w1) ->
  link_named (w_kernel w) (l_Name link) = None /\
  exists kl, link_named (w_kernel w1) (l_Name link) = Some kl /\ l_Index kl = l_Index link.
Proof.
  unfold setupTapDevice. intros H.
  apply bind_Ok in H as (prefix & s0 & Hs & H). apply lift_Ok in Hs as [_ ->].
  apply bind_Ok in H as (ifName & wa & Hnew & H).
  apply bind_Ok in H as (link0 & wb & Hfind & H).
  apply bind_Ok in H as (h & wc & Hup & H).
  apply ret_Ok in H as [-> ->].
  apply wrapping_Ok in Hnew, Hfind, Hup.
  apply tuntap_CreatePersistentIface_Ok in Hnew; [| apply tap_template_prefix].
  ran Hfind.
  destruct (link_named (w_kernel wa) ifName) as [l0 |] eqn:Hl0; [| done].
  injection Hfind as -> Hk.
  destruct (link_named_Name _ _ _ Hl0) as [Hn _].
  ran Hup.
  cbv zeta in Hup. rewrite <- Hk in Hup.
  rewrite (ensureIndex_found _ link0 link0) in Hup by (by rewrite ?Hn).
  destruct (link_indexed (w_kernel wa) (l_Index link0)); [| done].
  injection Hup as <- <-.
  rewrite link_named_bring_up, Hn, Hl0. split; [done |].
  eexists. split; [reflexivity |]. apply bring_up_Index.
Qed.

Lemma ip_SetupIPMasq_Ok (ipn : IPNet) (chain : ChainName) (comment : string)
    (w w' : World) :
  ip_SetupIPMasq ipn chain comment w = (Ok tt, w') ->
  k_links (w_kernel w') = k_links (w_kernel w) /\
  k_routes (w_kernel w') = k_routes (w_kernel w).
Proof.
  intros H.
  ran H.
  injection H as <-. by destruct (bool_decide _).
Qed.

(** C1 (as amended): when the setup of a ptp network succeeds, the
    interface named in the runtime state of the descriptor is a new link of
    the host (no link had that name before), the runtime addressing fields
    hold the allocator's IPv4 block, and the IPv4 routes on that interface
    are exactly one: the /32 route of link scope to the pod's assigned
    address. Every route the interface had before (such as the connected
    route of the gateway address) has been removed. *)
Theorem kvmSetup_ptp_single_route (network : Networking) (podID : string) (i : nat)
    (w w' : World) (n n' : ActiveNet) :
  conf_Type (Conf n) = "ptp" ->
  kvmSetup_net network podID i (w, n) = (Ok tt, (w', n')) ->
  exists link ip4,
    link_named (w_kernel w) (rt_IfName (Runtime n')) = None /\
    link_named (w_kernel w') (rt_IfName (Runtime n')) = Some link /\
    rt_IP4 (Runtime n') = Some ip4 /\
    rt_IP (Runtime n') = ipnet_IP (ipc_IP ip4) /\
    List.filter (on_link (l_Index link)) (k_routes (w_kernel w')) =
      [{| r_LinkIndex := l_Index link;
          r_Scope := SCOPE_LINK;
          r_Dst := Some {| ipnet_IP := rt_IP (Runtime n');
                           ipnet_Mask := IPv4Mask 255 255 255 255 |};
          r_Src := []; r_Gw := [] |}].
Proof.
  intros Hty H. unfold kvmSetup_net in H.
  apply bind_Ok in H as (n0 & s0 & Hg & H). apply getN_Ok in Hg as [-> ->]. cbn [snd] in H.
  rewrite Hty in H.
  change (bool_decide ("ptp" = "flannel")) with false in H. cbv iota in H.
  apply bind_Ok in H as ([] & s1 & Hr & H). apply ret_Ok in Hr as [_ ->].
  apply bind_Ok in H as (n0 & s0 & Hg & H). apply getN_Ok in Hg as [-> ->]. cbn [snd] in H.
  rewrite Hty in H.
  change (bool_decide ("ptp" = "ptp")) with true in H. cbv iota in H.
  apply bind_Ok in H as ([] & [w5 n5] & Hptp & H).
  (* the ptp branch *)
  apply bind_Ok in Hptp as (link & [w1 n1] & Htap & Hptp).
  apply inW_eq in Htap as [Htap ->].
  apply bind_Ok in Hptp as ([] & s1 & Hm & Hptp). apply modN_Ok in Hm as ->.
  cbn [fst snd] in Hptp.
  apply bind_Ok in Hptp as ([] & [w2 n2] & Haddr & Hptp).
  apply bind_Ok in Hptp as (n0 & s0 & Hg & Hptp). apply getN_Ok in Hg as [-> ->].
  cbn [snd] in Hptp.
  apply bind_Ok in Hptp as (gw & s0 & Hgw & Hptp). apply lift_Ok in Hgw as [_ ->].
  apply bind_Ok in Hptp as ([] & [w3 n3] & Hhas & Hptp).
  apply wrapping_Ok, inW_eq in Hhas as [Hhas ->].
  apply bind_Ok in Hptp as ([] & [w4 n4] & Hrm & Hptp).
  apply wrapping_Ok, inW_eq in Hrm as [Hrm ->].
  apply wrapping_Ok, inW_eq in Hptp as [Hadd ->].
  (* what each step leaves *)
  destruct (setupTapDevice_Ok _ _ _ _ Htap) as (Hnew & kl & Hkl & Hidx).
  apply kvmSetupNetAddressing_Ok in Haddr as (Hl2 & _ & ip4 & ->).
  apply ensureHasAddr_Ok in Hhas as Hl3.
  apply removeAllRoutesOnLink_Ok in Hrm as [Hnone Hl4].
  apply addRoute_Ok in Hadd as [Hroutes Hl5].
  assert (k_links (w_kernel w5) = k_links (w_kernel w1)) as Hlinks by congruence.
  assert (ensureIndex (w_kernel w3) link = link) as Hsame.
  { apply (ensureIndex_found _ _ kl); [| done].
    rewrite <- Hkl. apply link_named_links. congruence. }
  rewrite Hsame in Hnone.
  (* the masquerade rule does not touch links and routes *)
  assert (k_links (w_kernel w') = k_links (w_kernel w5) /\
          k_routes (w_kernel w') = k_routes (w_kernel w5) /\
          n' = set_runtime_addressing ip4 (set_IfName (l_Name link) n))
    as (Hl6 & Hr6 & ->).
  { apply bind_Ok in H as (n0 & s0 & Hg & H). apply getN_Ok in Hg as [-> ->].
    cbn [snd] in H.
    destruct (conf_IPMasq _).
    - apply inW_eq in H as [E6 ->].
      by apply ip_SetupIPMasq_Ok in E6 as [? ?].
    - by apply ret_Ok in H as [_ [= <-]]. }
  exists kl, ip4. split; [done |]. split; [| split; [done |]; split; [done |]].
  - rewrite <- Hkl. apply link_named_links. congruence.
  - rewrite Hidx, Hr6, Hroutes, List.filter_app, Hnone. cbn.
    unfold on_link. cbn. by rewrite bool_decide_eq_true_2.
Qed.

Lemma kvmSetup_ptp_single_route_witness :
  exists link ip4,
    link_named Sample.host (rt_IfName (Runtime Sample.ptp_setup.2.2)) = None /\
    link_named (w_kernel Sample.ptp_setup.2.1) (rt_IfName (Runtime Sample.ptp_setup.2.2))
      = Some link /\
    rt_IP4 (Runtime Sample.ptp_setup.2.2) = Some ip4 /\
    rt_IP (Runtime Sample.ptp_setup.2.2) = ipnet_IP (ipc_IP ip4) /\
    List.filter (on_link (l_Index link)) (k_routes (w_kernel Sample.ptp_setup.2.1)) =
      [{| r_LinkIndex := l_Index link;
          r_Scope := SCOPE_LINK;
          r_Dst := Some {| ipnet_IP := rt_IP (Runtime Sample.ptp_setup.2.2);
                           ipnet_Mask := IPv4Mask 255 255 255 255 |};
          r_Src := []; r_Gw := [] |}].
Proof.
  apply (kvmSetup_ptp_single_route (Sample.networking [Sample.ptp_net]) Sample.pod 0
           (Sample.world Sample.host ∅ []) _ Sample.ptp_net).
  - reflexivity.
  - vm_compute. reflexivity.
Defined.

(** C1 (counterexample to the claim as stated): the setup of a bridge
    network succeeds, the new interface "rkt-abcd-tap0" is link 3 of the
    host, and no route goes through it: the bridge path neither removes
    routes nor adds the /32 route to the pod's address. *)
Lemma kvmSetup_bridge_no_route_counterexample :
  Sample.bridge_setup.1 = Ok tt /\
  conf_Type (Conf Sample.bridge_setup.2.2) = "bridge" /\
  rt_IfName (Runtime Sample.bridge_setup.2.2) = "rkt-abcd-tap0" /\
  l_Index <$> link_named (w_kernel Sample.bridge_setup.2.1) "rkt-abcd-tap0" = Some 3 /\
  List.filter (on_link 3) (k_routes (w_kernel Sample.bridge_setup.2.1)) = [].
Proof. vm_compute. by repeat split. Qed.

(** ** Teardown *)

(** The release part of the loop body: the plugin call with the type
    swapped for the IPAM type, then the masquerade removal; neither
    failure stops anything, and the type stays swapped. *)
Lemma teardownAddressing_spec (n : Networking) (an : ActiveNet) (w : World) :
  exists w',
    teardownAddressing n (w, an) = (Ok tt, (w', set_Type (conf_IPAM_Type (Conf an)) an)) /\
    w_trace w' = w_trace w
                 ++ [allocatorCall "DEL" an (rt_IfName (Runtime an))]
                 ++ masqTeardownCalls n an.
Proof.
  destruct an as [bytes [name type ipam masq m] rt].
  unfold teardownAddressing, masqTeardownCalls, allocatorCall, bind, try, inW, modN, modify,
    getN, gets, execNetPlugin, ip_TeardownIPMasq, extern, stderr_PrintE, ret.
  cbn.
  destruct (w_fault w (w_clock w) _) as [e |]; destruct masq; cbn;
    try (destruct (w_fault w (S (w_clock w)) _) as [e' |]; cbn;
         [| destruct (bool_decide _); cbn]);
    eexists; (split; [reflexivity | cbn; by rewrite <- ?app_assoc]).
Qed.

Lemma teardownDevice_tap (w : World) (an : ActiveNet) :
  conf_Type (Conf an) ∈ ["ptp"; "bridge"] ->
  exists w',
    teardownDevice (w, an) = (Ok true, (w', an)) /\
    w_trace w' = w_trace w ++ [CRemovePersistentIface (rt_IfName (Runtime an))].
Proof.
  intros Hty.
  assert (bool_decide (conf_Type (Conf an) = "ptp")
          || bool_decide (conf_Type (Conf an) = "bridge") = true) as Hb.
  { apply elem_of_cons in Hty as [-> | Hty]; [reflexivity |].
    apply elem_of_cons in Hty as [-> | Hty]; [reflexivity |].
    by apply elem_of_nil in Hty. }
  unfold teardownDevice, bind, getN, gets. cbn [snd]. rewrite Hb.
  unfold try, inW, tuntap_RemovePersistentIface, extern, ret. cbn [fst snd].
  destruct (w_fault w (w_clock w) _) as [e |]; [by eexists |].
  destruct (link_named _ _) as [l |]; [destruct (l_type l) |]; by eexists.
Qed.

Lemma teardownDevice_macvlan (w : World) (an : ActiveNet) :
  conf_Type (Conf an) = "macvlan" ->
  let ifName := rt_IfName (Runtime an) in
  teardownDevice (w, an) =
    match netlink_LinkByName ifName w with
    | (Ok link, w1) =>
        match netlink_LinkDel link w1 with
        | (Ok _, w2) => (Ok true, (w2, an))
        | (Err err, w2) =>
            (Ok false, (logged (PrintE "cannot remove link `%v`" [ifName] err) w2, an))
        | (Panic p, w2) => (Panic p, (w2, an))
        end
    | (Err err, w1) =>
        (Ok false, (logged (PrintE "cannot find link `%v`" [ifName] err) w1, an))
    | (Panic p, w1) => (Panic p, (w1, an))
    end.
Proof.
  intros Hty ifName.
  unfold teardownDevice, bind, getN, gets. cbn [snd]. rewrite Hty.
  change (bool_decide ("macvlan" = "ptp") || bool_decide ("macvlan" = "bridge")) with false.
  change (bool_decide ("macvlan" = "macvlan")) with true. cbv iota.
  fold ifName. unfold try at 1. unfold inW at 1. cbn [fst snd].
  destruct (netlink_LinkByName ifName w) as [[link | err | p] w1]; [| reflexivity | reflexivity].
  unfold try, inW. cbn [fst snd].
  by destruct (netlink_LinkDel link w1) as [[[] | err | p] w2].
Qed.

Lemma teardownDevice_other (w : World) (an : ActiveNet) :
  conf_Type (Conf an) ∉ ["ptp"; "bridge"; "macvlan"] ->
  teardownDevice (w, an) =
    (Ok false,
     (logged (Printf "unsupported network type: %q" [conf_Type (Conf an)]) w, an)).
Proof.
  intros Hty.
  unfold teardownDevice, bind, getN, gets. cbn [snd].
  rewrite !bool_decide_eq_false_2; [reflexivity | | |];
    intros E; apply Hty; rewrite E; repeat constructor.
Qed.

(** The loop body never fails: it returns, with the descriptor either
    untouched or with its type swapped for the IPAM type, and only adds
    to the record of calls. *)
Lemma teardownKvmNet_returns (n : Networking) (w : World) (an : ActiveNet) :
  exists w' an',
    teardownKvmNet n (w, an) = (Ok tt, (w', an')) /\
    w_trace w `prefix_of` w_trace w' /\
    ((an' = an /\
      allocatorCall "DEL" an (rt_IfName (Runtime an))
        ∉ drop (length (w_trace w)) (w_trace w'))
     \/ (an' = set_Type (conf_IPAM_Type (Conf an)) an /\
         allocatorCall "DEL" an (rt_IfName (Runtime an))
           ∈ drop (length (w_trace w)) (w_trace w'))).
Proof.
  unfold teardownKvmNet, bind.
  destruct (decide (conf_Type (Conf an) ∈ ["ptp"; "bridge"])) as [Htap | Hntap].
  { destruct (teardownDevice_tap w an Htap) as (w1 & -> & Htr1).
    destruct (teardownAddressing_spec n an w1) as (w' & -> & Htr).
    exists w', (set_Type (conf_IPAM_Type (Conf an)) an).
    rewrite Htr, Htr1, <- !app_assoc. split; [done |]. split; [by eexists |].
    right. split; [done |]. rewrite drop_app_length. set_solver. }
  destruct (decide (conf_Type (Conf an) = "macvlan")) as [Hmv | Hnmv].
  { rewrite (teardownDevice_macvlan w an Hmv).
    destruct (netlink_LinkByName_trace (rt_IfName (Runtime an)) w)
      as (r1 & w1 & -> & Hnp1 & Htr1).
    destruct r1 as [link | err | p]; [| | by destruct (Hnp1 p)].
    - destruct (netlink_LinkDel_trace link w1) as (r2 & w2 & -> & Hnp2 & Htr2).
      destruct r2 as [[] | err | p]; [| | by destruct (Hnp2 p)].
      + destruct (teardownAddressing_spec n an w2) as (w' & -> & Htr).
        exists w', (set_Type (conf_IPAM_Type (Conf an)) an).
        rewrite Htr, Htr2, Htr1, <- !app_assoc. split; [done |]. split; [by eexists |].
        right. split; [done |]. rewrite drop_app_length. set_solver.
      + eexists _, an. split; [reflexivity |]. cbn [w_trace logged].
        rewrite Htr2, Htr1, <- !app_assoc. split; [by eexists |].
        left. split; [done |]. rewrite drop_app_length. unfold allocatorCall. set_solver.
    - eexists _, an. split; [reflexivity |]. cbn [w_trace logged].
      rewrite Htr1. split; [by eexists |].
      left. split; [done |]. rewrite drop_app_length. unfold allocatorCall. set_solver. }
  rewrite teardownDevice_other by set_solver.
  eexists _, an. split; [reflexivity |]. cbn [w_trace logged]. split; [done |].
  left. split; [done |]. rewrite drop_ge by done. set_solver.
Qed.

Lemma teardownKvmNet_attempts (n : Networking) (w w' : World) (an an' : ActiveNet) :
  teardownKvmNet n (w, an) = (Ok tt, (w', an')) ->
  cleanupAttempted n an w w'.
Proof.
  unfold cleanupAttempted, teardownKvmNet, bind.
  destruct (decide (conf_Type (Conf an) ∈ ["ptp"; "bridge"])) as [Htap | Hntap].
  { destruct (teardownDevice_tap w an Htap) as (w1 & -> & Htr1).
    destruct (teardownAddressing_spec n an w1) as (w2 & -> & Htr).
    intros [= <- <-]. by rewrite Htr, Htr1, <- !app_assoc. }
  destruct (decide (conf_Type (Conf an) = "macvlan")) as [Hmv | Hnmv].
  { rewrite (teardownDevice_macvlan w an Hmv).
    destruct (netlink_LinkByName_trace (rt_IfName (Runtime an)) w)
      as (r1 & w1 & -> & Hnp1 & Htr1).
    destruct r1 as [link | err | p]; [| | by destruct (Hnp1 p)].
    - destruct (netlink_LinkDel_trace link w1) as (r2 & w2 & -> & Hnp2 & Htr2).
      destruct r2 as [[] | err | p]; [| | by destruct (Hnp2 p)].
      + destruct (teardownAddressing_spec n an w2) as (w3 & -> & Htr).
        intros [= <- <-]. by rewrite Htr, Htr2, Htr1, <- !app_assoc.
      + intros [= <- <-]. cbn [w_trace logged]. by rewrite Htr2, Htr1, <- !app_assoc.
    - intros [= <- <-]. cbn [w_trace logged]. by rewrite Htr1. }
  rewrite teardownDevice_other by set_solver.
  by intros [= <- <-].
Qed.

(** The loop runs the body on every descriptor, whatever the others did. *)
Lemma teardown_loop_spec (n : Networking) (todo : list ActiveNet) (w : World) :
  exists done w',
    teardown_loop n todo w = (Ok done, w') /\
    w_trace w `prefix_of` w_trace w' /\
    Forall2 (fun an an' =>
               exists wi wi',
                 teardownKvmNet n (wi, an) = (Ok tt, (wi', an')) /\
                 w_trace w `prefix_of` w_trace wi /\
                 w_trace wi' `prefix_of` w_trace w')
      todo done.
Proof.
  revert w. induction todo as [| an rest IH]; intros w.
  - exists [], w. by repeat split.
  - destruct (teardownKvmNet_returns n w an) as (w1 & an' & Hbody & Hpre & _).
    destruct (IH w1) as (done & w' & Hrest & Hpre' & Hall).
    exists (an' :: done), w'.
    cbn [teardown_loop]. unfold bind, withNet. rewrite Hbody, Hrest.
    split; [reflexivity |]. split; [by etrans |].
    constructor.
    + by exists w, w1.
    + eapply Forall2_impl; [exact Hall |].
      intros a a' (wi & wi' & ? & ? & ?). exists wi, wi'. repeat split; try done.
      by etrans.
Qed.

(** C3 (as amended): teardown never returns an error or panics, whatever
    fails. It first attempts the removal of the port-forward rules and then
    runs the cleanup of every descriptor of the aggregate, whatever
    happened to the descriptors before it. For a ptp or bridge descriptor
    every cleanup action is attempted (device removal, "DEL" release, and
    masquerade removal when the flag is set). For a macvlan descriptor the
    release and the masquerade removal are attempted only when the link
    was found and deleted; a descriptor of any other type gets no cleanup
    call ([cleanupAttempted]). *)
Theorem kvmTeardown_best_effort (n : Networking) (w : World) :
  exists n' w',
    kvmTeardown n w = (Ok n', w') /\
    (exists rest, w_trace w' = w_trace w ++ CUnforwardPorts :: rest) /\
    Forall2 (fun an an' =>
               exists wi wi',
                 teardownKvmNet n (wi, an) = (Ok tt, (wi', an')) /\
                 w_trace w `prefix_of` w_trace wi /\
                 w_trace wi' `prefix_of` w_trace w' /\
                 cleanupAttempted n an wi wi')
      (nets n) (nets n').
Proof.
  unfold kvmTeardown, teardownKvmNets, bind.
  assert (exists w0, try (unforwardPorts n)
                       (fun r => match r with
                                 | inl err =>
                                     stderr_PrintE "error removing forwarded ports (kvm)" [] err
                                 | inr _ => ret tt
                                 end) w = (Ok tt, w0) /\
                     w_trace w0 = w_trace w ++ [CUnforwardPorts]) as (w0 & -> & Htr0).
  { unfold try, unforwardPorts, extern.
    destruct (w_fault w (w_clock w) CUnforwardPorts); by eexists. }
  destruct (teardown_loop_spec n (nets n) w0) as (done & w' & -> & [k Hk] & Hall).
  exists (set_nets done n), w'. split; [reflexivity |].
  split; [exists k; by rewrite Hk, Htr0, <- app_assoc |].
  cbn [nets set_nets].
  eapply Forall2_impl; [exact Hall |].
  intros an an' (wi & wi' & Hbody & Hpre & Hpost).
  exists wi, wi'. repeat split; try done.
  - etrans; [| exact Hpre]. rewrite Htr0. by eexists.
  - by eapply teardownKvmNet_attempts.
Qed.

(** C3 (counterexample to the claim as stated): a macvlan descriptor with
    the masquerade flag set whose link is gone from the host. Teardown
    looks the link up and goes on to the next descriptor: neither the
    "DEL" release nor the masquerade removal is attempted. *)
Lemma kvmTeardown_skips_release_counterexample :
  conf_Type (Conf Sample.macvlan_active) = "macvlan" /\
  conf_IPMasq (Conf Sample.macvlan_active) = true /\
  w_trace (kvmTeardown (Sample.networking [Sample.macvlan_active])
             (Sample.world Sample.host ∅ [])).2
    = [CUnforwardPorts; CLinkByName "rkt-abcd-vtap0"].
Proof. vm_compute. by repeat split. Qed.

(** ** The type substitution around the allocator *)

(** C2 (as amended): the "ADD" invocation of setup names the plugin by the
    IPAM type of the descriptor and leaves the parsed configuration, type
    included, and the configuration bytes as they were, on the success
    path and on every failure path. The "DEL" invocation of teardown makes
    the same substitution and does not undo it: when the release is
    attempted the descriptor keeps the IPAM type as its type, every other
    field being as before; when it is not attempted the descriptor is
    untouched. *)
Theorem allocator_type_substitution (network : Networking) (ifName : string)
    (w : World) (n : ActiveNet) :
  (match kvmSetupNetAddressing network ifName (w, n) with
   | (_, (w', n')) =>
       Conf n' = Conf n /\ ConfBytes n' = ConfBytes n /\
       w_trace w' = w_trace w ++
         match w_fault w (w_clock w) CEnableIP4Forward with
         | Some _ => [CEnableIP4Forward]
         | None => [CEnableIP4Forward; allocatorCall "ADD" n ifName]
         end
   end) /\
  (match teardownKvmNet network (w, n) with
   | (r, (w', n')) =>
       r = Ok tt /\
       ((n' = n /\
         allocatorCall "DEL" n (rt_IfName (Runtime n))
           ∉ drop (length (w_trace w)) (w_trace w'))
        \/ (n' = set_Type (conf_IPAM_Type (Conf n)) n /\
            allocatorCall "DEL" n (rt_IfName (Runtime n))
              ∈ drop (length (w_trace w)) (w_trace w')))
   end).
Proof.
  split.
  - rewrite kvmSetupNetAddressing_paths.
    destruct (w_fault w (w_clock w) CEnableIP4Forward) as [e |]; [done |].
    destruct (w_fault w (S (w_clock w)) _) as [e |];
      [by cbn; rewrite <- app_assoc |].
    destruct (w_stdout w (S (w_clock w)) _) as [[[ip4 |]] |];
      by cbn; rewrite <- app_assoc.
  - destruct (teardownKvmNet_returns network w n) as (w' & n' & -> & _ & H).
    by split.
Qed.

(** C2 (counterexample to the claim as stated): after the teardown of a pod
    with one ptp network whose allocator is host-local, the descriptor's
    type is "host-local", not "ptp". *)
Lemma teardown_keeps_swapped_type_counterexample :
  conf_Type (Conf Sample.ptp_active) = "ptp" /\
  (kvmTeardown (Sample.networking [Sample.ptp_active])
     (Sample.world Sample.host ∅ [])).1
    = Ok (Sample.networking [set_Type "host-local" Sample.ptp_active]).
Proof. vm_compute. by split. Qed.

(** * Further properties *)

(** ** Reading computations backwards: failures *)

Lemma bind_Err {S A B} (m : M S A) (k : A -> M S B) s e s' :
  bind m k s = (Err e, s') ->
  m s = (Err e, s') \/ exists a s1, m s = (Ok a, s1) /\ k a s1 = (Err e, s').
Proof.
  unfold bind. destruct (m s) as [[a | e0 | p] s1]; intros H; try discriminate.
  - right. by exists a, s1.
  - left. by simplify_eq.
Qed.

Lemma wrapping_Err {S A} (outer : Error) (m : M S A) s e s' :
  wrapping outer m s = (Err e, s') -> exists e0, m s = (Err e0, s') /\ e = Wrap outer e0.
Proof.
  unfold wrapping, try, fail, ret.
  destruct (m s) as [[a | e0 | p] s1]; intros H; simplify_eq. by exists e0.
Qed.

Lemma try_Ok {S A B} (m : M S A) (k : Error + A -> M S B) s b s' :
  try m k s = (Ok b, s') ->
  (exists a s1, m s = (Ok a, s1) /\ k (inr a) s1 = (Ok b, s')) \/
  (exists e s1, m s = (Err e, s1) /\ k (inl e) s1 = (Ok b, s')).
Proof.
  unfold try. destruct (m s) as [[a | e | p] s1]; intros H; try discriminate.
  - left. by exists a, s1.
  - right. by exists e, s1.
Qed.

Lemma inW_Ok {A} (m : M World A) (s s' : NetState) (a : A) :
  inW m s = (Ok a, s') -> s'.2 = s.2.
Proof. destruct s, s'. by intros [_ ->]%inW_eq. Qed.

Lemma quiet_at (w : World) (calls : nat) (j : nat) (c : Call) :
  quiet w calls -> (j < calls)%nat -> w_fault w (j + w_clock w) c = None.
Proof. intros Hq Hj. apply Hq. lia. Qed.

(** ** The lease-file reader: lines, keys and values *)

Lemma net_ParseCIDR_no_panic (s : string) (p : string) : net_ParseCIDR s <> Panic p.
Proof. unfold net_ParseCIDR. repeat case_match; done. Qed.

Lemma parseUint_loop_range (orig : string) (s : list ascii) (n m : Z) :
  0 <= n <= 4294967295 ->
  parseUint_loop orig n s = Ok m -> 0 <= m <= 4294967295.
Proof.
  revert n. induction s as [| c s IH]; intros n Hn; cbn.
  - intros [= <-]. done.
  - destruct (is_digit c) eqn:Hd; cbn; [| done].
    destruct (4294967295 <? n * 10 + digit_val c) eqn:E; [done |].
    apply IH. apply Z.ltb_ge in E.
    unfold is_digit, digit_val in *. apply andb_true_iff in Hd as [H1%Z.leb_le H2%Z.leb_le]. lia.
Qed.

Lemma strconv_ParseUint32_range (s : string) (m : Z) :
  strconv_ParseUint32 s = Ok m -> 0 <= m <= 4294967295.
Proof.
  unfold strconv_ParseUint32. destruct (chars s) eqn:E; [done |].
  apply parseUint_loop_range. lia.
Qed.

Lemma parseUint_loop_no_panic orig n s p : parseUint_loop orig n s <> Panic p.
Proof.
  revert n. induction s as [| c s IH]; intros n; cbn; [done |].
  repeat case_match; try done; apply IH.
Qed.

Lemma strconv_ParseUint32_no_panic s p : strconv_ParseUint32 s <> Panic p.
Proof.
  unfold strconv_ParseUint32. case_match; [done |]. apply parseUint_loop_no_panic.
Qed.

(** The two shapes of [strings.SplitN(s, "=", 2)]. *)
Lemma strings_SplitN_2 (s : string) :
  strings_SplitN s "="%char 2 =
    match cut "="%char s with
    | Some (a, b) => [a; b]
    | None => [s]
    end.
Proof. cbn. by repeat case_match. Qed.

(** One turn of the scanning loop, by the key of the line. *)
Lemma scanSubnetEnv_unrecognised (line : string) (rest : list string) (se : subnetEnv) :
  Z.of_nat (String.length line) < MaxScanTokenSize ->
  lineKey line ∉ leaseKeys ->
  scanSubnetEnv (line :: rest) se = scanSubnetEnv rest se.
Proof.
  intros Hlen Hkey. cbn [scanSubnetEnv].
  destruct (MaxScanTokenSize <=? _) eqn:E; [apply Z.leb_le in E; lia |].
  rewrite strings_SplitN_2. unfold lineKey, leaseKeys in Hkey.
  assert (forall key, key ∉ ["FLANNEL_NETWORK"; "FLANNEL_SUBNET"; "FLANNEL_MTU"; "FLANNEL_IPMASQ"] ->
    bool_decide (key = "FLANNEL_NETWORK") = false /\ bool_decide (key = "FLANNEL_SUBNET") = false /\
    bool_decide (key = "FLANNEL_MTU") = false /\ bool_decide (key = "FLANNEL_IPMASQ") = false) as Hno.
  { intros key Hk. repeat split; apply bool_decide_eq_false_2; intros ->; apply Hk; set_solver. }
  destruct (cut "="%char (dropCR line)) as [[a b] |]; cbn [index lookup list_lookup obind];
    destruct (Hno _ Hkey) as (-> & -> & -> & ->); done.
Qed.

Lemma scanSubnetEnv_app (l1 l2 : list string) (se : subnetEnv) :
  scanSubnetEnv (l1 ++ l2) se = obind (scanSubnetEnv l1 se) (scanSubnetEnv l2).
Proof.
  revert se. induction l1 as [| line l1 IH]; intros se; [done |].
  cbn [app scanSubnetEnv].
  destruct (MaxScanTokenSize <=? _); [done |].
  destruct (index _ 0) as [key | |]; cbn [obind]; [| done | done].
  repeat (case_match; cbn [obind]; try done);
    repeat (match goal with |- context [obind ?x _] => destruct x; cbn [obind]; try done end).
Qed.

(** X1: lines whose key is not recognised (blank lines, comments, other
    variables) have no influence on what the scanning loop of
    [loadFlannelSubnetEnv] returns, wherever they stand. *)
Theorem scanSubnetEnv_ignores_other_keys (before after : list string) (line : string)
    (se : subnetEnv) :
  Z.of_nat (String.length line) < MaxScanTokenSize ->
  lineKey line ∉ leaseKeys ->
  scanSubnetEnv (before ++ line :: after) se = scanSubnetEnv (before ++ after) se.
Proof.
  intros Hlen Hkey. rewrite !scanSubnetEnv_app.
  destruct (scanSubnetEnv before se) as [se1 | |]; cbn [obind]; [| done | done].
  by apply scanSubnetEnv_unrecognised.
Qed.

Lemma scanSubnetEnv_ignores_other_keys_witness :
  let se := {| nw := None; sn := None; mtu := 0; ipmasq := false |} in
  scanSubnetEnv (["FLANNEL_MTU=1472"] ++ "# written by flanneld" :: ["FLANNEL_IPMASQ=true"]) se
  = scanSubnetEnv (["FLANNEL_MTU=1472"] ++ ["FLANNEL_IPMASQ=true"]) se.
Proof.
  intros se. apply scanSubnetEnv_ignores_other_keys.
  - vm_compute. reflexivity.
  - vm_compute. intros Hin.
    repeat (apply elem_of_cons in Hin as [Hin | Hin]; [discriminate Hin |]).
    by apply elem_of_nil in Hin.
Defined.

Lemma scanSubnetEnv_panic (lines : list string) (se : subnetEnv) (p : string) :
  scanSubnetEnv lines se = Panic p ->
  exists line, line ∈ lines /\ dropCR line ∈ leaseKeys /\ p = "index out of range".
Proof.
  revert se. induction lines as [| line rest IH]; intros se; [done |].
  cbn [scanSubnetEnv].
  destruct (MaxScanTokenSize <=? _); [done |].
  rewrite strings_SplitN_2.
  assert (forall se', scanSubnetEnv rest se' = Panic p ->
            exists l, l ∈ line :: rest /\ dropCR l ∈ leaseKeys /\ p = "index out of range") as Hrest.
  { intros se' H. destruct (IH _ H) as (l & Hl & ?). exists l. split; [by right | done]. }
  destruct (cut "="%char (dropCR line)) as [[a b] |] eqn:Hcut; cbn [index lookup list_lookup obind].
  - repeat case_match; cbn [obind]; try done; try apply Hrest.
    + pose proof (net_ParseCIDR_no_panic b) as Hn.
      destruct (net_ParseCIDR b); cbn [obind]; [apply Hrest | done | intros Hp; by destruct (Hn why)].
    + pose proof (net_ParseCIDR_no_panic b) as Hn.
      destruct (net_ParseCIDR b); cbn [obind]; [apply Hrest | done | intros Hp; by destruct (Hn why)].
    + pose proof (strconv_ParseUint32_no_panic b) as Hn.
      destruct (strconv_ParseUint32 b); cbn [obind]; [apply Hrest | done | intros Hp; by destruct (Hn why)].
  - repeat case_match; cbn [obind]; try apply Hrest;
      intros [= <-]; exists line; (split; [by left |]); (split; [| done]);
      match goal with H : bool_decide _ = true |- _ => apply bool_decide_eq_true_1 in H as -> end;
      unfold leaseKeys; set_solver.
Qed.

Lemma scanSubnetEnv_mtu (lines : list string) (se se' : subnetEnv) :
  0 <= mtu se <= 4294967295 ->
  scanSubnetEnv lines se = Ok se' -> 0 <= mtu se' <= 4294967295.
Proof.
  revert se. induction lines as [| line rest IH]; intros se Hse; [by intros [= <-] |].
  cbn [scanSubnetEnv].
  destruct (MaxScanTokenSize <=? _); [done |].
  destruct (index _ 0) as [key | |]; cbn [obind]; [| done | done].
  repeat case_match; cbn [obind]; try done;
    repeat (match goal with
            | |- context [obind ?x _] => destruct x eqn:?; cbn [obind]; try done
            end);
    try (apply IH; cbn; try done).
  by eapply strconv_ParseUint32_range.
Qed.

(** X2: [loadFlannelSubnetEnv] panics on nothing but a line that is a bare
    recognised key: when it panics, the file has such a line and the panic
    is the index out of range; every other content gives an environment or
    an error. *)
Theorem loadFlannelSubnetEnv_panics_on_bare_key_only (fn : string) (w : World) (p : string) :
  (loadFlannelSubnetEnv fn w).1 = Panic p ->
  exists content line,
    w_files w !! fn = Some content /\
    line ∈ rawLines [] content /\
    dropCR line ∈ leaseKeys /\
    p = "index out of range".
Proof.
  unfold loadFlannelSubnetEnv. destruct (w_files w !! fn) as [content |]; [| done].
  cbn [fst]. intros (line & ? & ? & ?)%scanSubnetEnv_panic. by exists content, line.
Qed.

Lemma loadFlannelSubnetEnv_panics_on_bare_key_only_witness :
  let w := Sample.world Sample.host
             {[ defaultSubnetFile := "FLANNEL_SUBNET=10.1.17.0/24" +:+ "
" +:+ "FLANNEL_MTU" ]} [] in
  exists content line,
    w_files w !! defaultSubnetFile = Some content /\
    line ∈ rawLines [] content /\
    dropCR line ∈ leaseKeys /\
    "index out of range" = "index out of range".
Proof.
  intros w.
  apply (loadFlannelSubnetEnv_panics_on_bare_key_only defaultSubnetFile w "index out of range").
  reflexivity.
Defined.

(** X3: the MTU of an environment [loadFlannelSubnetEnv] returns is a
    32-bit unsigned number (0 when the file has no FLANNEL_MTU line): a
    negative or larger value in the file is an error, never a wrapped
    number. *)
Theorem loadFlannelSubnetEnv_mtu_range (fn : string) (w : World) (se : subnetEnv) :
  (loadFlannelSubnetEnv fn w).1 = Ok se -> 0 <= mtu se <= 4294967295.
Proof.
  unfold loadFlannelSubnetEnv. destruct (w_files w !! fn) as [content |]; [| done].
  cbn [fst]. apply scanSubnetEnv_mtu. cbn. lia.
Qed.

Lemma loadFlannelSubnetEnv_mtu_range_witness : 0 <= mtu Sample.fenv <= 4294967295.
Proof.
  apply (loadFlannelSubnetEnv_mtu_range defaultSubnetFile
           (Sample.world Sample.host Sample.with_lease [])).
  reflexivity.
Defined.

(** ** The flannel delegate transformer: every path *)

(** The descriptor the transformer builds from the delegate dictionary [d]
    before it reads the type, the masquerade flag and the MTU back. *)
Lemma kvmTransformFlannelNetwork_unfold (w : World) (net : ActiveNet) :
  kvmTransformFlannelNetwork (w, net) =
    match loadFlannelNetConf (ConfBytes net) with
    | Err e => (Err e, (w, net))
    | Panic p => (Panic p, (w, net))
    | Ok n =>
        match (loadFlannelSubnetEnv (SubnetFile n) w).1 with
        | Err e => (Err e, (w, net))
        | Panic p => (Panic p, (w, net))
        | Ok fenv =>
            match from_option checkDelegate None (Delegate n) with
            | Some err => (Err err, (w, net))
            | None =>
                match fillDelegate (conf_Name (fl_NetConf n)) fenv (default ∅ (Delegate n)) with
                | Err e => (Err e, (w, net))
                | Panic p => (Panic p, (w, net))
                | Ok d =>
                    let fresh := {| rt_IfName := ""; rt_IP := []; rt_Mask := []; rt_HostIP := [];
                                    rt_IP4 := Some IPConfig_zero |} in
                    let conf ty masq m :=
                      {| conf_Name := conf_Name (fl_NetConf n); conf_Type := ty;
                         conf_IPAM_Type := ""; conf_IPMasq := masq; conf_MTU := m |} in
                    let made c := {| ConfBytes := Some (json_Marshal (AMap d)); Conf := c;
                                     Runtime := fresh |} in
                    match assert_string (at_key d "type") with
                    | Ok ty =>
                        match assert_bool (at_key d "ipMasq") with
                        | Ok masq =>
                            match assert_int (at_key d "mtu") with
                            | Ok m =>
                                (Ok tt, (w, made (set_conf_IPAM_Type "host-local" (conf ty masq m))))
                            | Err e => (Err e, (w, made (conf ty masq 0)))
                            | Panic p => (Panic p, (w, made (conf ty masq 0)))
                            end
                        | Err e => (Err e, (w, made (conf ty false 0)))
                        | Panic p => (Panic p, (w, made (conf ty false 0)))
                        end
                    | Err e => (Err e, (w, made (conf "" false 0)))
                    | Panic p => (Panic p, (w, made (conf "" false 0)))
                    end
                end
            end
        end
    end.
Proof.
  unfold kvmTransformFlannelNetwork, bind, getN, gets, lift, inW, modN, modify, fail, ret.
  cbn [fst snd].
  destruct (loadFlannelNetConf (ConfBytes net)) as [n | e | p]; [| done | done].
  pose proof (loadFlannelSubnetEnv_world (SubnetFile n) w) as Hw.
  destruct (loadFlannelSubnetEnv (SubnetFile n) w) as [[fenv | e | p] w1]; cbn [fst snd] in *;
    subst w1; [| done | done].
  destruct (Delegate n) as [d0 |]; cbn [from_option default].
  - destruct (checkDelegate d0) as [err |]; [done |]. cbn.
    destruct (fillDelegate _ _ _) as [d | e | p]; [| done | done].
    destruct (assert_string _); [| done | done].
    destruct (assert_bool _); [| done | done].
    by destruct (assert_int _).
  - cbn.
    destruct (fillDelegate _ _ _) as [d | e | p]; [| done | done].
    destruct (assert_string _); [| done | done].
    destruct (assert_bool _); [| done | done].
    by destruct (assert_int _).
Qed.

Lemma hasKey_lookup (m : GoMap) (k : string) :
  hasKey m k = match m !! k with Some _ => true | None => false end.
Proof.
  unfold hasKey. destruct (m !! k) eqn:E.
  - by apply bool_decide_eq_true_2.
  - apply bool_decide_eq_false_2. by intros [? ?].
Qed.

(** [if !hasKey(m, k) { m[k] = v }]. *)
Lemma default_key_lookup (m : GoMap) (k j : string) (v : Any) :
  (if negb (hasKey m k) then <[k := v]> m else m) !! j
  = if decide (k = j) then Some (default v (m !! k)) else m !! j.
Proof.
  rewrite hasKey_lookup. destruct (m !! k) eqn:E; cbn [negb default].
  - case_decide; by subst.
  - rewrite lookup_insert. case_decide; by subst.
Qed.

(** What [fillDelegate] leaves under each key it looks at. *)
Lemma fillDelegate_spec (name : string) (fenv : subnetEnv) (d0 : GoMap) :
  (forall v, d0 !! "type" = Some v -> isString v = true) ->
  match sn fenv, nw fenv with
  | Some subnet, Some network =>
      exists d,
        fillDelegate name fenv d0 = Ok d /\
        d !! "name" = Some (AString name) /\
        d !! "type" = Some (default (AString "bridge") (d0 !! "type")) /\
        d !! "ipMasq" = Some (default (ABool (negb (ipmasq fenv))) (d0 !! "ipMasq")) /\
        d !! "mtu" = Some (default (AInt (mtu fenv)) (d0 !! "mtu")) /\
        d !! "ipam" = Some (ipamOf subnet network)
  | _, _ =>
      fillDelegate name fenv d0 = Panic "invalid memory address or nil pointer dereference"
  end.
Proof.
  intros Hty.
  assert (exists ty, default (AString "bridge") (d0 !! "type") = AString ty) as [ty Hs].
  { destruct (d0 !! "type") as [v |] eqn:E; cbn; [| by eexists].
    specialize (Hty _ eq_refl). destruct v; try discriminate Hty. by eexists. }
  assert (exists d4 : GoMap,
    d4 !! "name" = Some (AString name) /\
    d4 !! "type" = Some (AString ty) /\
    d4 !! "ipMasq" = Some (default (ABool (negb (ipmasq fenv))) (d0 !! "ipMasq")) /\
    d4 !! "mtu" = Some (default (AInt (mtu fenv)) (d0 !! "mtu")) /\
    fillDelegate name fenv d0 =
      obind (deref (sn fenv)) (fun subnet =>
      obind (deref (nw fenv)) (fun network =>
        Ok (<["ipam" := ipamOf subnet network]>
              (if bool_decide (ty = "bridge")
               then if negb (hasKey d4 "isGateway") then <["isGateway" := ABool true]> d4 else d4
               else d4))))) as (d4 & Hname & Htype & Hmasq & Hmtu & ->).
  { pose (d1 := <["name" := AString name]> d0).
    pose (d2 := if negb (hasKey d1 "type") then <["type" := AString "bridge"]> d1 else d1).
    pose (d3 := if negb (hasKey d2 "ipMasq")
                then <["ipMasq" := ABool (negb (ipmasq fenv))]> d2 else d2).
    pose (d4 := if negb (hasKey d3 "mtu") then <["mtu" := AInt (mtu fenv)]> d3 else d3).
    assert (d4 !! "type" = Some (AString ty)) as Htype.
    { unfold d4, d3, d2, d1. rewrite !default_key_lookup, !lookup_insert.
      repeat (case_decide; try congruence). }
    exists d4. split_and!; [| done | | |].
    - unfold d4, d3, d2, d1. rewrite !default_key_lookup, !lookup_insert.
      by repeat (case_decide; try congruence).
    - unfold d4, d3, d2, d1. rewrite !default_key_lookup, !lookup_insert.
      by repeat (case_decide; try congruence).
    - unfold d4, d3, d2, d1. rewrite !default_key_lookup, !lookup_insert.
      by repeat (case_decide; try congruence).
    - change (fillDelegate name fenv d0) with
        (obind (assert_string (at_key d4 "type")) (fun ty =>
           let d := if bool_decide (ty = "bridge")
                    then if negb (hasKey d4 "isGateway")
                         then <["isGateway" := ABool true]> d4 else d4
                    else d4 in
           obind (deref (sn fenv)) (fun subnet =>
           obind (deref (nw fenv)) (fun network =>
             Ok (<["ipam" := ipamOf subnet network]> d))))).
      unfold at_key. by rewrite Htype. }
  destruct (sn fenv) as [subnet |], (nw fenv) as [network |]; cbn [deref obind]; try done.
  eexists. split; [reflexivity |].
  assert (forall j, j <> "isGateway" ->
            (if bool_decide (ty = "bridge")
             then if negb (hasKey d4 "isGateway") then <["isGateway" := ABool true]> d4 else d4
             else d4) !! j = d4 !! j) as H5.
  { intros j Hj. destruct (bool_decide _); [| done].
    rewrite default_key_lookup. by case_decide. }
  split_and!; rewrite ?lookup_insert_eq, ?lookup_insert_ne by done;
    rewrite ?H5 by done; congruence.
Qed.

Lemma checkDelegate_None (d : GoMap) :
  checkDelegate d = None ->
  (forall v, d !! "type" = Some v -> isString v = true) /\
  d !! "name" = None /\ d !! "ipam" = None.
Proof.
  unfold checkDelegate, at_key. rewrite !hasKey_lookup.
  destruct (d !! "type") as [v |], (d !! "name"), (d !! "ipam"); cbn; try done;
    try (destruct v; cbn; try done);
    intros _; (split; [| done]); intros ? [= <-]; done.
Qed.

Lemma assert_string_no_error a e : assert_string a <> Err e.
Proof. by destruct a. Qed.

Lemma assert_bool_no_error a e : assert_bool a <> Err e.
Proof. by destruct a. Qed.

Lemma assert_int_no_error a e : assert_int a <> Err e.
Proof. by destruct a. Qed.

Lemma fillDelegate_no_error name fenv d e : fillDelegate name fenv d <> Err e.
Proof.
  unfold fillDelegate.
  destruct (assert_string _) eqn:E; cbn [obind]; [| by destruct (assert_string_no_error _ _ E) | done].
  destruct (sn fenv), (nw fenv); done.
Qed.

(** X4: the transformer changes nothing on the host, whatever it returns,
    and leaves the descriptor as it was when it returns an error: the
    descriptor is overwritten only once every check has passed. *)
Theorem kvmTransformFlannelNetwork_frame (w : World) (net : ActiveNet) :
  (kvmTransformFlannelNetwork (w, net)).2.1 = w /\
  (forall e, (kvmTransformFlannelNetwork (w, net)).1 = Err e ->
             (kvmTransformFlannelNetwork (w, net)).2.2 = net).
Proof.
  rewrite kvmTransformFlannelNetwork_unfold.
  destruct (loadFlannelNetConf _) as [n | |]; [| done | done].
  destruct (loadFlannelSubnetEnv _ _).1 as [fenv | |]; [| done | done].
  destruct (from_option _ _ _); [done |].
  destruct (fillDelegate _ _ _) as [d | |]; [| done | done].
  cbv zeta.
  destruct (assert_string _) eqn:E1; [| by destruct (assert_string_no_error _ _ E1) | done].
  destruct (assert_bool _) eqn:E2; [| by destruct (assert_bool_no_error _ _ E2) | done].
  destruct (assert_int _) eqn:E3; [done | by destruct (assert_int_no_error _ _ E3) | done].
Qed.

(** X5: a lease file without a FLANNEL_NETWORK line is read without error
    (the network stays nil), and the transformer then panics on the nil
    pointer instead of returning a configuration error; the descriptor and
    the host are left as they were. *)
Theorem kvmTransformFlannelNetwork_nil_network_panics (w : World) (net : ActiveNet)
    (n : FlannelNetConf) (fenv : subnetEnv) :
  loadFlannelNetConf (ConfBytes net) = Ok n ->
  from_option checkDelegate None (Delegate n) = None ->
  (loadFlannelSubnetEnv (SubnetFile n) w).1 = Ok fenv ->
  nw fenv = None ->
  kvmTransformFlannelNetwork (w, net)
  = (Panic "invalid memory address or nil pointer dereference", (w, net)).
Proof.
  intros Hn Hd Hf Hnw. rewrite kvmTransformFlannelNetwork_unfold, Hn, Hf, Hd.
  pose proof (fillDelegate_spec (conf_Name (fl_NetConf n)) fenv (default ∅ (Delegate n))) as H.
  rewrite Hnw in H. destruct (sn fenv).
  - rewrite H; [done |]. destruct (Delegate n) as [d |]; cbn in *; [| done].
    by apply checkDelegate_None in Hd as [? _].
  - rewrite H; [done |]. destruct (Delegate n) as [d |]; cbn in *; [| done].
    by apply checkDelegate_None in Hd as [? _].
Qed.

Lemma kvmTransformFlannelNetwork_nil_network_panics_witness :
  let w := Sample.world Sample.host
             {[ defaultSubnetFile := "FLANNEL_SUBNET=10.1.17.0/24" +:+ "
" +:+ "FLANNEL_MTU=1472" +:+ "
" ]} [] in
  kvmTransformFlannelNetwork (w, Sample.flannel_net)
  = (Panic "invalid memory address or nil pointer dereference", (w, Sample.flannel_net)).
Proof.
  intros w.
  apply (kvmTransformFlannelNetwork_nil_network_panics w Sample.flannel_net
           {| fl_NetConf := {| conf_Name := "rktnet"; conf_Type := "flannel";
                               conf_IPAM_Type := ""; conf_IPMasq := false; conf_MTU := 0 |};
              SubnetFile := defaultSubnetFile; Delegate := None |}
           {| nw := None;
              sn := Some {| ipnet_IP := [10; 1; 17; 0]; ipnet_Mask := [255; 255; 255; 0] |};
              mtu := 1472; ipmasq := false |}); reflexivity.
Defined.

Lemma decodeMapInto_fromJSON (o : list (string * JSON)) (m : GoMap) :
  fromJSON m -> fromJSON (decodeMapInto o m).
Proof.
  unfold decodeMapInto. revert m. induction o as [| [k j] o IH]; intros m Hm; [done |].
  cbn [fold_left]. apply IH. intros k' v. rewrite lookup_insert.
  case_decide; [intros [= <-]; by eexists | apply Hm].
Qed.

Lemma set_Flannel_fromJSON (k : string) (v : JSON) (c c' : FlannelNetConf) :
  set_Flannel k v c = Ok c' ->
  (forall d, Delegate c = Some d -> fromJSON d) ->
  forall d, Delegate c' = Some d -> fromJSON d.
Proof.
  unfold set_Flannel. intros H Hc.
  destruct (field_of _ k) as [f |]; [| by injection H as <-].
  repeat case_match; simplify_eq; try done;
    try (match goal with
         | H : obind ?x _ = Ok _ |- _ => destruct x; cbn in H; simplify_eq; cbn; done
         end).
  cbn. intros d [= <-]. apply decodeMapInto_fromJSON.
  destruct (Delegate c) as [d0 |]; cbn; [by apply Hc | done].
Qed.

Lemma dec_members_fromJSON (o : list (string * JSON)) (c c' : FlannelNetConf) :
  dec_members set_Flannel o c = Ok c' ->
  (forall d, Delegate c = Some d -> fromJSON d) ->
  forall d, Delegate c' = Some d -> fromJSON d.
Proof.
  revert c. induction o as [| [k v] o IH]; intros c; cbn.
  - by intros [= <-].
  - destruct (set_Flannel k v c) as [c1 | |] eqn:E; cbn; [| done | done].
    intros H Hc. apply (IH _ H). by eapply set_Flannel_fromJSON.
Qed.

Lemma loadFlannelNetConf_fromJSON (bytes : Bytes) (n : FlannelNetConf) (d : GoMap) :
  loadFlannelNetConf bytes = Ok n -> Delegate n = Some d -> fromJSON d.
Proof.
  unfold loadFlannelNetConf, json_Unmarshal_Flannel, dec_struct.
  destruct bytes as [[] |]; cbn; try done.
  - by intros [= <-].
  - destruct (dec_members _ _ _) eqn:E; [| done | done].
    intros [= <-] Hd. eapply dec_members_fromJSON; [exact E | done | exact Hd].
Qed.

Lemma assert_int_fromJSON (j : JSON) : exists p, assert_int (decodeAny j) = Panic p.
Proof. destruct j; by eexists. Qed.

(** X6: a delegate of the user that sets ["mtu"] makes the transformer
    panic: [json.Unmarshal] stores the number as a [float64], and the
    transformer reads it back with the type assertion [.(int)]. *)
Theorem kvmTransformFlannelNetwork_user_mtu_panics (w : World) (net : ActiveNet)
    (n : FlannelNetConf) (d : GoMap) (fenv : subnetEnv) :
  loadFlannelNetConf (ConfBytes net) = Ok n ->
  Delegate n = Some d ->
  is_Some (d !! "mtu") ->
  checkDelegate d = None ->
  (loadFlannelSubnetEnv (SubnetFile n) w).1 = Ok fenv ->
  exists p, (kvmTransformFlannelNetwork (w, net)).1 = Panic p.
Proof.
  intros Hn Hd [v Hv] Hc Hf.
  rewrite kvmTransformFlannelNetwork_unfold, Hn, Hf, Hd.
  change (from_option checkDelegate None (Some d)) with (checkDelegate d).
  change (default ∅ (Some d)) with d. rewrite Hc.
  pose proof (fillDelegate_spec (conf_Name (fl_NetConf n)) fenv d) as H.
  apply checkDelegate_None in Hc as (Hty & _ & _). specialize (H Hty).
  destruct (sn fenv), (nw fenv); try (rewrite H; by eexists).
  destruct H as (d' & -> & _ & _ & _ & Hmtu & _). cbv zeta.
  destruct (assert_string _) eqn:E1;
    [| by destruct (assert_string_no_error _ _ E1) | by eexists].
  destruct (assert_bool _) eqn:E2;
    [| by destruct (assert_bool_no_error _ _ E2) | by eexists].
  unfold at_key. rewrite Hmtu, Hv.
  change (default ANil (Some (default (AInt (mtu fenv)) (Some v)))) with v.
  destruct (loadFlannelNetConf_fromJSON _ _ _ Hn Hd _ _ Hv) as [j ->].
  destruct (assert_int_fromJSON j) as [p ->]. by eexists.
Qed.

Lemma kvmTransformFlannelNetwork_user_mtu_panics_witness :
  exists p,
    (kvmTransformFlannelNetwork
       (Sample.world Sample.host Sample.with_lease [],
        {| ConfBytes := Some (JObj [("name", JStr "rktnet"); ("type", JStr "flannel");
                                    ("delegate", JObj [("mtu", JNum 1400)])]);
           Conf := Conf Sample.flannel_net;
           Runtime := NetInfo_zero |})).1 = Panic p.
Proof.
  apply (kvmTransformFlannelNetwork_user_mtu_panics _ _
           {| fl_NetConf := {| conf_Name := "rktnet"; conf_Type := "flannel";
                               conf_IPAM_Type := ""; conf_IPMasq := false; conf_MTU := 0 |};
              SubnetFile := defaultSubnetFile;
              Delegate := Some {[ "mtu" := AFloat64 1400 ]} |}
           {[ "mtu" := AFloat64 1400 ]} Sample.fenv).
  - reflexivity.
  - reflexivity.
  - by eexists.
  - reflexivity.
  - reflexivity.
Defined.

(** X7: what a successful transformation leaves in the descriptor. The
    name is the overlay network's, the allocator type is host-local, the
    runtime state is reset (with an empty, non-nil IPv4 block); the type is
    the delegate's own or "bridge", the masquerade flag is the delegate's
    own or the negation of the lease's; and the MTU is always the lease's,
    since a delegate that sets its own cannot be transformed. *)
Theorem kvmTransformFlannelNetwork_Ok (w w' : World) (net net' : ActiveNet) :
  kvmTransformFlannelNetwork (w, net) = (Ok tt, (w', net')) ->
  exists n fenv,
    loadFlannelNetConf (ConfBytes net) = Ok n /\
    (loadFlannelSubnetEnv (SubnetFile n) w).1 = Ok fenv /\
    is_Some (nw fenv) /\
    w' = w /\
    default ∅ (Delegate n) !! "mtu" = None /\
    Conf net' =
      {| conf_Name := conf_Name (fl_NetConf n);
         conf_Type := match default ∅ (Delegate n) !! "type" with
                      | Some (AString t) => t
                      | _ => "bridge"
                      end;
         conf_IPAM_Type := "host-local";
         conf_IPMasq := match default ∅ (Delegate n) !! "ipMasq" with
                        | Some (ABool b) => b
                        | _ => negb (ipmasq fenv)
                        end;
         conf_MTU := mtu fenv |} /\
    Runtime net' = {| rt_IfName := ""; rt_IP := []; rt_Mask := []; rt_HostIP := [];
                      rt_IP4 := Some IPConfig_zero |}.
Proof.
  rewrite kvmTransformFlannelNetwork_unfold.
  destruct (loadFlannelNetConf _) as [n | |] eqn:Hn; [| done | done].
  destruct (loadFlannelSubnetEnv _ _).1 as [fenv | |] eqn:Hf; [| done | done].
  destruct (from_option _ _ _) eqn:Hc; [done |].
  assert (forall v, default ∅ (Delegate n) !! "type" = Some v -> isString v = true) as Hty.
  { destruct (Delegate n) as [d |]; cbn in *; [| done].
    by apply checkDelegate_None in Hc as [? _]. }
  assert (fromJSON (default ∅ (Delegate n))) as Hj.
  { destruct (Delegate n) as [d |] eqn:Hd; cbn; [| done].
    by eapply loadFlannelNetConf_fromJSON. }
  pose proof (fillDelegate_spec (conf_Name (fl_NetConf n)) fenv _ Hty) as H.
  destruct (sn fenv) as [subnet |] eqn:Hsn, (nw fenv) as [network |] eqn:Hnw;
    try (by rewrite H).
  destruct H as (d & -> & _ & Htype & Hmasq & Hmtu & _). cbv zeta.
  unfold at_key. rewrite Htype, Hmasq, Hmtu.
  set (d0 := default ∅ (Delegate n)) in *.
  destruct (d0 !! "type") as [ty |] eqn:Et;
    [destruct (Hj _ _ Et) as [j ->]; destruct j |];
    (destruct (d0 !! "ipMasq") as [mq |] eqn:Em;
     [destruct (Hj _ _ Em) as [j' ->]; destruct j' |]);
    (destruct (d0 !! "mtu") as [mt |] eqn:Emt;
     [destruct (Hj _ _ Emt) as [j'' ->]; destruct j'' |]);
    cbn; try done; intros [= <- <-]; exists n, fenv; unfold d0 in *;
    rewrite ?Et, ?Em, ?Emt; split_and!; try done; by eexists.
Qed.

Lemma kvmTransformFlannelNetwork_Ok_witness :
  exists n fenv,
    loadFlannelNetConf (ConfBytes Sample.flannel_net) = Ok n /\
    (loadFlannelSubnetEnv (SubnetFile n)
       (Sample.world Sample.host Sample.with_lease [])).1 = Ok fenv /\
    is_Some (nw fenv) /\
    Sample.world Sample.host Sample.with_lease [] =
      Sample.world Sample.host Sample.with_lease [] /\
    default ∅ (Delegate n) !! "mtu" = None /\
    {| conf_Name := "rktnet"; conf_Type := "bridge"; conf_IPAM_Type := "host-local";
       conf_IPMasq := false; conf_MTU := 1472 |} =
      {| conf_Name := conf_Name (fl_NetConf n);
         conf_Type := match default ∅ (Delegate n) !! "type" with
                      | Some (AString t) => t
                      | _ => "bridge"
                      end;
         conf_IPAM_Type := "host-local";
         conf_IPMasq := match default ∅ (Delegate n) !! "ipMasq" with
                        | Some (ABool b) => b
                        | _ => negb (ipmasq fenv)
                        end;
         conf_MTU := mtu fenv |} /\
    {| rt_IfName := ""; rt_IP := []; rt_Mask := []; rt_HostIP := [];
       rt_IP4 := Some IPConfig_zero |} =
      {| rt_IfName := ""; rt_IP := []; rt_Mask := []; rt_HostIP := [];
         rt_IP4 := Some IPConfig_zero |}.
Proof.
  apply (kvmTransformFlannelNetwork_Ok
           (Sample.world Sample.host Sample.with_lease []) _ Sample.flannel_net
           {| ConfBytes := Some rktnet_delegate;
              Conf := {| conf_Name := "rktnet"; conf_Type := "bridge";
                         conf_IPAM_Type := "host-local"; conf_IPMasq := false;
                         conf_MTU := 1472 |};
              Runtime := {| rt_IfName := ""; rt_IP := []; rt_Mask := []; rt_HostIP := [];
                            rt_IP4 := Some IPConfig_zero |} |}).
  vm_compute. reflexivity.
Defined.

(** The delegate dictionary of an overlay network without a delegate of
    the user's. *)
Lemma fillDelegate_empty (name : string) (fenv : subnetEnv) (subnet network : IPNet) :
  sn fenv = Some subnet -> nw fenv = Some network ->
  fillDelegate name fenv ∅ =
    Ok (<["ipam" := ipamOf subnet network]>
        (<["isGateway" := ABool true]>
         (<["mtu" := AInt (mtu fenv)]>
          (<["ipMasq" := ABool (negb (ipmasq fenv))]>
           (<["type" := AString "bridge"]>
            (<["name" := AString name]> ∅)))))).
Proof.
  intros Hsn Hnw. unfold fillDelegate. rewrite Hsn, Hnw.
  generalize (mtu fenv) (negb (ipmasq fenv)). intros m b.
  vm_compute. reflexivity.
Qed.

Lemma json_Marshal_AMap (m : GoMap) :
  json_Marshal (AMap m) = JObj (merge_sort members_le (map_to_list (json_Marshal <$> m))).
Proof. reflexivity. Qed.

Lemma marshal_ipam (j1 j2 j3 : JSON) :
  merge_sort members_le (map_to_list
    (<["type" := j1]> (<["subnet" := j2]> (<["routes" := j3]> (∅ : gmap string JSON)))))
  = [("routes", j3); ("subnet", j2); ("type", j1)].
Proof. vm_compute. reflexivity. Qed.

Lemma marshal_delegate (ji jg jm jq jt jn : JSON) :
  merge_sort members_le (map_to_list
    (<["ipam" := ji]> (<["isGateway" := jg]> (<["mtu" := jm]>
      (<["ipMasq" := jq]> (<["type" := jt]> (<["name" := jn]> (∅ : gmap string JSON))))))))
  = [("ipMasq", jq); ("ipam", ji); ("isGateway", jg); ("mtu", jm); ("name", jn); ("type", jt)].
Proof. vm_compute. reflexivity. Qed.

(** The bytes the transformer writes for an overlay network without a
    delegate of the user's. *)
Lemma json_Marshal_delegate (name : string) (fenv : subnetEnv) (subnet network : IPNet) :
  json_Marshal (AMap (<["ipam" := ipamOf subnet network]>
        (<["isGateway" := ABool true]>
         (<["mtu" := AInt (mtu fenv)]>
          (<["ipMasq" := ABool (negb (ipmasq fenv))]>
           (<["type" := AString "bridge"]>
            (<["name" := AString name]> ∅))))))) =
    JObj [("ipMasq", JBool (negb (ipmasq fenv)));
          ("ipam", JObj [("routes", JArr [JObj [("dst", JStr (IPNet_String network))]]);
                         ("subnet", JStr (IPNet_String subnet));
                         ("type", JStr "host-local")]);
          ("isGateway", JBool true);
          ("mtu", JNum (mtu fenv));
          ("name", JStr name);
          ("type", JStr "bridge")].
Proof.
  rewrite json_Marshal_AMap, !fmap_insert, fmap_empty, marshal_delegate.
  unfold ipamOf. rewrite json_Marshal_AMap, !fmap_insert, fmap_empty, marshal_ipam.
  reflexivity.
Qed.

Lemma json_Unmarshal_Bridge_delegate (name : string) (m : Z) (b : bool) (j1 j2 : JSON) :
  -9223372036854775808 <= m <= 9223372036854775807 ->
  json_Unmarshal_Bridge
    (Some (JObj [("ipMasq", JBool b);
                 ("ipam", JObj [("routes", j1); ("subnet", j2); ("type", JStr "host-local")]);
                 ("isGateway", JBool true);
                 ("mtu", JNum m);
                 ("name", JStr name);
                 ("type", JStr "bridge")]))
    {| br_NetConf := set_conf_MTU defaultMTU NetConf_zero; BrName := defaultBrName;
       IsGw := false |}
  = Ok {| br_NetConf := {| conf_Name := name; conf_Type := "bridge";
                           conf_IPAM_Type := "host-local"; conf_IPMasq := b; conf_MTU := m |};
          BrName := defaultBrName; IsGw := true |}.
Proof.
  intros Hm.
  assert (forall cur, dec_int "mtu" (JNum m) cur = Ok m) as Hint.
  { intros cur. unfold dec_int.
    destruct (-9223372036854775808 <=? m) eqn:E1; [| apply Z.leb_gt in E1; lia].
    destruct (m <=? 9223372036854775807) eqn:E2; [done | apply Z.leb_gt in E2; lia]. }
  unfold json_Unmarshal_Bridge, dec_struct. cbn [dec_members].
  unfold set_Bridge, set_NetConf, set_ipam. cbn [dec_members].
  repeat match goal with
         | |- context [field_of ?l ?k] =>
             let r := eval vm_compute in (field_of l k) in
             change (field_of l k) with r
         end.
  cbv beta iota.
  repeat match goal with
         | |- context [@bool_decide ?P ?d] =>
             let r := eval vm_compute in (@bool_decide P d) in
             change (@bool_decide P d) with r
         end.
  cbn -[dec_int]. rewrite ?Hint. reflexivity.
Qed.

(** X8: for an overlay network without a delegate of the user's, the
    configuration bytes the transformer writes and the parsed
    configuration it stores agree: read back as [kvmSetup] reads the
    configuration of a bridge network, the bytes give the stored [Conf],
    the default bridge name and gateway mode; the MTU is the lease's, not
    the default 1500. *)
Theorem kvmTransformFlannelNetwork_bridge_config (w : World) (net : ActiveNet)
    (n : FlannelNetConf) (fenv : subnetEnv) :
  loadFlannelNetConf (ConfBytes net) = Ok n ->
  Delegate n = None ->
  (loadFlannelSubnetEnv (SubnetFile n) w).1 = Ok fenv ->
  is_Some (sn fenv) -> is_Some (nw fenv) ->
  exists net',
    kvmTransformFlannelNetwork (w, net) = (Ok tt, (w, net')) /\
    Conf net' = {| conf_Name := conf_Name (fl_NetConf n); conf_Type := "bridge";
                   conf_IPAM_Type := "host-local"; conf_IPMasq := negb (ipmasq fenv);
                   conf_MTU := mtu fenv |} /\
    json_Unmarshal_Bridge (ConfBytes net')
      {| br_NetConf := set_conf_MTU defaultMTU NetConf_zero; BrName := defaultBrName;
         IsGw := false |}
    = Ok {| br_NetConf := Conf net'; BrName := defaultBrName; IsGw := true |}.
Proof.
  intros Hn Hd Hf [subnet Hsn] [network Hnw].
  rewrite kvmTransformFlannelNetwork_unfold, Hn, Hf, Hd.
  change (from_option checkDelegate None None) with (@None Error).
  change (default ∅ None) with (∅ : GoMap).
  rewrite (fillDelegate_empty _ _ _ _ Hsn Hnw). cbv zeta.
  unfold at_key.
  rewrite !(lookup_insert_ne _ "ipam"), !(lookup_insert_ne _ "isGateway") by done.
  rewrite lookup_insert_eq, !(lookup_insert_ne _ "mtu") by done.
  rewrite lookup_insert_eq, !(lookup_insert_ne _ "ipMasq") by done.
  rewrite lookup_insert_eq.
  eexists. split; [reflexivity |]. split; [reflexivity |].
  cbn [ConfBytes Conf]. rewrite json_Marshal_delegate.
  apply json_Unmarshal_Bridge_delegate.
  unfold loadFlannelSubnetEnv in Hf. destruct (w_files w !! SubnetFile n); [| done].
  apply scanSubnetEnv_mtu in Hf; cbn in *; lia.
Qed.

Lemma kvmTransformFlannelNetwork_bridge_config_witness :
  exists net',
    kvmTransformFlannelNetwork (Sample.world Sample.host Sample.with_lease [], Sample.flannel_net)
    = (Ok tt, (Sample.world Sample.host Sample.with_lease [], net')) /\
    Conf net' = {| conf_Name := "rktnet"; conf_Type := "bridge";
                   conf_IPAM_Type := "host-local"; conf_IPMasq := false;
                   conf_MTU := 1472 |} /\
    json_Unmarshal_Bridge (ConfBytes net')
      {| br_NetConf := set_conf_MTU defaultMTU NetConf_zero; BrName := defaultBrName;
         IsGw := false |}
    = Ok {| br_NetConf := Conf net'; BrName := defaultBrName; IsGw := true |}.
Proof.
  apply (kvmTransformFlannelNetwork_bridge_config
           (Sample.world Sample.host Sample.with_lease []) Sample.flannel_net
           {| fl_NetConf := {| conf_Name := "rktnet"; conf_Type := "flannel";
                               conf_IPAM_Type := ""; conf_IPMasq := false; conf_MTU := 0 |};
              SubnetFile := defaultSubnetFile; Delegate := None |}
           Sample.fenv); try reflexivity; by eexists.
Defined.

(** ** Devices *)

(** A device created from a template is one more link, down and without
    master, under a name no link had. *)
Lemma tuntap_CreatePersistentIface_links (nameTemplate name : string) (w w' : World) :
  is_Some (template_prefix nameTemplate) ->
  tuntap_CreatePersistentIface nameTemplate w = (Ok name, w') ->
  link_named (w_kernel w) name = None /\
  w_kernel w' =
    set_links (k_links (w_kernel w) ++
                 [{| l_type := Tuntap; l_Name := name; l_Index := fresh_index (w_kernel w);
                     l_MTU := 1500; l_ParentIndex := 0; l_MasterIndex := 0; l_up := false |}])
      (w_kernel w).
Proof.
  intros Hp H. pose proof (tuntap_CreatePersistentIface_Ok _ _ _ _ Hp H) as Hnone.
  split; [done |]. destruct Hp as [p Hp].
  ran H. unfold kernel_name in H. rewrite Hp in H.
  destruct (List.find _ _) as [found |] eqn:Hfind; [| done].
  destruct (link_named (w_kernel w) found) eqn:E.
  - destruct (l_type l); simplify_eq; congruence.
  - by simplify_eq.
Qed.

Lemma netlink_LinkByName_kernel (name : string) (w w' : World) r :
  netlink_LinkByName name w = (r, w') -> w_kernel w' = w_kernel w.
Proof.
  intros H. apply extern_run in H as (_ & _ & _ & [(? & _ & _ & ?) | (_ & H)]); [done |].
  destruct (link_named _ _); by simplify_eq.
Qed.

Lemma netlink_LinkSetUp_Err (l : Link) (w w' : World) e :
  netlink_LinkSetUp l w = (Err e, w') -> w_kernel w' = w_kernel w.
Proof.
  intros H. apply extern_run in H as (_ & _ & _ & [(? & _ & _ & ?) | (_ & H)]); [done |].
  cbv zeta in H. destruct (link_indexed _ _); by simplify_eq.
Qed.

(** X9: [setupTapDevice] does not clean up after itself. When it fails
    after the device was created (the lookup or the bring-up failed), the
    persistent tap device stays on the host, down, under the name the
    kernel chose; the only other failure is the creation itself. *)
Theorem setupTapDevice_failure_keeps_device (podID : string) (w w' : World) (e : Error) :
  setupTapDevice podID w = (Err e, w') ->
  (exists e0, e = Wrap (errors_New "tuntap persist") e0) \/
  (exists ifName e0,
     (e = Wrap (Errorf "cannot find link %q" [ifName]) e0 \/
      e = Wrap (Errorf "cannot set link up %q" [ifName]) e0) /\
     link_named (w_kernel w) ifName = None /\
     k_links (w_kernel w') =
       k_links (w_kernel w) ++
         [{| l_type := Tuntap; l_Name := ifName; l_Index := fresh_index (w_kernel w);
             l_MTU := 1500; l_ParentIndex := 0; l_MasterIndex := 0; l_up := false |}]).
Proof.
  unfold setupTapDevice. intros H.
  apply bind_Err in H as [H | (prefix & s0 & Hs & H)].
  { unfold lift in H. injection H as H _. by destruct (slice_no_error _ _ _ _ H). }
  apply lift_Ok in Hs as [_ ->].
  apply bind_Err in H as [H | (ifName & wa & Hnew & H)].
  { apply wrapping_Err in H as (e0 & _ & ->). left. by exists e0. }
  apply wrapping_Ok in Hnew.
  apply tuntap_CreatePersistentIface_links in Hnew as [Hnone Hk]; [| apply tap_template_prefix].
  right. exists ifName.
  apply bind_Err in H as [H | (link0 & wb & Hfind & H)].
  { apply wrapping_Err in H as (e0 & H & ->). exists e0. split; [by left |]. split; [done |].
    apply netlink_LinkByName_kernel in H. by rewrite H, Hk. }
  apply wrapping_Ok, netlink_LinkByName_kernel in Hfind.
  apply bind_Err in H as [H | (h & wc & Hup & H)]; [| done].
  apply wrapping_Err in H as (e0 & H & ->). exists e0. split; [by right |]. split; [done |].
  apply netlink_LinkSetUp_Err in H. by rewrite H, Hfind, Hk.
Qed.

Lemma setupTapDevice_failure_keeps_device_witness :
  let w := Sample.faulty Sample.is_LinkSetUp (Sample.world Sample.host ∅ []) in
  link_named (w_kernel (setupTapDevice Sample.pod w).2) "rkt-abcd-tap0"
  = Some {| l_type := Tuntap; l_Name := "rkt-abcd-tap0"; l_Index := 2; l_MTU := 1500;
            l_ParentIndex := 0; l_MasterIndex := 0; l_up := false |}.
Proof.
  intros w.
  destruct (setupTapDevice_failure_keeps_device Sample.pod w (setupTapDevice Sample.pod w).2
              (Wrap (Errorf "cannot set link up %q" ["rkt-abcd-tap0"]) (Errno EIO)) eq_refl)
    as [(e0 & He) | (ifName & e0 & [He | He] & _ & Hk)]; try discriminate He.
  injection He as <- <-. unfold link_named. rewrite Hk. reflexivity.
Defined.

Lemma link_indexed_lt (k : Kernel) (i : Z) :
  is_Some (link_indexed k i) -> i < fresh_index k.
Proof.
  intros [l H]. unfold link_indexed in H. apply find_some in H as [Hin Hi].
  apply bool_decide_eq_true_1 in Hi as <-. by apply fresh_index_gt, list_elem_of_In.
Qed.

Lemma map_bring_up_fresh (k : Kernel) :
  map (bring_up (fresh_index k)) (k_links k) = k_links k.
Proof.
  assert (Forall (fun l => l_Index l <> fresh_index k) (k_links k)) as HF.
  { apply Forall_forall. intros l Hin%fresh_index_gt. lia. }
  induction HF as [| y l Hy HF IH]; [done |]. cbn. rewrite IH. f_equal.
  unfold bring_up. by rewrite bool_decide_eq_false_2.
Qed.

(** A successful [setupTapDevice]: the link value returned and the kernel
    it leaves. *)
Lemma setupTapDevice_kernel (podID : string) (w w1 : World) (link : Link) :
  setupTapDevice podID w = (Ok link, w1) ->
  link_named (w_kernel w) (l_Name link) = None /\
  link = tapDevice (l_Name link) (fresh_index (w_kernel w)) false /\
  w_kernel w1 =
    set_links (k_links (w_kernel w) ++
                 [tapDevice (l_Name link) (fresh_index (w_kernel w)) true]) (w_kernel w).
Proof.
  unfold setupTapDevice. intros H.
  apply bind_Ok in H as (prefix & s0 & Hs & H). apply lift_Ok in Hs as [_ ->].
  apply bind_Ok in H as (ifName & wa & Hnew & H).
  apply bind_Ok in H as (link0 & wb & Hfind & H).
  apply bind_Ok in H as (h & wc & Hup & H).
  apply ret_Ok in H as [-> ->].
  apply wrapping_Ok in Hnew, Hfind, Hup.
  apply tuntap_CreatePersistentIface_links in Hnew as [Hnone Hka]; [| apply tap_template_prefix].
  pose proof (netlink_LinkByName_kernel _ _ _ _ Hfind) as Hkb.
  ran Hfind.
  assert (link_named (w_kernel wa) ifName
          = Some (tapDevice ifName (fresh_index (w_kernel w)) false)) as Hl0.
  { rewrite Hka. unfold link_named in *. cbn [k_links set_links].
    by apply find_app_new; [| apply bool_decide_eq_true_2]. }
  rewrite Hl0 in Hfind. injection Hfind as <- _.
  ran Hup. cbv zeta in Hup.
  rewrite ensureIndex_nonzero in Hup
    by (cbn; pose proof (fresh_index_pos (w_kernel w)); lia).
  destruct (link_indexed (w_kernel wb) _); [| done].
  injection Hup as <- <-. cbn [l_Name tapDevice]. split; [done |]. split; [done |].
  rewrite Hkb, Hka. cbn [k_links set_links l_Index tapDevice].
  rewrite map_app, map_bring_up_fresh. cbn. unfold bring_up. cbn.
  rewrite bool_decide_eq_true_2 by done. by destruct (w_kernel w).
Qed.

(** A successful [setupMacVTapDevice]: the link value returned and the
    kernel it leaves. *)
Lemma setupMacVTapDevice_kernel (podID : string) (config : MacVTapNetConf) (i : nat)
    (w w' : World) (link : Link) :
  setupMacVTapDevice podID config i w = (Ok link, w') ->
  exists master mode prefix,
    link_named (w_kernel w) (Master config) = Some master /\
    macvtap_mode (Mode config) = inr mode /\
    slice podID 0 4 = Ok prefix /\
    let name := "rkt-" +:+ prefix +:+ "-vtap" +:+ itoa (Z.of_nat i) in
    let mtu := if conf_MTU (mv_NetConf config) =? 0 then l_MTU master
               else conf_MTU (mv_NetConf config) in
    link = {| l_type := Macvtap mode; l_Name := name; l_Index := fresh_index (w_kernel w);
              l_MTU := mtu; l_ParentIndex := l_Index master; l_MasterIndex := 0;
              l_up := false |} /\
    link_named (w_kernel w) name = None /\
    w_kernel w' =
      set_links (k_links (w_kernel w) ++
                   [{| l_type := Macvtap mode; l_Name := name;
                       l_Index := fresh_index (w_kernel w);
                       l_MTU := if mtu =? 0 then 1500 else mtu;
                       l_ParentIndex := l_Index master; l_MasterIndex := 0;
                       l_up := true |}]) (w_kernel w).
Proof.
  unfold setupMacVTapDevice. intros H.
  apply bind_Ok in H as (master & w1 & Hm & H). apply wrapping_Ok in Hm.
  pose proof (netlink_LinkByName_kernel _ _ _ _ Hm) as Hk1.
  ran Hm. destruct (link_named (w_kernel w) (Master config)) as [m0 |] eqn:Hmaster; [| done].
  injection Hm as -> _.
  destruct (macvtap_mode (Mode config)) as [err | mode] eqn:Hmode; [done |].
  apply bind_Ok in H as (prefix & s0 & Hs & H). apply lift_Ok in Hs as [Hs ->].
  apply bind_Ok in H as (link1 & w2 & Hadd & H). apply wrapping_Ok in Hadd.
  apply try_Ok in H as [(kl & w3 & Hup & H) | (e & w3 & _ & H)].
  2: { unfold try in H. by destruct (netlink_LinkDel link1 w3) as [[] ?]. }
  apply ret_Ok in H as [-> ->].
  ran Hadd. rewrite Hk1 in Hadd. cbn [l_Name] in Hadd.
  exists master, mode, prefix. cbv zeta.
  set (name := "rkt-" +:+ prefix +:+ "-vtap" +:+ itoa (Z.of_nat i)) in *.
  set (mtu := if conf_MTU (mv_NetConf config) =? 0 then l_MTU master
              else conf_MTU (mv_NetConf config)) in *.
  destruct (link_named (w_kernel w) name) eqn:Hfree; [done |].
  injection Hadd as <- Hk2.
  match type of Hk2 with set_links (_ ++ [?x]) _ = _ => set (kl0 := x) in * end.
  assert (link_named (w_kernel w2) name = Some kl0) as Hnew.
  { rewrite <- Hk2. unfold link_named in *. cbn [k_links set_links].
    by apply find_app_new; [| apply bool_decide_eq_true_2]. }
  unfold ensureIndex in Hup at 1. cbn [l_Index l_Name] in Hup.
  change (0 =? 0) with true in Hup. cbv iota in Hup.
  rewrite Hk2 in Hup. rewrite Hnew in Hup.
  unfold set_l_Index in Hup. cbn in Hup.
  ran Hup. cbv zeta in Hup.
  rewrite ensureIndex_nonzero in Hup
    by (cbn; pose proof (fresh_index_pos (w_kernel w)); lia).
  cbn [l_Index] in Hup.
  destruct (link_indexed (w_kernel w2) (fresh_index (w_kernel w))) eqn:Hi; [| done].
  injection Hup as <- Hk3.
  split_and!; try done.
  rewrite <- Hk3, <- Hk2. cbn [k_links set_links].
  rewrite map_app, map_bring_up_fresh. cbn. unfold bring_up. cbn.
  rewrite bool_decide_eq_true_2 by done. by destruct (w_kernel w).
Qed.

(** X10: the macvtap link a successful [setupMacVTapDevice] returns. It
    is named after the pod and the position of the network, hangs off the
    master device of the configuration, has the mode asked for (bridge
    when none is given) and the MTU of the configuration, or the master's
    when the configuration gives none; and the host has it, up, under a
    name that was free. *)
Theorem setupMacVTapDevice_Ok (podID : string) (config : MacVTapNetConf) (i : nat)
    (w w' : World) (link : Link) :
  setupMacVTapDevice podID config i w = (Ok link, w') ->
  exists master mode prefix kl,
    link_named (w_kernel w) (Master config) = Some master /\
    macvtap_mode (Mode config) = inr mode /\
    slice podID 0 4 = Ok prefix /\
    l_Name link = "rkt-" +:+ prefix +:+ "-vtap" +:+ itoa (Z.of_nat i) /\
    l_type link = Macvtap mode /\
    l_ParentIndex link = l_Index master /\
    l_MTU link = (if conf_MTU (mv_NetConf config) =? 0 then l_MTU master
                  else conf_MTU (mv_NetConf config)) /\
    link_named (w_kernel w) (l_Name link) = None /\
    link_named (w_kernel w') (l_Name link) = Some kl /\
    l_type kl = Macvtap mode /\ l_ParentIndex kl = l_Index master /\ l_up kl = true.
Proof.
  intros H.
  apply setupMacVTapDevice_kernel in H
    as (master & mode & prefix & Hmaster & Hmode & Hprefix & Hlink & Hfree & Hk).
  cbv zeta in *. exists master, mode, prefix. eexists.
  rewrite Hlink. cbn [l_Name l_type l_ParentIndex l_MTU].
  split_and!; try done.
  - rewrite Hk. unfold link_named in *. cbn [k_links set_links].
    by apply find_app_new; [| apply bool_decide_eq_true_2].
  - done.
  - done.
  - done.
Qed.

Lemma setupMacVTapDevice_Ok_witness :
  let w := Sample.world Sample.host ∅ [] in
  let config := Sample.macvtap_conf "eth0" "" in
  let link := {| l_type := Macvtap MACVLAN_MODE_BRIDGE; l_Name := "rkt-abcd-vtap2";
                 l_Index := 2; l_MTU := 1500; l_ParentIndex := 1; l_MasterIndex := 0;
                 l_up := false |} in
  exists master mode prefix kl,
    link_named (w_kernel w) (Master config) = Some master /\
    macvtap_mode (Mode config) = inr mode /\
    slice Sample.pod 0 4 = Ok prefix /\
    l_Name link = "rkt-" +:+ prefix +:+ "-vtap" +:+ itoa (Z.of_nat 2) /\
    l_type link = Macvtap mode /\
    l_ParentIndex link = l_Index master /\
    l_MTU link = (if conf_MTU (mv_NetConf config) =? 0 then l_MTU master
                  else conf_MTU (mv_NetConf config)) /\
    link_named (w_kernel w) (l_Name link) = None /\
    link_named (w_kernel (setupMacVTapDevice Sample.pod config 2 w).2) (l_Name link)
      = Some kl /\
    l_type kl = Macvtap mode /\ l_ParentIndex kl = l_Index master /\ l_up kl = true.
Proof.
  intros w config link.
  apply (setupMacVTapDevice_Ok Sample.pod config 2 w _ link).
  vm_compute. reflexivity.
Defined.

(** ** Addresses and routes *)

(** X11: [ensureHasAddr] never gives a second address to an interface that
    has one. When the listing succeeds and the interface has addresses,
    the only call made is that listing and the kernel is left as it is:
    the result is success when one of the addresses prints as the address
    asked for, and the "already has an IP address" error otherwise. *)
Theorem ensureHasAddr_existing (link : Link) (ipn : IPNet) (w : World) :
  w_fault w (w_clock w) (CAddrList link) = None ->
  addrsOf (w_kernel w) link <> [] ->
  ensureHasAddr link ipn w =
    (if existsb (fun a => bool_decide (IPNet_String (a_IPNet a) = IPNet_String ipn))
          (addrsOf (w_kernel w) link)
     then Ok tt
     else Err (Errorf "%q already has an IP address different from %v"
                 [l_Name link; IPNet_String ipn]),
     called (CAddrList link) w).
Proof.
  intros Hf Hne. unfold ensureHasAddr, bind, try, netlink_AddrList, extern.
  rewrite Hf. cbv zeta. fold (addrsOf (w_kernel w) link).
  destruct (addrsOf (w_kernel w) link) as [| a addrs] eqn:E; [done |].
  unfold ret at 1. cbn [length].
  rewrite bool_decide_eq_true_2 by lia.
  destruct (existsb _ _); unfold ret, fail; by destruct w as [[] ? ? ? ? ? ? ?].
Qed.

Lemma ensureHasAddr_existing_witness :
  let held := {| ipnet_IP := IPv4 10 0 0 1; ipnet_Mask := IPv4Mask 255 255 255 0 |} in
  let asked := {| ipnet_IP := IPv4 10 0 0 2; ipnet_Mask := IPv4Mask 255 255 255 0 |} in
  let w := Sample.world (set_addrs [addrOn 1 held "eth0"] Sample.host) ∅ [] in
  ensureHasAddr Sample.eth0 asked w =
    (if existsb (fun a => bool_decide (IPNet_String (a_IPNet a) = IPNet_String asked))
          (addrsOf (w_kernel w) Sample.eth0)
     then Ok tt
     else Err (Errorf "%q already has an IP address different from %v"
                 [l_Name Sample.eth0; IPNet_String asked]),
     called (CAddrList Sample.eth0) w).
Proof.
  intros held asked w. apply ensureHasAddr_existing.
  - reflexivity.
  - vm_compute. discriminate.
Defined.

Lemma ensureIndex_links (k k' : Kernel) (l : Link) :
  k_links k' = k_links k -> ensureIndex k' l = ensureIndex k l.
Proof. intros H. unfold ensureIndex. by rewrite (link_named_links _ _ _ H). Qed.

Lemma netlink_AddrList_kernel (l : Link) (w w' : World) r :
  netlink_AddrList l w = (r, w') -> w_kernel w' = w_kernel w.
Proof.
  intros H. apply extern_run in H as (_ & _ & _ & [(? & _ & _ & ?) | (_ & H)]); [done |].
  by injection H as _ ->.
Qed.

(** What a successful [ensureHasAddr] leaves: an address of the link that
    prints as the one asked for. *)
Lemma ensureHasAddr_has (link : Link) (ipn : IPNet) (w w' : World) :
  ensureHasAddr link ipn w = (Ok tt, w') ->
  existsb (fun a => bool_decide (IPNet_String (a_IPNet a) = IPNet_String ipn))
    (addrsOf (w_kernel w') link) = true.
Proof.
  unfold ensureHasAddr. intros H.
  apply bind_Ok in H as (addrs & w1 & Hl & H).
  assert (w_kernel w1 = w_kernel w /\
          (addrs = addrsOf (w_kernel w) link \/ addrs = [])) as [Hk1 Haddrs].
  { apply try_Ok in Hl as [(a & wa & Hl & Hr) | (e & wa & Hl & Hr)].
    - apply ret_Ok in Hr as [-> ->]. split; [by eapply netlink_AddrList_kernel |].
      left. ran Hl. by injection Hl as <- _.
    - destruct (negb _); [done |]. apply ret_Ok in Hr as [-> ->].
      split; [by eapply netlink_AddrList_kernel | by right]. }
  destruct (bool_decide (0 < length addrs)%nat) eqn:Hlen.
  - destruct (existsb _ addrs) eqn:Hex; [| done].
    apply ret_Ok in H as [_ ->]. rewrite Hk1.
    destruct Haddrs as [<- | ->]; [done | by cbn in Hlen].
  - apply wrapping_Ok in H. ran H. cbv zeta in H.
    destruct (link_indexed _ _) as [kl |]; [| done].
    destruct (bool_decide (_ ∈ _)); [done |].
    injection H as H. rewrite Hk1 in H.
    assert (k_links (w_kernel w') = k_links (w_kernel w)) as Hlinks.
    { rewrite <- H. by destruct (l_up kl). }
    assert (k_addrs (w_kernel w') = k_addrs (w_kernel w) ++
              [{| a_LinkIndex := l_Index (ensureIndex (w_kernel w) link); a_IPNet := ipn;
                  a_Label := l_Name link |}]) as Ha.
    { rewrite <- H. by destruct (l_up kl). }
    unfold addrsOf. rewrite (ensureIndex_links _ _ _ Hlinks), Ha.
    rewrite filter_app, filter_cons_True, filter_nil by done.
    rewrite existsb_app. cbn. rewrite bool_decide_eq_true_2 by done.
    by rewrite orb_true_r.
Qed.

(** X12: [ensureHasAddr] is idempotent. After a successful call, a second
    call for the same link and address (its listing not failing) succeeds
    and leaves the kernel as the first call left it. *)
Theorem ensureHasAddr_idempotent (link : Link) (ipn : IPNet) (w w1 : World) :
  ensureHasAddr link ipn w = (Ok tt, w1) ->
  w_fault w1 (w_clock w1) (CAddrList link) = None ->
  ensureHasAddr link ipn w1 = (Ok tt, called (CAddrList link) w1).
Proof.
  intros H Hf. apply ensureHasAddr_has in H.
  unfold ensureHasAddr, bind, try, netlink_AddrList, extern.
  rewrite Hf. cbv zeta. fold (addrsOf (w_kernel w1) link).
  destruct (addrsOf (w_kernel w1) link) as [| a addrs] eqn:E; [done |].
  unfold ret at 1. cbn [length].
  rewrite bool_decide_eq_true_2 by lia. rewrite H.
  unfold ret. by destruct w1 as [[] ? ? ? ? ? ? ?].
Qed.

Lemma ensureHasAddr_idempotent_witness :
  let asked := {| ipnet_IP := IPv4 10 0 0 2; ipnet_Mask := IPv4Mask 255 255 255 0 |} in
  let w1 := (ensureHasAddr Sample.eth0 asked (Sample.world Sample.host ∅ [])).2 in
  ensureHasAddr Sample.eth0 asked w1 = (Ok tt, called (CAddrList Sample.eth0) w1).
Proof.
  intros asked w1.
  apply (ensureHasAddr_idempotent Sample.eth0 asked (Sample.world Sample.host ∅ []) w1).
  - vm_compute. reflexivity.
  - vm_compute. reflexivity.
Defined.

Lemma filter_addrs_none (i : Z) (l : list Addr) :
  Forall (fun a => a_LinkIndex a <> i) l -> filter (fun a => a_LinkIndex a = i) l = [].
Proof.
  induction 1 as [| a l Ha HF IH]; [done |]. by rewrite filter_cons_False.
Qed.

Lemma filter_addrs_all (i : Z) (l : list Addr) :
  Forall (fun a => a_LinkIndex a <> i) l -> filter (fun a => a_LinkIndex a <> i) l = l.
Proof.
  induction 1 as [| a l Ha HF IH]; [done |]. by rewrite filter_cons_True, IH.
Qed.

(** [ensureHasAddr] on a link that is up and has no address yet. *)
Lemma ensureHasAddr_first (link kl : Link) (ipn : IPNet) (w w' : World) :
  l_Index link <> 0 ->
  link_indexed (w_kernel w) (l_Index link) = Some kl -> l_up kl = true ->
  Forall (fun a => a_LinkIndex a <> l_Index link) (k_addrs (w_kernel w)) ->
  ensureHasAddr link ipn w = (Ok tt, w') ->
  w_kernel w' =
    set_addrs (k_addrs (w_kernel w) ++ [addrOn (l_Index link) ipn (l_Name link)])
      (set_routes (k_routes (w_kernel w) ++ [connectedRoute (l_Index link) ipn]) (w_kernel w)).
Proof.
  intros Hnz Hkl Hup Hnone. unfold ensureHasAddr. intros H.
  apply bind_Ok in H as (addrs & w1 & Hl & H).
  assert (forall k : Kernel, ensureIndex k link = link) as Hei
    by (intros k; by apply ensureIndex_nonzero).
  assert (w_kernel w1 = w_kernel w /\ addrs = []) as [Hk1 ->].
  { apply try_Ok in Hl as [(a & wa & Hl & Hr) | (e & wa & Hl & Hr)].
    - apply ret_Ok in Hr as [-> ->]. split; [by eapply netlink_AddrList_kernel |].
      ran Hl. injection Hl as <- _. rewrite Hei. by apply filter_addrs_none.
    - destruct (negb _); [done |]. apply ret_Ok in Hr as [-> ->].
      split; [by eapply netlink_AddrList_kernel | done]. }
  cbn in H. apply wrapping_Ok in H. ran H. cbv zeta in H.
  rewrite Hei, Hk1, Hkl, Hup in H.
  destruct (bool_decide _); [done |]. by injection H as <-.
Qed.

Lemma filter_remove_first_other (p : Route -> bool) (r : Route) (l : list Route) :
  p r = false ->
  List.filter p (remove_first r l) = List.filter p l.
Proof.
  intros Hr. induction l as [| y l IH]; [done |]. cbn.
  destruct (bool_decide (y = r)) eqn:E.
  - apply bool_decide_eq_true_1 in E as ->. by rewrite Hr.
  - cbn. by rewrite IH.
Qed.

Lemma filter_none_other {A} (p : A -> bool) (l : list A) :
  List.filter p l = [] -> l = List.filter (fun x => negb (p x)) l.
Proof.
  induction l as [| x l IH]; [done |]. cbn. destruct (p x); [done |]. cbn.
  intros H. by rewrite <- IH.
Qed.

Lemma netlink_RouteDel_frame (r : Route) (w w' : World) res (p : Route -> bool) :
  netlink_RouteDel r w = (res, w') ->
  p r = false ->
  same_but_routes (w_kernel w) (w_kernel w') /\
  List.filter p (k_routes (w_kernel w')) = List.filter p (k_routes (w_kernel w)).
Proof.
  intros H Hp. apply extern_run in H as (_ & _ & _ & [(? & _ & _ & ->) | (_ & H)]); [done |].
  destruct (bool_decide _); injection H as _ <-; [| done].
  split; [done |]. by apply filter_remove_first_other.
Qed.

Lemma removeRoutes_frame (p : Route -> bool) (routes : list Route) (w w' : World) res :
  removeRoutes routes w = (res, w') ->
  Forall (fun r => p r = false) routes ->
  same_but_routes (w_kernel w) (w_kernel w') /\
  List.filter p (k_routes (w_kernel w')) = List.filter p (k_routes (w_kernel w)).
Proof.
  revert w. induction routes as [| r rest IH]; intros w H Hall.
  - by injection H as _ <-.
  - apply Forall_cons in Hall as [Hr Hall]. cbn [removeRoutes] in H.
    unfold bind, wrapping, try, fail, ret in H.
    destruct (netlink_RouteDel r w) as [[[] | e | pn] w1] eqn:Hdel;
      destruct (netlink_RouteDel_frame _ _ _ _ p Hdel Hr) as [(? & ? & ? & ? & ?) Hf].
    + destruct (IH _ H Hall) as [(? & ? & ? & ? & ?) Hf']. unfold same_but_routes.
      split_and!; congruence.
    + by injection H as _ <-.
    + by injection H as _ <-.
Qed.

(** Whatever [removeAllRoutesOnLink] returns, the links, the addresses and
    the routes that satisfy [other], a test no route of the link passes, are
    as before. *)
Lemma removeAllRoutesOnLink_others (link : Link) (w w' : World) res :
  let other r := negb (on_link (l_Index (ensureIndex (w_kernel w) link)) r) in
  removeAllRoutesOnLink link w = (res, w') ->
  k_links (w_kernel w') = k_links (w_kernel w) /\
  k_addrs (w_kernel w') = k_addrs (w_kernel w) /\
  List.filter other (k_routes (w_kernel w')) = List.filter other (k_routes (w_kernel w)).
Proof.
  intros other H.
  unfold removeAllRoutesOnLink, bind, wrapping, try, fail, ret in H.
  destruct (netlink_RouteList link w) as [[routes | e | pn] w1] eqn:Hlist.
  - assert (w_kernel w1 = w_kernel w /\
            Forall (fun r => other r = false) routes) as [Hk HF].
    { apply extern_run in Hlist as (_ & _ & _ & [(? & _ & ? & _) | (_ & Hlist)]); [done |].
      injection Hlist as <- <-. split; [done |].
      apply Forall_forall. intros r [_ Hr]%list_elem_of_In%filter_In.
      unfold other. by rewrite Hr. }
    destruct (removeRoutes_frame other _ _ _ _ H HF) as [(? & ? & _) ?].
    rewrite <- Hk. by split_and!.
  - injection H as _ <-.
    apply extern_run in Hlist as (_ & _ & _ & [(? & _ & _ & ->) | (_ & Hlist)]); [done |].
    by injection Hlist as _ <-.
  - injection H as _ <-.
    apply extern_run in Hlist as (_ & _ & _ & [(? & _ & _ & ->) | (_ & Hlist)]); [done |].
    by injection Hlist as _ <-.
Qed.

(** X13: [removeAllRoutesOnLink] touches nothing but the routes of its
    link. Whatever it returns, the links, the addresses and the routes
    through every other link are as before; and when it succeeds, the
    routes left are exactly those that went through other links. *)
Theorem removeAllRoutesOnLink_frame (link : Link) (w : World) :
  let other r := negb (on_link (l_Index (ensureIndex (w_kernel w) link)) r) in
  match removeAllRoutesOnLink link w with
  | (res, w') =>
      k_links (w_kernel w') = k_links (w_kernel w) /\
      k_addrs (w_kernel w') = k_addrs (w_kernel w) /\
      List.filter other (k_routes (w_kernel w')) = List.filter other (k_routes (w_kernel w)) /\
      (res = Ok tt -> k_routes (w_kernel w') = List.filter other (k_routes (w_kernel w)))
  end.
Proof.
  intros other. destruct (removeAllRoutesOnLink link w) as [res w'] eqn:H.
  destruct (removeAllRoutesOnLink_others _ _ _ _ H) as (Hl & Ha & Hf).
  split_and!; try done.
  intros ->. apply removeAllRoutesOnLink_Ok in H as [Hnone _].
  fold other in Hf. rewrite <- Hf. by apply filter_none_other.
Qed.

Lemma filter_routes_all (i : Z) (l : list Route) :
  Forall (fun r => r_LinkIndex r <> i) l ->
  List.filter (fun r => negb (on_link i r)) l = l.
Proof.
  induction 1 as [| r l Hr HF IH]; [done |]. cbn. unfold on_link at 1.
  rewrite bool_decide_eq_false_2 by done. cbn. by rewrite IH.
Qed.

Lemma filter_routes_other (i : Z) (l : list Route) :
  Forall (fun r => r_LinkIndex r <> i) l ->
  filter (fun r => r_LinkIndex r <> i) l = l.
Proof.
  induction 1 as [| r l Hr HF IH]; [done |]. by rewrite filter_cons_True, IH.
Qed.

Lemma addRoute_kernel (link : Link) (podIP : IP) (w w' : World) :
  addRoute link podIP w = (Ok tt, w') ->
  w_kernel w' =
    set_routes (k_routes (w_kernel w) ++
      [{| r_LinkIndex := l_Index link; r_Scope := SCOPE_LINK;
          r_Dst := Some {| ipnet_IP := podIP; ipnet_Mask := IPv4Mask 255 255 255 255 |};
          r_Src := []; r_Gw := [] |}]) (w_kernel w).
Proof.
  unfold addRoute, netlink_RouteAdd. intros H. ran H.
  destruct (bool_decide _); [done |]. by injection H as <-.
Qed.

Lemma ip_SetupIPMasq_frame (ipn : IPNet) (chain : ChainName) (comment : string)
    (w w' : World) :
  ip_SetupIPMasq ipn chain comment w = (Ok tt, w') ->
  k_links (w_kernel w') = k_links (w_kernel w) /\
  k_addrs (w_kernel w') = k_addrs (w_kernel w) /\
  k_routes (w_kernel w') = k_routes (w_kernel w).
Proof.
  intros H. ran H. injection H as <-. by destruct (bool_decide _).
Qed.

Lemma kvmSetupNetAddressing_kernel (network : Networking) (ifName : string)
    (w w' : World) (n n' : ActiveNet) :
  kvmSetupNetAddressing network ifName (w, n) = (Ok tt, (w', n')) ->
  w_kernel w' = set_ip4_forward true (w_kernel w) /\
  exists ip4, n' = set_runtime_addressing ip4 n.
Proof.
  intros H. pose proof (kvmSetupNetAddressing_paths network ifName w n) as Hp.
  cbv zeta in Hp. rewrite Hp in H. clear Hp.
  repeat case_match; simplify_eq. split; [done |]. by eexists.
Qed.

(** ** The loop of kvmSetup *)

(** X14: a flannel network is set up exactly as the network the transformer
    makes of it: once the transformation has succeeded, the rest of the
    loop body runs on the transformed descriptor as it would on a
    descriptor loaded in that form. *)
Theorem kvmSetup_net_flannel (network : Networking) (podID : string) (i : nat)
    (w w' : World) (n n1 : ActiveNet) :
  conf_Type (Conf n) = "flannel" ->
  kvmTransformFlannelNetwork (w, n) = (Ok tt, (w', n1)) ->
  conf_Type (Conf n1) <> "flannel" ->
  kvmSetup_net network podID i (w, n) = kvmSetup_net network podID i (w', n1).
Proof.
  intros Hty Ht Hn1. unfold kvmSetup_net.
  unfold bind at 1. unfold getN at 1, gets at 1. cbn [snd].
  unfold bind at 1. rewrite Hty.
  change (bool_decide ("flannel" = "flannel")) with true. cbv iota.
  unfold wrapping, try. rewrite Ht. unfold ret at 1.
  symmetry.
  unfold bind at 1. unfold getN at 1, gets at 1. cbn [snd].
  unfold bind at 1. rewrite (bool_decide_eq_false_2 _ Hn1). unfold ret at 1.
  reflexivity.
Qed.

Lemma kvmSetup_net_flannel_witness :
  let w := Sample.world Sample.host Sample.with_lease [] in
  kvmSetup_net (Sample.networking [Sample.flannel_net]) Sample.pod 0 (w, Sample.flannel_net)
  = kvmSetup_net (Sample.networking [Sample.flannel_net]) Sample.pod 0
      (w, (kvmTransformFlannelNetwork (w, Sample.flannel_net)).2.2).
Proof.
  intros w.
  apply (kvmSetup_net_flannel _ Sample.pod 0 w w Sample.flannel_net).
  - reflexivity.
  - vm_compute. reflexivity.
  - vm_compute. discriminate.
Defined.

Lemma map_fixed {A} (f : A -> A) (l : list A) (x : A) :
  map f l = l -> x ∈ l -> f x = x.
Proof.
  induction l as [| y l IH]; intros Hm Hin; [by apply elem_of_nil in Hin |].
  injection Hm as Hy Hl. apply elem_of_cons in Hin as [-> | Hin]; [done | by apply IH].
Qed.

Lemma find_app_old {A} (f : A -> bool) (l l' : list A) (x : A) :
  List.find f l = Some x -> List.find f (l ++ l') = Some x.
Proof.
  induction l as [| y l IH]; cbn; [done |]. destruct (f y); [done | apply IH].
Qed.

Lemma netlink_LinkSetMaster_Ok (l master : Link) (w w' : World) :
  netlink_LinkSetMaster l master w = (Ok tt, w') ->
  w_kernel w' =
    set_links (map (fun x => if bool_decide (l_Index x = l_Index (ensureIndex (w_kernel w) l))
                             then set_l_MasterIndex
                                    (l_Index (ensureIndex (w_kernel w) master)) x
                             else x) (k_links (w_kernel w))) (w_kernel w).
Proof.
  intros H. ran H. cbv zeta in H.
  destruct (link_indexed _ _); [| done]. destruct (link_indexed _ _); [| done].
  by injection H as <-.
Qed.

Lemma map_set_master_fresh (k : Kernel) (m : Z) :
  map (fun x => if bool_decide (l_Index x = fresh_index k) then set_l_MasterIndex m x else x)
    (k_links k) = k_links k.
Proof.
  assert (Forall (fun l => l_Index l <> fresh_index k) (k_links k)) as HF.
  { apply Forall_forall. intros l Hin%fresh_index_gt. lia. }
  induction HF as [| y l Hy HF IH]; [done |]. cbn. rewrite IH. f_equal.
  by rewrite bool_decide_eq_false_2.
Qed.

(** X15: what a successful setup of a bridge network leaves on the host.
    The bridge named by the configuration (["kvm-cni0"] when it names
    none) is there and up; the interface recorded in the descriptor is a
    tap device, up, whose master is that bridge; and for a gateway
    network an address of the bridge prints as the allocator's gateway
    address with the mask of the pod's address. *)
Theorem kvmSetup_net_bridge (network : Networking) (podID : string) (i : nat)
    (w w' : World) (n n' : ActiveNet) :
  conf_Type (Conf n) = "bridge" ->
  kvmSetup_net network podID i (w, n) = (Ok tt, (w', n')) ->
  exists config br tap ip4,
    json_Unmarshal_Bridge (ConfBytes n)
      {| br_NetConf := set_conf_MTU defaultMTU NetConf_zero; BrName := defaultBrName;
         IsGw := false |} = Ok config /\
    n' = set_runtime_addressing ip4 (set_IfName (l_Name tap) n) /\
    link_named (w_kernel w') (BrName config) = Some br /\
    l_type br = Bridge /\ l_up br = true /\
    link_named (w_kernel w') (l_Name tap) = Some tap /\
    l_type tap = Tuntap /\ l_up tap = true /\ l_MasterIndex tap = l_Index br /\
    (IsGw config = true ->
     exists a, a ∈ k_addrs (w_kernel w') /\ a_LinkIndex a = l_Index br /\
               IPNet_String (a_IPNet a) =
               IPNet_String {| ipnet_IP := ipc_Gateway ip4;
                               ipnet_Mask := ipnet_Mask (ipc_IP ip4) |}).
Proof.
  intros Hty H. unfold kvmSetup_net in H.
  apply bind_Ok in H as (n0 & s0 & Hg & H). apply getN_Ok in Hg as [-> ->]. cbn [snd] in H.
  rewrite Hty in H.
  change (bool_decide ("bridge" = "flannel")) with false in H. cbv iota in H.
  apply bind_Ok in H as ([] & s1 & Hr & H). apply ret_Ok in Hr as [_ ->].
  apply bind_Ok in H as (n0 & s0 & Hg & H). apply getN_Ok in Hg as [-> ->]. cbn [snd] in H.
  rewrite Hty in H.
  change (bool_decide ("bridge" = "ptp")) with false in H.
  change (bool_decide ("bridge" = "bridge")) with true in H. cbv iota in H.
  apply bind_Ok in H as ([] & [w6 n6] & Hbr & H).
  apply bind_Ok in Hbr as (config & s0 & Hconf & Hbr). apply lift_Ok in Hconf as [Hconf ->].
  apply bind_Ok in Hbr as (br & [w1 n1] & Hens & Hbr).
  apply wrapping_Ok, inW_eq in Hens as [Hens ->].
  apply bind_Ok in Hbr as (link & [w2 n2] & Htap & Hbr).
  apply wrapping_Ok, inW_eq in Htap as [Htap ->].
  apply bind_Ok in Hbr as ([] & [w3 n3] & Hmaster & Hbr).
  apply try_Ok in Hmaster as [([] & [w3' n3'] & Hmaster & Hr) | (e & s3 & _ & Hr)].
  2: { apply bind_Ok in Hr as (? & ? & _ & Hr). done. }
  apply ret_Ok in Hr as [_ [= <- <-]]. apply inW_eq in Hmaster as [Hmaster ->].
  apply bind_Ok in Hbr as ([] & s4 & Hm & Hbr). apply modN_Ok in Hm as ->.
  cbn [fst snd] in Hbr.
  apply bind_Ok in Hbr as ([] & [w4 n4] & Haddr & Hgw).
  (* the kernel after each step *)
  apply ensureBridgeIsUp_Ok_state in Hens as (b1 & Hb1 & Hb1ty & Hb1i & Hbrn & Hbrty & Hup1).
  destruct (link_named_Name _ _ _ Hb1) as [Hb1n Hb1in].
  assert (l_up b1 = true) as Hb1up.
  { pose proof (map_fixed _ _ _ Hup1 Hb1in) as Hfix. unfold bring_up in Hfix.
    rewrite bool_decide_eq_true_2 in Hfix by done. by rewrite <- Hfix. }
  apply setupTapDevice_kernel in Htap as (Hfree & Hlink & Hk2).
  set (name := l_Name link) in *. set (idx := fresh_index (w_kernel w1)) in *.
  assert (idx <> 0) as Hnz by (pose proof (fresh_index_pos (w_kernel w1)); unfold idx; lia).
  assert (l_Index b1 < idx) as Hlt by (unfold idx; by apply fresh_index_gt).
  assert (link_named (w_kernel w2) (BrName config) = Some b1) as Hb2.
  { rewrite Hk2. unfold link_named in *. cbn [k_links set_links]. by apply find_app_old. }
  apply netlink_LinkSetMaster_Ok in Hmaster as Hk3.
  assert (l_Index (ensureIndex (w_kernel w2) link) = idx) as Hi.
  { rewrite ensureIndex_nonzero; by rewrite Hlink. }
  assert (l_Index (ensureIndex (w_kernel w2) br) = l_Index b1) as Hmi.
  { unfold ensureIndex. rewrite Hbrn, Hb2.
    destruct (l_Index br =? 0); cbn; [reflexivity | symmetry; exact Hb1i]. }
  rewrite Hi, Hmi in Hk3.
  assert (k_links (w_kernel w3) =
          k_links (w_kernel w1) ++
            [set_l_MasterIndex (l_Index b1) (tapDevice name idx true)]) as Hl3.
  { rewrite Hk3, Hk2. cbn [k_links set_links]. rewrite map_app.
    unfold idx at 1. rewrite map_set_master_fresh. cbn.
    by rewrite bool_decide_eq_true_2. }
  apply kvmSetupNetAddressing_kernel in Haddr as (Hk4 & ip4 & ->).
  set (tap := set_l_MasterIndex (l_Index b1) (tapDevice name idx true)) in *.
  assert (k_links (w_kernel w6) = k_links (w_kernel w3) /\
          (IsGw config = true ->
           existsb (fun a => bool_decide
                      (IPNet_String (a_IPNet a) =
                       IPNet_String {| ipnet_IP := ipc_Gateway ip4;
                                       ipnet_Mask := ipnet_Mask (ipc_IP ip4) |}))
             (addrsOf (w_kernel w6) br) = true) /\
          n6 = set_runtime_addressing ip4 (set_IfName name n)) as (Hl6 & Hgw6 & ->).
  { destruct (IsGw config).
    - apply bind_Ok in Hgw as (n0 & s0 & Hg & Hgw). apply getN_Ok in Hg as [-> ->].
      cbn [snd] in Hgw.
      apply bind_Ok in Hgw as (gw & s0 & Hgn & Hgw). apply lift_Ok in Hgn as [Hgn ->].
      cbn in Hgn. injection Hgn as <-.
      apply wrapping_Ok, inW_eq in Hgw as [Hgw ->].
      split; [| split; [| done]].
      + apply ensureHasAddr_Ok in Hgw. by rewrite Hgw, Hk4.
      + intros _. by apply ensureHasAddr_has in Hgw.
    - apply ret_Ok in Hgw as [_ [= <- <-]]. split; [by rewrite Hk4 |]. by split. }
  assert (k_links (w_kernel w') = k_links (w_kernel w6) /\
          k_addrs (w_kernel w') = k_addrs (w_kernel w6) /\
          n' = set_runtime_addressing ip4 (set_IfName name n)) as (Hl7 & Ha7 & ->).
  { apply bind_Ok in H as (n0 & s0 & Hg & H). apply getN_Ok in Hg as [-> ->].
    cbn [snd] in H.
    destruct (conf_IPMasq _).
    - apply inW_eq in H as [E6 ->].
      by apply ip_SetupIPMasq_frame in E6 as (? & ? & ?).
    - by apply ret_Ok in H as [_ [= <-]]. }
  assert (k_links (w_kernel w') = k_links (w_kernel w1) ++ [tap]) as Hlinks by congruence.
  exists config, b1, tap, ip4. split_and!; try done.
  - unfold parsing in Hconf. by destruct (json_Unmarshal_Bridge _ _); simplify_eq.
  - unfold link_named in *. rewrite Hlinks. by apply find_app_old.
  - unfold link_named in *. rewrite Hlinks.
    by apply find_app_new; [| apply bool_decide_eq_true_2].
  - intros Hgw'. specialize (Hgw6 Hgw'). apply existsb_exists in Hgw6 as (a & Hin & Ha).
    apply bool_decide_eq_true_1 in Ha. unfold addrsOf in Hin.
    apply list_elem_of_In, list_elem_of_filter in Hin as [Hai Hin].
    exists a. split; [by rewrite Ha7 |]. split; [| done].
    rewrite Hai. unfold ensureIndex. rewrite Hbrn.
    rewrite (link_named_links (w_kernel w3) (w_kernel w6)) by done.
    unfold link_named at 1. rewrite Hl3.
    unfold link_named in Hb1. rewrite (find_app_old _ _ _ _ Hb1).
    destruct (l_Index br =? 0); cbn; [reflexivity | symmetry; exact Hb1i].
Qed.

Lemma kvmSetup_net_bridge_witness :
  let w' := Sample.bridge_setup.2.1 in
  let n' := Sample.bridge_setup.2.2 in
  exists config br tap ip4,
    json_Unmarshal_Bridge (ConfBytes Sample.bridge_net)
      {| br_NetConf := set_conf_MTU defaultMTU NetConf_zero; BrName := defaultBrName;
         IsGw := false |} = Ok config /\
    n' = set_runtime_addressing ip4 (set_IfName (l_Name tap) Sample.bridge_net) /\
    link_named (w_kernel w') (BrName config) = Some br /\
    l_type br = Bridge /\ l_up br = true /\
    link_named (w_kernel w') (l_Name tap) = Some tap /\
    l_type tap = Tuntap /\ l_up tap = true /\ l_MasterIndex tap = l_Index br /\
    (IsGw config = true ->
     exists a, a ∈ k_addrs (w_kernel w') /\ a_LinkIndex a = l_Index br /\
               IPNet_String (a_IPNet a) =
               IPNet_String {| ipnet_IP := ipc_Gateway ip4;
                               ipnet_Mask := ipnet_Mask (ipc_IP ip4) |}).
Proof.
  intros w' n'.
  apply (kvmSetup_net_bridge (Sample.networking [Sample.bridge_net]) Sample.pod 0
           (Sample.world Sample.host ∅ []) w' Sample.bridge_net n').
  - reflexivity.
  - vm_compute. reflexivity.
Defined.

(** The switch of the loop body on a descriptor that is not a flannel
    network: the parsed configuration and the bytes stay, the interface
    name and the addressing fields are written. *)
Lemma kvmSetup_net_descriptor (network : Networking) (podID : string) (i : nat)
    (w w' : World) (n n' : ActiveNet) :
  conf_Type (Conf n) <> "flannel" ->
  kvmSetup_net network podID i (w, n) = (Ok tt, (w', n')) ->
  conf_Type (Conf n) ∈ ["ptp"; "bridge"; "macvlan"] /\
  exists ifName ip4, n' = set_runtime_addressing ip4 (set_IfName ifName n).
Proof.
  intros Hnf H. unfold kvmSetup_net in H.
  apply bind_Ok in H as (n0 & s0 & Hg & H). apply getN_Ok in Hg as [-> ->]. cbn [snd] in H.
  rewrite (bool_decide_eq_false_2 _ Hnf) in H.
  apply bind_Ok in H as ([] & s1 & Hr & H). apply ret_Ok in Hr as [_ ->].
  apply bind_Ok in H as (n0 & s0 & Hg & H). apply getN_Ok in Hg as [-> ->]. cbn [snd] in H.
  apply bind_Ok in H as ([] & [w6 n6] & Hsw & H).
  assert (n' = n6) as ->.
  { apply bind_Ok in H as (n0 & s0 & Hg & H). apply getN_Ok in Hg as [-> ->].
    cbn [snd] in H. destruct (conf_IPMasq _).
    - by apply inW_Ok in H.
    - by apply ret_Ok in H as [_ [= <-]]. }
  clear H.
  destruct (bool_decide (conf_Type (Conf n) = "ptp")) eqn:Ep.
  { apply bool_decide_eq_true_1 in Ep. split; [rewrite Ep; by left |].
    apply bind_Ok in Hsw as (link & [w1 n1] & Htap & Hsw).
    apply inW_Ok in Htap. cbn in Htap. subst n1.
    apply bind_Ok in Hsw as ([] & s1 & Hm & Hsw). apply modN_Ok in Hm as ->.
    cbn [fst snd] in Hsw.
    apply bind_Ok in Hsw as ([] & [w2 n2] & Haddr & Hsw).
    apply kvmSetupNetAddressing_kernel in Haddr as (_ & ip4 & ->).
    apply bind_Ok in Hsw as (n0 & s0 & Hg & Hsw). apply getN_Ok in Hg as [-> ->].
    apply bind_Ok in Hsw as (gw & s0 & Hgw & Hsw). apply lift_Ok in Hgw as [_ ->].
    apply bind_Ok in Hsw as ([] & [w3 n3] & Hhas & Hsw).
    apply wrapping_Ok, inW_Ok in Hhas. cbn in Hhas. subst n3.
    apply bind_Ok in Hsw as ([] & [w4 n4] & Hrm & Hsw).
    apply wrapping_Ok, inW_Ok in Hrm. cbn in Hrm. subst n4.
    apply wrapping_Ok, inW_Ok in Hsw. cbn in Hsw. subst n6. by eexists _, _. }
  destruct (bool_decide (conf_Type (Conf n) = "bridge")) eqn:Eb.
  { apply bool_decide_eq_true_1 in Eb. split; [rewrite Eb; right; by left |].
    apply bind_Ok in Hsw as (config & s0 & Hconf & Hsw). apply lift_Ok in Hconf as [_ ->].
    apply bind_Ok in Hsw as (br & [w1 n1] & Hens & Hsw).
    apply wrapping_Ok, inW_Ok in Hens. cbn in Hens. subst n1.
    apply bind_Ok in Hsw as (link & [w2 n2] & Htap & Hsw).
    apply wrapping_Ok, inW_Ok in Htap. cbn in Htap. subst n2.
    apply bind_Ok in Hsw as ([] & [w3 n3] & Hmaster & Hsw).
    apply try_Ok in Hmaster as [([] & [w3' n3'] & Hmaster & Hr) | (e & s3 & _ & Hr)].
    2: { apply bind_Ok in Hr as (? & ? & _ & Hr). done. }
    apply ret_Ok in Hr as [_ [= <- <-]]. apply inW_Ok in Hmaster. cbn in Hmaster. subst n3.
    apply bind_Ok in Hsw as ([] & s4 & Hm & Hsw). apply modN_Ok in Hm as ->.
    cbn [fst snd] in Hsw.
    apply bind_Ok in Hsw as ([] & [w4 n4] & Haddr & Hgw).
    apply kvmSetupNetAddressing_kernel in Haddr as (_ & ip4 & ->).
    destruct (IsGw config).
    - apply bind_Ok in Hgw as (n0 & s0 & Hg & Hgw). apply getN_Ok in Hg as [-> ->].
      apply bind_Ok in Hgw as (gw & s0 & Hgn & Hgw). apply lift_Ok in Hgn as [_ ->].
      apply wrapping_Ok, inW_Ok in Hgw. cbn in Hgw. subst n6. by eexists _, _.
    - apply ret_Ok in Hgw as [_ [= -> ->]]. by eexists _, _. }
  destruct (bool_decide (conf_Type (Conf n) = "macvlan")) eqn:Em; [| done].
  apply bool_decide_eq_true_1 in Em. split; [rewrite Em; do 2 right; by left |].
  apply bind_Ok in Hsw as (config & s0 & Hconf & Hsw). apply lift_Ok in Hconf as [_ ->].
  apply bind_Ok in Hsw as (link & [w1 n1] & Hdev & Hsw).
  apply inW_Ok in Hdev. cbn in Hdev. subst n1.
  apply bind_Ok in Hsw as ([] & s1 & Hm & Hsw). apply modN_Ok in Hm as ->.
  cbn [fst snd] in Hsw.
  apply kvmSetupNetAddressing_kernel in Hsw as (_ & ip4 & ->). by eexists _, _.
Qed.

Lemma set_runtime_addressing_provisioned (ip4 : IPConfig) (ifName : string) (n : ActiveNet) :
  conf_Type (Conf n) ∈ ["ptp"; "bridge"; "macvlan"] ->
  provisioned (set_runtime_addressing ip4 (set_IfName ifName n)).
Proof. intros Hty. split; [done |]. by exists ip4. Qed.

Lemma kvmSetup_net_provisioned (network : Networking) (podID : string) (i : nat)
    (w w' : World) (n n' : ActiveNet) :
  kvmSetup_net network podID i (w, n) = (Ok tt, (w', n')) ->
  provisioned n' /\
  (conf_Type (Conf n) <> "flannel" -> Conf n' = Conf n /\ ConfBytes n' = ConfBytes n).
Proof.
  intros H. destruct (decide (conf_Type (Conf n) = "flannel")) as [Hf | Hnf].
  - split; [| done].
    assert (exists w1 n1, kvmTransformFlannelNetwork (w, n) = (Ok tt, (w1, n1)))
      as (w1 & n1 & Ht).
    { unfold kvmSetup_net in H.
      apply bind_Ok in H as (n0 & s0 & Hg & H). apply getN_Ok in Hg as [-> ->].
      cbn [snd] in H. rewrite Hf in H.
      change (bool_decide ("flannel" = "flannel")) with true in H. cbv iota in H.
      apply bind_Ok in H as ([] & [w1 n1] & Ht & _). apply wrapping_Ok in Ht.
      by exists w1, n1. }
    destruct (decide (conf_Type (Conf n1) = "flannel")) as [Hf1 | Hnf1].
    + exfalso. unfold kvmSetup_net in H.
      apply bind_Ok in H as (n0 & s0 & Hg & H). apply getN_Ok in Hg as [-> ->].
      cbn [snd] in H. rewrite Hf in H.
      change (bool_decide ("flannel" = "flannel")) with true in H. cbv iota in H.
      apply bind_Ok in H as ([] & s1 & Ht' & H). apply wrapping_Ok in Ht'.
      rewrite Ht in Ht'. injection Ht' as <-.
      apply bind_Ok in H as (n0 & s0 & Hg & H). apply getN_Ok in Hg as [-> ->].
      cbn [snd] in H. rewrite Hf1 in H.
      by apply bind_Ok in H as ([] & ? & Hsw & _).
    + assert (kvmSetup_net network podID i (w, n) = kvmSetup_net network podID i (w1, n1))
        as Heq.
      { unfold kvmSetup_net.
        unfold bind at 1. unfold getN at 1, gets at 1. cbn [snd].
        unfold bind at 1. rewrite Hf.
        change (bool_decide ("flannel" = "flannel")) with true. cbv iota.
        unfold wrapping, try. rewrite Ht. unfold ret at 1.
        symmetry.
        unfold bind at 1. unfold getN at 1, gets at 1. cbn [snd].
        unfold bind at 1. rewrite (bool_decide_eq_false_2 _ Hnf1). unfold ret at 1.
        reflexivity. }
      rewrite Heq in H.
      apply kvmSetup_net_descriptor in H as (Hty & ifName & ip4 & ->); [| done].
      by apply set_runtime_addressing_provisioned.
  - apply kvmSetup_net_descriptor in H as (Hty & ifName & ip4 & ->); [| done].
    split; [by apply set_runtime_addressing_provisioned |].
    intros _. by destruct n.
Qed.

(** X16: the descriptors a successful run of the loop of [kvmSetup] leaves,
    one for each descriptor it was given and in the same order. Every one
    is of type ptp, bridge or macvlan (a flannel network has become its
    delegate), has all four addressing fields taken from the allocator's
    IPv4 block, and, unless it was a flannel network, still has the parsed
    configuration and the configuration bytes it was loaded with. *)
Theorem kvmSetup_loop_provisioned (network : Networking) (podID : string) (i : nat)
    (todo done : list ActiveNet) (w w' : World) :
  kvmSetup_loop network podID i todo w = (Ok done, w') ->
  Forall2 (fun n n' =>
             provisioned n' /\
             (conf_Type (Conf n) <> "flannel" ->
              Conf n' = Conf n /\ ConfBytes n' = ConfBytes n))
    todo done.
Proof.
  revert i done w. induction todo as [| n rest IH]; intros i done w H.
  - apply ret_Ok in H as [-> _]. constructor.
  - cbn [kvmSetup_loop] in H.
    apply bind_Ok in H as (n' & w1 & Hn & H).
    apply bind_Ok in H as (rest' & w2 & Hrest & H).
    apply ret_Ok in H as [-> ->].
    constructor; [| by eapply IH].
    unfold withNet in Hn.
    destruct (kvmSetup_net network podID i (w, n)) as [[[] | e | p] [w0 n0]] eqn:E;
      simplify_eq.
    by eapply kvmSetup_net_provisioned.
Qed.

Lemma kvmSetup_loop_provisioned_witness :
  let nets := [Sample.ptp_net; Sample.flannel_net; Sample.macvlan_net "eth0" ""] in
  let run := kvmSetup_loop (Sample.networking nets) Sample.pod 0 nets
               (Sample.world Sample.host Sample.with_lease []) in
  Forall2 (fun n n' =>
             provisioned n' /\
             (conf_Type (Conf n) <> "flannel" ->
              Conf n' = Conf n /\ ConfBytes n' = ConfBytes n))
    nets (match run.1 with Ok done => done | _ => [] end).
Proof.
  intros nets run.
  apply (kvmSetup_loop_provisioned (Sample.networking nets) Sample.pod 0 nets _
           (Sample.world Sample.host Sample.with_lease []) run.2).
  vm_compute. reflexivity.
Defined.

(** The kernel a successful setup of a ptp network leaves, on a host whose
    addresses and routes are on its links: one more link (the tap device,
    up), one more address (the gateway, on the tap device) and one more
    route (the /32 to the pod). *)
Lemma kvmSetup_net_ptp_kernel (network : Networking) (podID : string) (i : nat)
    (w w' : World) (n n' : ActiveNet) :
  conf_Type (Conf n) = "ptp" ->
  attached (w_kernel w) ->
  kvmSetup_net network podID i (w, n) = (Ok tt, (w', n')) ->
  exists ip4,
    let name := rt_IfName (Runtime n') in
    let idx := fresh_index (w_kernel w) in
    n' = set_runtime_addressing ip4 (set_IfName name n) /\
    link_named (w_kernel w) name = None /\
    k_links (w_kernel w') = k_links (w_kernel w) ++ [tapDevice name idx true] /\
    k_addrs (w_kernel w') =
      k_addrs (w_kernel w) ++
        [addrOn idx {| ipnet_IP := ipc_Gateway ip4; ipnet_Mask := ipnet_Mask (ipc_IP ip4) |}
           name] /\
    k_routes (w_kernel w') =
      k_routes (w_kernel w) ++
        [{| r_LinkIndex := idx; r_Scope := SCOPE_LINK;
            r_Dst := Some {| ipnet_IP := ipnet_IP (ipc_IP ip4);
                             ipnet_Mask := IPv4Mask 255 255 255 255 |};
            r_Src := []; r_Gw := [] |}].
Proof.
  intros Hty [Hwa Hwr] H. unfold kvmSetup_net in H.
  apply bind_Ok in H as (n0 & s0 & Hg & H). apply getN_Ok in Hg as [-> ->]. cbn [snd] in H.
  rewrite Hty in H.
  change (bool_decide ("ptp" = "flannel")) with false in H. cbv iota in H.
  apply bind_Ok in H as ([] & s1 & Hr & H). apply ret_Ok in Hr as [_ ->].
  apply bind_Ok in H as (n0 & s0 & Hg & H). apply getN_Ok in Hg as [-> ->]. cbn [snd] in H.
  rewrite Hty in H.
  change (bool_decide ("ptp" = "ptp")) with true in H. cbv iota in H.
  apply bind_Ok in H as ([] & [w5 n5] & Hptp & H).
  apply bind_Ok in Hptp as (link & [w1 n1] & Htap & Hptp).
  apply inW_eq in Htap as [Htap ->].
  apply bind_Ok in Hptp as ([] & s1 & Hm & Hptp). apply modN_Ok in Hm as ->.
  cbn [fst snd] in Hptp.
  apply bind_Ok in Hptp as ([] & [w2 n2] & Haddr & Hptp).
  apply bind_Ok in Hptp as (n0 & s0 & Hg & Hptp). apply getN_Ok in Hg as [-> ->].
  cbn [snd] in Hptp.
  apply bind_Ok in Hptp as (gw & s0 & Hgw & Hptp). apply lift_Ok in Hgw as [Hgw ->].
  apply bind_Ok in Hptp as ([] & [w3 n3] & Hhas & Hptp).
  apply wrapping_Ok, inW_eq in Hhas as [Hhas ->].
  apply bind_Ok in Hptp as ([] & [w4 n4] & Hrm & Hptp).
  apply wrapping_Ok, inW_eq in Hrm as [Hrm ->].
  apply wrapping_Ok, inW_eq in Hptp as [Hadd ->].
  (* the kernel after each step *)
  set (k := w_kernel w) in *. set (idx := fresh_index k) in *.
  apply setupTapDevice_kernel in Htap as (Hnew & Hlink & Hk1).
  fold k idx in Hnew, Hlink, Hk1.
  set (name := l_Name link) in *.
  apply kvmSetupNetAddressing_kernel in Haddr as (Hk2 & ip4 & ->).
  assert (l_Index link = idx) as Hidx by (by rewrite Hlink).
  assert (idx <> 0) as Hnz by (pose proof (fresh_index_pos k); unfold idx; lia).
  assert (Forall (fun a => a_LinkIndex a <> idx) (k_addrs k)) as Hna.
  { eapply Forall_impl; [exact Hwa |]. intros a Ha%link_indexed_lt. fold idx in Ha. lia. }
  assert (Forall (fun r => r_LinkIndex r <> idx) (k_routes k)) as Hnr.
  { eapply Forall_impl; [exact Hwr |]. intros r Hr%link_indexed_lt. fold idx in Hr. lia. }
  cbn in Hgw. injection Hgw as <-.
  apply (ensureHasAddr_first _ (tapDevice name idx true)) in Hhas as Hk3;
    [| by rewrite Hidx | | done |].
  2: { rewrite Hidx, Hk2, Hk1. unfold link_indexed. cbn [k_links set_links set_ip4_forward].
       by apply find_fresh_index. }
  2: { rewrite Hk2, Hk1, Hidx. by cbn. }
  destruct (removeAllRoutesOnLink_others _ _ _ _ Hrm) as (Hl4 & Ha4 & Hf4).
  apply removeAllRoutesOnLink_Ok in Hrm as [Hr4 _].
  apply filter_none_other in Hr4. cbv zeta in Hf4. rewrite Hf4 in Hr4. clear Hf4.
  rewrite ensureIndex_nonzero in Hr4 by (by rewrite Hidx).
  apply addRoute_kernel in Hadd as Hk5.
  assert (k_links (w_kernel w') = k_links (w_kernel w5) /\
          k_addrs (w_kernel w') = k_addrs (w_kernel w5) /\
          k_routes (w_kernel w') = k_routes (w_kernel w5) /\
          n' = set_runtime_addressing ip4 (set_IfName name n))
    as (Hl6 & Ha6 & Hr6 & ->).
  { apply bind_Ok in H as (n0 & s0 & Hg & H). apply getN_Ok in Hg as [-> ->].
    cbn [snd] in H.
    destruct (conf_IPMasq _).
    - apply inW_eq in H as [E6 ->].
      by apply ip_SetupIPMasq_frame in E6 as (? & ? & ?).
    - by apply ret_Ok in H as [_ [= <-]]. }
  exists ip4. cbn [rt_IfName Runtime set_runtime_addressing set_Runtime set_IfName set_rt_IfName].
  split; [done |]. split; [done |].
  rewrite Hl6, Ha6, Hr6, Hk5. cbn [k_links k_addrs k_routes set_routes].
  rewrite Hl4, Ha4, Hr4, Hk3, Hk2, Hk1, Hidx.
  cbn [k_links k_addrs k_routes set_routes set_addrs set_links set_ip4_forward].
  split; [done |]. split; [done |].
  rewrite List.filter_app. cbn. unfold on_link at 2. cbn.
  rewrite bool_decide_eq_true_2 by done. cbn.
  rewrite (filter_routes_all idx _ Hnr). by rewrite app_nil_r.
Qed.

(** The kernel a successful setup of a macvlan network leaves: one more
    link, the macvtap device; addresses and routes as before. *)
Lemma kvmSetup_net_macvlan_kernel (network : Networking) (podID : string) (i : nat)
    (w w' : World) (n n' : ActiveNet) :
  conf_Type (Conf n) = "macvlan" ->
  kvmSetup_net network podID i (w, n) = (Ok tt, (w', n')) ->
  exists kl,
    conf_Type (Conf n') = "macvlan" /\
    l_Name kl = rt_IfName (Runtime n') /\
    l_Index kl = fresh_index (w_kernel w) /\
    link_named (w_kernel w) (l_Name kl) = None /\
    k_links (w_kernel w') = k_links (w_kernel w) ++ [kl] /\
    k_addrs (w_kernel w') = k_addrs (w_kernel w) /\
    k_routes (w_kernel w') = k_routes (w_kernel w).
Proof.
  intros Hty H. unfold kvmSetup_net in H.
  apply bind_Ok in H as (n0 & s0 & Hg & H). apply getN_Ok in Hg as [-> ->]. cbn [snd] in H.
  rewrite Hty in H.
  change (bool_decide ("macvlan" = "flannel")) with false in H. cbv iota in H.
  apply bind_Ok in H as ([] & s1 & Hr & H). apply ret_Ok in Hr as [_ ->].
  apply bind_Ok in H as (n0 & s0 & Hg & H). apply getN_Ok in Hg as [-> ->]. cbn [snd] in H.
  rewrite Hty in H.
  change (bool_decide ("macvlan" = "ptp")) with false in H.
  change (bool_decide ("macvlan" = "bridge")) with false in H.
  change (bool_decide ("macvlan" = "macvlan")) with true in H. cbv iota in H.
  apply bind_Ok in H as ([] & [w6 n6] & Hsw & H).
  apply bind_Ok in Hsw as (config & s0 & Hconf & Hsw). apply lift_Ok in Hconf as [_ ->].
  apply bind_Ok in Hsw as (link & [w1 n1] & Hdev & Hsw).
  apply inW_eq in Hdev as [Hdev ->].
  apply bind_Ok in Hsw as ([] & s1 & Hm & Hsw). apply modN_Ok in Hm as ->.
  cbn [fst snd] in Hsw.
  apply kvmSetupNetAddressing_kernel in Hsw as (Hk6 & ip4 & ->).
  apply setupMacVTapDevice_kernel in Hdev
    as (master & mode & prefix & _ & _ & _ & Hlink & Hfree & Hk1).
  cbv zeta in *.
  assert (k_links (w_kernel w') = k_links (w_kernel w6) /\
          k_addrs (w_kernel w') = k_addrs (w_kernel w6) /\
          k_routes (w_kernel w') = k_routes (w_kernel w6) /\
          n' = set_runtime_addressing ip4 (set_IfName (l_Name link) n))
    as (Hl7 & Ha7 & Hr7 & ->).
  { apply bind_Ok in H as (n0 & s0 & Hg & H). apply getN_Ok in Hg as [-> ->].
    cbn [snd] in H.
    destruct (conf_IPMasq _).
    - apply inW_eq in H as [E6 ->].
      by apply ip_SetupIPMasq_frame in E6 as (? & ? & ?).
    - by apply ret_Ok in H as [_ [= <-]]. }
  eexists. rewrite Hl7, Ha7, Hr7, Hk6, Hk1.
  cbn [k_links k_addrs k_routes set_links set_ip4_forward].
  split_and!; [done | | | | reflexivity | done | done]; rewrite ?Hlink; try done.
Qed.

(** ** Setup followed by teardown *)

(** The release of the address and the removal of the masquerade rule
    leave links, addresses and routes alone. *)
Lemma teardownAddressing_frame (n : Networking) (an : ActiveNet) (w : World) :
  exists w' an',
    teardownAddressing n (w, an) = (Ok tt, (w', an')) /\
    k_links (w_kernel w') = k_links (w_kernel w) /\
    k_addrs (w_kernel w') = k_addrs (w_kernel w) /\
    k_routes (w_kernel w') = k_routes (w_kernel w) /\
    k_ip4_forward (w_kernel w') = k_ip4_forward (w_kernel w).
Proof.
  destruct an as [bytes [name type ipam masq m] rt].
  unfold teardownAddressing, bind, try, inW, modN, modify,
    getN, gets, execNetPlugin, ip_TeardownIPMasq, extern, stderr_PrintE, ret.
  cbn.
  destruct (w_fault w (w_clock w) _) as [e |]; destruct masq; cbn;
    try (destruct (w_fault w (S (w_clock w)) _) as [e' |]; cbn;
         [| destruct (bool_decide _); cbn]);
    eexists _, _; (split; [reflexivity | done]).
Qed.

(** The teardown of a ptp descriptor right after its setup. *)
Lemma ptp_teardown_restores (network : Networking) (podID : string) (i : nat)
    (w w1 : World) (n n1 : ActiveNet) :
  conf_Type (Conf n) = "ptp" ->
  attached (w_kernel w) ->
  kvmSetup_net network podID i (w, n) = (Ok tt, (w1, n1)) ->
  w_fault w1 (w_clock w1) (CRemovePersistentIface (rt_IfName (Runtime n1))) = None ->
  exists w2 n2,
    teardownKvmNet network (w1, n1) = (Ok tt, (w2, n2)) /\
    k_links (w_kernel w2) = k_links (w_kernel w) /\
    k_addrs (w_kernel w2) = k_addrs (w_kernel w) /\
    k_routes (w_kernel w2) = k_routes (w_kernel w).
Proof.
  intros Hty Hwf Hsetup Hquiet.
  destruct Hwf as [Hwa Hwr].
  destruct (kvmSetup_net_ptp_kernel _ _ _ _ _ _ _ Hty (conj Hwa Hwr) Hsetup)
    as (ip4 & Hn1 & Hnew & Hl & Ha & Hr).
  cbv zeta in *.
  set (name := rt_IfName (Runtime n1)) in *. set (idx := fresh_index (w_kernel w)) in *.
  assert (conf_Type (Conf n1) = "ptp") as Hty1 by (by rewrite Hn1).
  assert (Forall (fun a => a_LinkIndex a <> idx) (k_addrs (w_kernel w))) as Hna.
  { eapply Forall_impl; [exact Hwa |]. intros a Hi%link_indexed_lt. fold idx in Hi. lia. }
  assert (Forall (fun r => r_LinkIndex r <> idx) (k_routes (w_kernel w))) as Hnr.
  { eapply Forall_impl; [exact Hwr |]. intros r Hi%link_indexed_lt. fold idx in Hi. lia. }
  unfold teardownKvmNet, bind, teardownDevice.
  unfold bind, getN at 1, gets at 1. cbv beta iota. cbn [snd]. rewrite Hty1.
  change (bool_decide ("ptp" = "ptp") || bool_decide ("ptp" = "bridge")) with true.
  cbv iota. fold name.
  unfold try, inW, tuntap_RemovePersistentIface, extern. cbn [fst snd].
  rewrite Hquiet.
  assert (link_named (w_kernel w1) name = Some (tapDevice name idx true)) as Hfound.
  { unfold link_named in *. rewrite Hl.
    by apply find_app_new; [| apply bool_decide_eq_true_2]. }
  rewrite Hfound. cbn [l_type tapDevice l_Index]. unfold ret at 1.
  match goal with
  | |- context [teardownAddressing network (?w0, n1)] =>
      destruct (teardownAddressing_frame network n1 w0) as (w2 & n2 & -> & Hl2 & Ha2 & Hr2 & _)
  end.
  exists w2, n2. split; [done |].
  rewrite Hl2, Ha2, Hr2. cbn [w_kernel set_kernel called k_links k_addrs k_routes
    set_links set_addrs set_routes].
  rewrite Hl, Ha, Hr. split_and!.
  - apply filter_fresh_index. done.
  - rewrite filter_app, filter_cons_False, filter_nil, app_nil_r by (by intros []).
    by apply filter_addrs_all.
  - rewrite filter_app, filter_cons_False, filter_nil, app_nil_r by (by intros []).
    by apply filter_routes_other.
Qed.

Lemma ensureIndex_self (k : Kernel) (name : string) (kl : Link) :
  link_named k name = Some kl -> l_Index (ensureIndex k kl) = l_Index kl.
Proof.
  intros H. destruct (link_named_Name _ _ _ H) as [Hn _].
  unfold ensureIndex. rewrite Hn, H. by case_match.
Qed.

Lemma netlink_LinkDel_links (kl : Link) (name : string) (w w' : World) r :
  link_named (w_kernel w) name = Some kl ->
  netlink_LinkDel kl w = (r, w') ->
  k_ip4_forward (w_kernel w') = k_ip4_forward (w_kernel w) /\
  (k_links (w_kernel w') = k_links (w_kernel w) \/
   k_links (w_kernel w') = filter (fun x => l_Index x <> l_Index kl) (k_links (w_kernel w))).
Proof.
  intros Hl H.
  apply extern_run in H as (_ & _ & _ & [(? & _ & _ & ->) | (_ & H)]); [by split; [| left] |].
  cbv zeta in H. rewrite (ensureIndex_self _ _ _ Hl) in H.
  destruct (link_indexed _ _); injection H as _ <-; [| by split; [| left]].
  split; [done | by right].
Qed.

Lemma teardownDevice_links (w w' : World) (an an' : ActiveNet) r :
  teardownDevice (w, an) = (r, (w', an')) ->
  k_ip4_forward (w_kernel w') = k_ip4_forward (w_kernel w) /\
  linksAfterRemoval (rt_IfName (Runtime an)) (w_kernel w) (w_kernel w').
Proof.
  set (ifName := rt_IfName (Runtime an)).
  destruct (decide (conf_Type (Conf an) ∈ ["ptp"; "bridge"])) as [Htap | Hnt].
  - assert (bool_decide (conf_Type (Conf an) = "ptp")
            || bool_decide (conf_Type (Conf an) = "bridge") = true) as Hb.
    { apply elem_of_cons in Htap as [-> | Htap]; [reflexivity |].
      apply elem_of_cons in Htap as [-> | Htap]; [reflexivity |].
      by apply elem_of_nil in Htap. }
    unfold teardownDevice, bind, getN, gets. cbn [snd]. rewrite Hb.
    unfold try, inW, tuntap_RemovePersistentIface, extern, ret. cbn [fst snd]. fold ifName.
    destruct (w_fault w (w_clock w) _) as [e |]; [intros [= <- <- <-]; split; [done | by left] |].
    destruct (link_named (w_kernel w) ifName) as [l |] eqn:Hl;
      [destruct (l_type l) |]; intros [= <- <- <-]; (split; [done |]);
      try (by left).
    right. by exists l.
  - destruct (decide (conf_Type (Conf an) = "macvlan")) as [Hmv | Hnm].
    + rewrite (teardownDevice_macvlan _ _ Hmv). cbv zeta. fold ifName.
      destruct (netlink_LinkByName ifName w) as [[link | err | p] w1] eqn:Hfind.
      * pose proof (netlink_LinkByName_kernel _ _ _ _ Hfind) as Hk1.
        ran Hfind. destruct (link_named (w_kernel w) ifName) as [kl |] eqn:Hl; [| done].
        injection Hfind as <- _. rewrite <- Hk1 in Hl.
        destruct (netlink_LinkDel kl w1) as [[[] | err | p] w2] eqn:Hdel;
          intros [= <- <- <-];
          destruct (netlink_LinkDel_links _ _ _ _ _ Hl Hdel) as [Hf [Hs | Hs]];
          unfold linksAfterRemoval; cbn [w_kernel logged]; rewrite Hf, Hs, Hk1;
          (split; [done |]);
          try (by left); right; exists kl; by rewrite <- Hk1.
      * intros [= <- <- <-]. apply netlink_LinkByName_kernel in Hfind.
        cbn. rewrite Hfind. split; [done | by left].
      * intros [= <- <- <-]. apply netlink_LinkByName_kernel in Hfind.
        rewrite Hfind. split; [done | by left].
    + rewrite teardownDevice_other.
      * intros [= <- <- <-]. split; [done | by left].
      * intros Hin. apply elem_of_cons in Hin as [E | Hin].
        { apply Hnt. rewrite E. by left. }
        apply elem_of_cons in Hin as [E | Hin].
        { apply Hnt. rewrite E. right. by left. }
        apply elem_of_cons in Hin as [E | Hin]; [done |]. by apply elem_of_nil in Hin.
Qed.

Lemma teardownKvmNet_links (n : Networking) (w w' : World) (an an' : ActiveNet) :
  teardownKvmNet n (w, an) = (Ok tt, (w', an')) ->
  k_ip4_forward (w_kernel w') = k_ip4_forward (w_kernel w) /\
  linksAfterRemoval (rt_IfName (Runtime an)) (w_kernel w) (w_kernel w').
Proof.
  unfold teardownKvmNet. intros H.
  apply bind_Ok in H as (proceed & [w1 an1] & Hdev & H).
  apply teardownDevice_links in Hdev as [Hf Hl].
  destruct proceed.
  - destruct (teardownAddressing_frame n an1 w1) as (w2 & an2 & E & Hl2 & _ & _ & Hf2).
    rewrite E in H. injection H as <- <-.
    split; [congruence |]. unfold linksAfterRemoval in *. by rewrite Hl2.
  - by apply ret_Ok in H as [_ [= <- <-]].
Qed.

(** The teardown of a macvlan descriptor right after its setup. *)
Lemma macvlan_teardown_restores (network : Networking) (podID : string) (i : nat)
    (w w1 : World) (n n1 : ActiveNet) :
  conf_Type (Conf n) = "macvlan" ->
  attached (w_kernel w) ->
  kvmSetup_net network podID i (w, n) = (Ok tt, (w1, n1)) ->
  quiet w1 2 ->
  exists w2 n2,
    teardownKvmNet network (w1, n1) = (Ok tt, (w2, n2)) /\
    k_links (w_kernel w2) = k_links (w_kernel w) /\
    k_addrs (w_kernel w2) = k_addrs (w_kernel w) /\
    k_routes (w_kernel w2) = k_routes (w_kernel w).
Proof.
  intros Hty [Hwa Hwr] Hsetup Hq.
  destruct (kvmSetup_net_macvlan_kernel _ _ _ _ _ _ _ Hty Hsetup)
    as (kl & Hty1 & Hname & Hidx & Hfree & Hl & Ha & Hr).
  set (idx := fresh_index (w_kernel w)) in *.
  assert (Forall (fun a => a_LinkIndex a <> idx) (k_addrs (w_kernel w))) as Hna.
  { eapply Forall_impl; [exact Hwa |]. intros a Hi%link_indexed_lt. fold idx in Hi. lia. }
  assert (Forall (fun r => r_LinkIndex r <> idx) (k_routes (w_kernel w))) as Hnr.
  { eapply Forall_impl; [exact Hwr |]. intros r Hi%link_indexed_lt. fold idx in Hi. lia. }
  assert (link_named (w_kernel w1) (rt_IfName (Runtime n1)) = Some kl) as Hfound.
  { unfold link_named in *. rewrite Hl, <- Hname.
    by apply find_app_new; [| apply bool_decide_eq_true_2]. }
  unfold teardownKvmNet, bind. rewrite (teardownDevice_macvlan _ _ Hty1). cbv zeta.
  unfold netlink_LinkByName at 1, extern at 1.
  rewrite (quiet_at w1 2 0 _ Hq) by lia. rewrite Hfound.
  unfold netlink_LinkDel, extern.
  cbn [w_fault w_clock w_kernel called set_kernel].
  rewrite (quiet_at w1 2 1 _ Hq) by lia. cbv zeta.
  assert (set_kernel (w_kernel w1) (called (CLinkByName (rt_IfName (Runtime n1))) w1)
          = called (CLinkByName (rt_IfName (Runtime n1))) w1) as Hsame by (by destruct w1).
  rewrite (ensureIndex_self _ _ _ Hfound), Hidx.
  assert (link_indexed (w_kernel w1) idx = Some kl) as Hi.
  { unfold link_indexed. rewrite Hl. apply find_fresh_index. done. }
  rewrite Hi.
  match goal with
  | |- context [teardownAddressing network (?w0, n1)] =>
      destruct (teardownAddressing_frame network n1 w0) as (w2 & n2 & -> & Hl2 & Ha2 & Hr2 & _)
  end.
  exists w2, n2. split; [done |].
  rewrite Hl2, Ha2, Hr2.
  cbn [w_kernel set_kernel called k_links k_addrs k_routes set_links set_addrs set_routes].
  rewrite Hl, Ha, Hr. split_and!.
  - by apply filter_fresh_index.
  - by apply filter_addrs_all.
  - by apply filter_routes_other.
Qed.

(** X17: setting up a ptp or a macvlan network and tearing it down again
    leaves the host with the links, the addresses and the routes it had
    before. The host is one whose addresses and routes are on its links,
    and the environment does not fail the calls that remove the device
    (the first two of the teardown); what the plugin and the masquerade
    removal answer does not matter. *)
Theorem setup_teardown_restores (network : Networking) (podID : string) (i : nat)
    (w w1 : World) (n n1 : ActiveNet) :
  conf_Type (Conf n) ∈ ["ptp"; "macvlan"] ->
  attached (w_kernel w) ->
  kvmSetup_net network podID i (w, n) = (Ok tt, (w1, n1)) ->
  quiet w1 2 ->
  exists w2 n2,
    teardownKvmNet network (w1, n1) = (Ok tt, (w2, n2)) /\
    k_links (w_kernel w2) = k_links (w_kernel w) /\
    k_addrs (w_kernel w2) = k_addrs (w_kernel w) /\
    k_routes (w_kernel w2) = k_routes (w_kernel w).
Proof.
  intros Hty Hwf Hsetup Hq.
  apply elem_of_cons in Hty as [Hty | Hty].
  - eapply ptp_teardown_restores; try done.
    apply (quiet_at w1 2 0 _ Hq). lia.
  - apply elem_of_cons in Hty as [Hty | Hty]; [| by apply elem_of_nil in Hty].
    by eapply macvlan_teardown_restores.
Qed.

Lemma setup_teardown_restores_witness :
  exists w2 n2,
    teardownKvmNet (Sample.networking [Sample.ptp_net])
      (Sample.ptp_setup.2.1, Sample.ptp_setup.2.2) = (Ok tt, (w2, n2)) /\
    k_links (w_kernel w2) = k_links Sample.host /\
    k_addrs (w_kernel w2) = k_addrs Sample.host /\
    k_routes (w_kernel w2) = k_routes Sample.host.
Proof.
  apply (setup_teardown_restores (Sample.networking [Sample.ptp_net]) Sample.pod 0
           (Sample.world Sample.host ∅ []) Sample.ptp_setup.2.1
           Sample.ptp_net Sample.ptp_setup.2.2).
  - left.
  - split; apply Forall_nil_2.
  - vm_compute. reflexivity.
  - intros t c _. vm_compute. reflexivity.
Defined.

Lemma filter_keeps_other (ls : list Link) (kl l : Link) :
  NoDup (map l_Index ls) -> kl ∈ ls -> l ∈ ls -> l_Name l <> l_Name kl ->
  l ∈ filter (fun x => l_Index x <> l_Index kl) ls.
Proof.
  intros Hnd Hkl Hl Hne. apply list_elem_of_filter. split; [| done].
  intros Hi. apply Hne. f_equal.
  apply list_elem_of_lookup in Hkl as [i Hi1]. apply list_elem_of_lookup in Hl as [j Hj].
  assert (i = j) as ->.
  { eapply NoDup_lookup; [exact Hnd | |].
    - by rewrite list_lookup_fmap, Hi1.
    - rewrite list_lookup_fmap, Hj. cbn. by rewrite Hi. }
  congruence.
Qed.

Lemma NoDup_filter_index (P : Link -> Prop) `{forall x, Decision (P x)} (ls : list Link) :
  NoDup (map l_Index ls) -> NoDup (map l_Index (filter P ls)).
Proof.
  intros Hnd. eapply sublist_NoDup; [exact Hnd |].
  apply (fmap_sublist l_Index), sublist_filter.
Qed.

(** The loop of [teardownKvmNets] over the descriptors left. *)
Lemma teardown_loop_links (n : Networking) (todo : list ActiveNet) (w : World) :
  NoDup (map l_Index (k_links (w_kernel w))) ->
  exists done w',
    teardown_loop n todo w = (Ok done, w') /\
    k_ip4_forward (w_kernel w') = k_ip4_forward (w_kernel w) /\
    sublist (k_links (w_kernel w')) (k_links (w_kernel w)) /\
    forall l, l ∈ k_links (w_kernel w) ->
              l_Name l ∉ map (fun an => rt_IfName (Runtime an)) todo ->
              l ∈ k_links (w_kernel w').
Proof.
  revert w. induction todo as [| an rest IH]; intros w Hnd.
  - eexists _, _. by split_and!.
  - cbn [teardown_loop]. unfold bind, withNet.
    destruct (teardownKvmNet_returns n w an) as (w1 & an1 & E & _). rewrite E.
    apply teardownKvmNet_links in E as [Hf Hl].
    assert (NoDup (map l_Index (k_links (w_kernel w1))) /\
            sublist (k_links (w_kernel w1)) (k_links (w_kernel w)) /\
            forall l, l ∈ k_links (w_kernel w) -> l_Name l <> rt_IfName (Runtime an) ->
                      l ∈ k_links (w_kernel w1)) as (Hnd1 & Hsub1 & Hkeep1).
    { destruct Hl as [-> | (kl & Hkl & ->)]; [done |].
      split; [by apply NoDup_filter_index |]. split; [apply sublist_filter |].
      intros l Hin Hne. destruct (link_named_Name _ _ _ Hkl) as [Hn Hkin].
      apply filter_keeps_other; try done. by rewrite Hn. }
    destruct (IH w1 Hnd1) as (done & w' & -> & Hf' & Hsub & Hkeep).
    eexists _, _. split; [reflexivity |]. split; [congruence |].
    split; [by etrans |].
    intros l Hin Hnot. apply Hkeep.
    + apply Hkeep1; [done |]. intros E. apply Hnot. cbn. rewrite E. by left.
    + intros E. apply Hnot. cbn. by right.
Qed.

(** X18: teardown takes nothing from the host but the devices of its own
    descriptors. On a host whose links have distinct indices, every link
    whose name is not the interface name of a descriptor is still there
    after [kvmTeardown]; no link is added; and IP forwarding, which setup
    switched on, is left as it is. *)
Theorem kvmTeardown_keeps_other_links (n : Networking) (w : World) :
  NoDup (map l_Index (k_links (w_kernel w))) ->
  exists n' w',
    kvmTeardown n w = (Ok n', w') /\
    k_ip4_forward (w_kernel w') = k_ip4_forward (w_kernel w) /\
    sublist (k_links (w_kernel w')) (k_links (w_kernel w)) /\
    forall l, l ∈ k_links (w_kernel w) ->
              l_Name l ∉ map (fun an => rt_IfName (Runtime an)) (nets n) ->
              l ∈ k_links (w_kernel w').
Proof.
  intros Hnd. unfold kvmTeardown, teardownKvmNets, bind, try, unforwardPorts, extern.
  assert (exists w0, (match w_fault w (w_clock w) CUnforwardPorts with
                      | Some e => stderr_PrintE "error removing forwarded ports (kvm)" [] e
                                    (called CUnforwardPorts w)
                      | None => ret tt (set_kernel (set_portfw [] (w_kernel w))
                                          (called CUnforwardPorts w))
                      end) = (Ok tt, w0) /\
                     k_links (w_kernel w0) = k_links (w_kernel w) /\
                     k_ip4_forward (w_kernel w0) = k_ip4_forward (w_kernel w))
    as (w0 & E & Hl0 & Hf0).
  { destruct (w_fault w (w_clock w) CUnforwardPorts); by eexists. }
  destruct (w_fault w (w_clock w) CUnforwardPorts); rewrite E;
    (destruct (teardown_loop_links n (nets n) w0) as (done & w' & -> & Hf & Hsub & Hkeep);
     [by rewrite Hl0 |]);
    eexists _, _; (split; [reflexivity |]); rewrite Hl0 in *; (split; [congruence |]);
    by split.
Qed.

Lemma kvmTeardown_keeps_other_links_witness :
  let n := Sample.networking [Sample.ptp_setup.2.2] in
  let w := Sample.ptp_setup.2.1 in
  exists n' w',
    kvmTeardown n w = (Ok n', w') /\
    k_ip4_forward (w_kernel w') = k_ip4_forward (w_kernel w) /\
    sublist (k_links (w_kernel w')) (k_links (w_kernel w)) /\
    forall l, l ∈ k_links (w_kernel w) ->
              l_Name l ∉ map (fun an => rt_IfName (Runtime an)) (nets n) ->
              l ∈ k_links (w_kernel w').
Proof.
  intros n w. apply kvmTeardown_keeps_other_links.
  vm_compute. apply (bool_decide_unpack _). vm_compute. exact I.
Defined.
